(** * Pattern-intelligence observers: a shallow embedding and its properties

    The development follows the Python package
    [scripts/automation/observers]: one module per source file, with the
    names of the source.  Conventions of the embedding:

    - a Python [float] is an exact rational ([Q]); rounding is not modelled.
      Comparisons of floats are [Qle_bool], [Qeq_bool] and [Qltb];
    - a Python [int] is a [Z]; list lengths and window sizes are [nat];
    - [str] is [string] (a byte string, UTF-8 for non-ASCII literals);
    - a [dict] literal is an association list in insertion order, a [set]
      is a [gset];
    - a raised exception is [None] in an [option] result;
    - the wall clock ([datetime.now()]) is an explicit argument. *)

From stdpp Require Import gmap strings list sorting pretty.
From Stdlib Require Import QArith Qminmax Qabs Qround Lqa Lia ZArith Ascii.

#[local] Set Warnings "-clear-no-such-hyp".

(** ** Floats as rationals *)

Module pyfloat.
Local Open Scope Q_scope.

(** [x < y] on floats. *)
Definition Qltb (x y : Q) : bool := negb (Qle_bool y x).

(** [sum(xs)] of a list of floats: a left fold from 0. *)
Definition Qsum (xs : list Q) : Q := fold_left Qplus xs 0.

(** [len(xs)] as a float. *)
Definition Qlen {A} (xs : list A) : Q := inject_Z (Z.of_nat (length xs)).
End pyfloat.
Import pyfloat.

(** ** Strings: the [str] methods and format specifications in use *)

Module pystr.
Local Open Scope string_scope.

(** [needle in hay]. *)
Fixpoint contains (needle hay : string) : bool :=
  String.prefix needle hay
  || match hay with
     | EmptyString => false
     | String _ hay' => contains needle hay'
     end.

(** [s.lstrip(c)] for a single character [c]. *)
Fixpoint lstrip_char (c : ascii) (s : string) : string :=
  match s with
  | String c' s' => if Ascii.eqb c c' then lstrip_char c s' else s
  | EmptyString => EmptyString
  end.

(** [s.replace(a, b)] for single characters. *)
Fixpoint replace_char (a b : ascii) (s : string) : string :=
  match s with
  | String c s' => String (if Ascii.eqb c a then b else c) (replace_char a b s')
  | EmptyString => EmptyString
  end.

Definition is_upper (c : ascii) : bool :=
  let n := nat_of_ascii c in (65 <=? n)%nat && (n <=? 90)%nat.
Definition is_lower (c : ascii) : bool :=
  let n := nat_of_ascii c in (97 <=? n)%nat && (n <=? 122)%nat.
Definition to_lower (c : ascii) : ascii :=
  if is_upper c then ascii_of_nat (nat_of_ascii c + 32) else c.
Definition to_upper (c : ascii) : ascii :=
  if is_lower c then ascii_of_nat (nat_of_ascii c - 32) else c.

(** [s.lower()], on the ASCII letters. *)
Fixpoint lower (s : string) : string :=
  match s with
  | String c s' => String (to_lower c) (lower s')
  | EmptyString => EmptyString
  end.

(** [s.title()], on the ASCII letters: a letter that follows a non-letter
    is upper-cased, every other letter lower-cased. *)
Fixpoint title_from (after_letter : bool) (s : string) : string :=
  match s with
  | String c s' =>
      let letter := is_upper c || is_lower c in
      String (if after_letter then to_lower c else to_upper c)
             (title_from letter s')
  | EmptyString => EmptyString
  end.
Definition str_title (s : string) : string := title_from false s.

(** [sep.join(parts)]. *)
Definition join (sep : string) (parts : list string) : string :=
  String.concat sep parts.

(** [s[n:]]. *)
Fixpoint drop_chars (n : nat) (s : string) : string :=
  match n, s with
  | S n', String _ s' => drop_chars n' s'
  | _, _ => s
  end.

(** The last [width] decimal digits of [n], most significant first: the
    zero-padded rendering of [0 <= n < 10 ^ width]. *)
Definition digit_char (d : Z) : ascii := ascii_of_nat (48 + Z.to_nat d).

Fixpoint zpad (width : nat) (n : Z) : string :=
  match width with
  | O => EmptyString
  | S w => zpad w (n / 10) ++ String (digit_char (n mod 10)) EmptyString
  end.

Definition digit_val (c : ascii) : option Z :=
  let n := nat_of_ascii c in
  if (48 <=? n)%nat && (n <=? 57)%nat then Some (Z.of_nat (n - 48)) else None.

(** Reading a run of decimal digits; [None] on any other character. *)
Fixpoint parse_digits_from (acc : Z) (s : string) : option Z :=
  match s with
  | EmptyString => Some acc
  | String c s' =>
      match digit_val c with
      | Some d => parse_digits_from (10 * acc + d) s'
      | None => None
      end
  end.
Definition parse_digits (s : string) : option Z := parse_digits_from 0 s.

(** Rounding to the nearest integer, ties to even, as the [f] and [%]
    presentation types round. *)
Definition round_half_even (q : Q) : Z :=
  let f := Qfloor q in
  match Qcompare (q - inject_Z f) (1 # 2) with
  | Lt => f
  | Gt => (f + 1)%Z
  | Eq => if Z.even f then f else (f + 1)%Z
  end.

(** [format(q, '.{prec}f')]. *)
Definition format_fixed (prec : nat) (q : Q) : string :=
  let scale := (10 ^ Z.of_nat prec)%Z in
  let scaled := round_half_even (Qabs q * inject_Z scale) in
  (if Qltb q 0 then "-" else "")
  ++ pretty (scaled / scale)%Z
  ++ match prec with
     | O => ""
     | _ => "." ++ zpad prec (scaled mod scale)
     end.

(** [format(q, '.0%')]. *)
Definition format_percent0 (q : Q) : string :=
  format_fixed 0 (q * 100) ++ "%".

End pystr.

(** ** executive_models.py *)

Module executive_models.
Import pystr.
Local Open Scope Q_scope.
Local Open Scope string_scope.

Inductive TrendDirection := UP | DOWN | STABLE | DIR_INSUFFICIENT_DATA.
Inductive TrendSignificance := SIGNIFICANT | NORMAL | SIG_INSUFFICIENT_DATA.
Inductive AlertSeverity := CRITICAL | WARNING | INFO.
Inductive AlertCategory :=
  PRODUCTIVITY | ALIGNMENT | PATTERN_CHANGE | OPPORTUNITY | ANOMALY.
Inductive ProgressIndicator := ON_TRACK | AT_RISK | BEHIND | UNKNOWN.

#[global] Instance AlertSeverity_eq_dec : EqDecision AlertSeverity.
Proof. solve_decision. Defined.

(** [date] and a naive [datetime] (the program only builds datetimes with
    [datetime.now()], which carries no time zone). *)
Record date := mk_date { year : Z; month : Z; day : Z }.
Record datetime := mk_datetime {
  dt_date : date; hour : Z; minute : Z; second : Z; microsecond : Z }.

(** The values a [Dict[str, Any]] of this program holds. *)
Unset Elimination Schemes.
Inductive Any :=
| ANone
| ABool (b : bool)
| AInt (z : Z)
| AFloat (q : Q)
| AStr (s : string)
| AList (l : list Any)
| ADict (d : list (string * Any)).
Set Elimination Schemes.

Record WeeklySnapshot := mk_WeeklySnapshot {
  period_start : date;
  period_end : date;
  total_events : Z;
  productivity_score : Q;
  strategic_alignment_avg : Q;
  top_patterns : list string;
  anomalies_detected : Z;
  pattern_diversity : Q;
  success_signal_rate : Q;
  active_hours : Z }.

Record TrendMetric := mk_TrendMetric {
  metric_name : string;
  current_value : Q;
  previous_value : Q;
  change_percent : Q;
  trend_direction : TrendDirection;
  significance : TrendSignificance;
  z_score : Q;
  data_points : Z }.

Record ExecutiveAlert := mk_ExecutiveAlert {
  alert_id : string;
  severity : AlertSeverity;
  category : AlertCategory;
  title : string;
  description : string;
  data_evidence : list (string * Any);
  suggested_actions : list string;
  created_at : datetime;
  acknowledged : bool;
  threshold_triggered : option Q }.

Record GoalCorrelation := mk_GoalCorrelation {
  okr_id : string;
  okr_title : string;
  aligned_patterns : list string;
  alignment_score : Q;
  progress_indicator : ProgressIndicator;
  recommendations : list string;
  evidence_count : Z;
  last_activity : option datetime }.

Record ExecutiveInsightReport := mk_ExecutiveInsightReport {
  generated_at : datetime;
  weekly_snapshot : WeeklySnapshot;
  trend_metrics : list TrendMetric;
  alerts : list ExecutiveAlert;
  goal_correlations : list GoalCorrelation;
  summary : string;
  metadata : list (string * Any) }.

(** *** Helper functions *)

Definition calculate_productivity_score
    (success_signals total_events : Z) (avg_confidence : Q)
    (active_hours : Z) : Q :=
  if (total_events =? 0)%Z then 0
  else
    let success_rate :=
      Qmin 1 (inject_Z success_signals / inject_Z (Z.max 1 total_events)) in
    let confidence_score := avg_confidence in
    let activity_score := Qmin 1 (inject_Z active_hours / 8) in
    success_rate * 0.4 + confidence_score * 0.3 + activity_score * 0.3.

Definition calculate_change_percent (current previous : Q) : Q :=
  if Qeq_bool previous 0 then (if Qltb 0 current then 100 else 0)
  else ((current - previous) / previous) * 100.

Definition determine_trend_direction (change_percent threshold : Q)
  : TrendDirection :=
  if Qltb (Qabs change_percent) threshold then STABLE
  else if Qltb 0 change_percent then UP else DOWN.

Definition calculate_z_score (value mean std_dev : Q) : Q :=
  if Qeq_bool std_dev 0 then 0 else (value - mean) / std_dev.

Definition is_significant_change (change_percent z_score : Q)
  : TrendSignificance :=
  if Qltb 20 (Qabs change_percent) || Qltb 1 (Qabs z_score)
  then SIGNIFICANT else NORMAL.

(** *** Enum values and their parsing ([Enum(value)]) *)

Definition TrendDirection_value (d : TrendDirection) : string :=
  match d with
  | UP => "up" | DOWN => "down" | STABLE => "stable"
  | DIR_INSUFFICIENT_DATA => "insufficient_data"
  end.

Definition TrendDirection_of_value (s : string) : option TrendDirection :=
  if String.eqb s "up" then Some UP
  else if String.eqb s "down" then Some DOWN
  else if String.eqb s "stable" then Some STABLE
  else if String.eqb s "insufficient_data" then Some DIR_INSUFFICIENT_DATA
  else None.

Definition TrendSignificance_value (d : TrendSignificance) : string :=
  match d with
  | SIGNIFICANT => "significant" | NORMAL => "normal"
  | SIG_INSUFFICIENT_DATA => "insufficient_data"
  end.

Definition TrendSignificance_of_value (s : string)
  : option TrendSignificance :=
  if String.eqb s "significant" then Some SIGNIFICANT
  else if String.eqb s "normal" then Some NORMAL
  else if String.eqb s "insufficient_data" then Some SIG_INSUFFICIENT_DATA
  else None.

Definition AlertSeverity_value (d : AlertSeverity) : string :=
  match d with
  | CRITICAL => "critical" | WARNING => "warning" | INFO => "info"
  end.

Definition AlertSeverity_of_value (s : string) : option AlertSeverity :=
  if String.eqb s "critical" then Some CRITICAL
  else if String.eqb s "warning" then Some WARNING
  else if String.eqb s "info" then Some INFO
  else None.

Definition AlertCategory_value (d : AlertCategory) : string :=
  match d with
  | PRODUCTIVITY => "productivity" | ALIGNMENT => "alignment"
  | PATTERN_CHANGE => "pattern_change" | OPPORTUNITY => "opportunity"
  | ANOMALY => "anomaly"
  end.

Definition AlertCategory_of_value (s : string) : option AlertCategory :=
  if String.eqb s "productivity" then Some PRODUCTIVITY
  else if String.eqb s "alignment" then Some ALIGNMENT
  else if String.eqb s "pattern_change" then Some PATTERN_CHANGE
  else if String.eqb s "opportunity" then Some OPPORTUNITY
  else if String.eqb s "anomaly" then Some ANOMALY
  else None.

Definition ProgressIndicator_value (d : ProgressIndicator) : string :=
  match d with
  | ON_TRACK => "on_track" | AT_RISK => "at_risk" | BEHIND => "behind"
  | UNKNOWN => "unknown"
  end.

Definition ProgressIndicator_of_value (s : string)
  : option ProgressIndicator :=
  if String.eqb s "on_track" then Some ON_TRACK
  else if String.eqb s "at_risk" then Some AT_RISK
  else if String.eqb s "behind" then Some BEHIND
  else if String.eqb s "unknown" then Some UNKNOWN
  else None.

(** *** Dates: the values [date] and [datetime] can hold, [isoformat] and
    [fromisoformat] *)

Definition is_leap (y : Z) : bool :=
  ((y mod 4 =? 0) && (negb (y mod 100 =? 0) || (y mod 400 =? 0)))%Z.

Definition days_in_month (y m : Z) : Z :=
  if (m =? 2)%Z then (if is_leap y then 29 else 28)%Z
  else if ((m =? 4) || (m =? 6) || (m =? 9) || (m =? 11))%Z then 30%Z
  else 31%Z.

Definition valid_date (d : date) : bool :=
  ((1 <=? year d) && (year d <=? 9999)
   && (1 <=? month d) && (month d <=? 12)
   && (1 <=? day d) && (day d <=? days_in_month (year d) (month d)))%Z.

Definition valid_time (h m s us : Z) : bool :=
  ((0 <=? h) && (h <=? 23) && (0 <=? m) && (m <=? 59)
   && (0 <=? s) && (s <=? 59) && (0 <=? us) && (us <=? 999999))%Z.

Definition valid_datetime (t : datetime) : bool :=
  valid_date (dt_date t)
  && valid_time (hour t) (minute t) (second t) (microsecond t).

Definition date_isoformat (d : date) : string :=
  zpad 4 (year d) ++ "-" ++ zpad 2 (month d) ++ "-" ++ zpad 2 (day d).

(** [date.fromisoformat] on the [YYYY-MM-DD] form; [None] is [ValueError]. *)
Definition date_fromisoformat (s : string) : option date :=
  match s with
  | String y1 (String y2 (String y3 (String y4 (String "-"
      (String m1 (String m2 (String "-"
        (String d1 (String d2 EmptyString))))))))) =>
      y ← parse_digits (String y1 (String y2 (String y3 (String y4 ""))));
      m ← parse_digits (String m1 (String m2 ""));
      d ← parse_digits (String d1 (String d2 ""));
      let r := mk_date y m d in
      if valid_date r then Some r else None
  | _ => None
  end.

Definition datetime_isoformat (t : datetime) : string :=
  date_isoformat (dt_date t) ++ "T"
  ++ zpad 2 (hour t) ++ ":" ++ zpad 2 (minute t) ++ ":" ++ zpad 2 (second t)
  ++ (if (microsecond t =? 0)%Z then "" else "." ++ zpad 6 (microsecond t)).

(** The time part [HH:MM:SS] or [HH:MM:SS.ffffff]. *)
Definition time_fromisoformat (s : string) : option (Z * Z * Z * Z) :=
  match s with
  | String h1 (String h2 (String ":" (String m1 (String m2 (String ":"
      (String s1 (String s2 frac))))))) =>
      h ← parse_digits (String h1 (String h2 ""));
      m ← parse_digits (String m1 (String m2 ""));
      sec ← parse_digits (String s1 (String s2 ""));
      us ← match frac with
           | EmptyString => Some 0%Z
           | String "." digits =>
               if (String.length digits =? 6)%nat then parse_digits digits
               else None
           | _ => None
           end;
      if valid_time h m sec us then Some (h, m, sec, us) else None
  | _ => None
  end.

(** [datetime.fromisoformat] on the forms [datetime.isoformat] produces
    for a naive datetime: a date, one separator character, a time. *)
Definition datetime_fromisoformat (s : string) : option datetime :=
  d ← date_fromisoformat (String.substring 0 10 s);
  match drop_chars 10 s with
  | String _ time_part =>
      '(h, m, sec, us) ← time_fromisoformat time_part;
      Some (mk_datetime d h m sec us)
  | EmptyString => None
  end.

(** [datetime.now().strftime("%Y%m%d_%H%M%S")] behind [generate_alert_id]. *)
Definition generate_alert_id (now : datetime) : string :=
  "alert_" ++ zpad 4 (year (dt_date now)) ++ zpad 2 (month (dt_date now))
  ++ zpad 2 (day (dt_date now)) ++ "_" ++ zpad 2 (hour now)
  ++ zpad 2 (minute now) ++ zpad 2 (second now).

(** *** Reading a [Dict[str, Any]] *)

(** [data[k]]; [None] is [KeyError]. *)
Fixpoint dict_get (k : string) (d : list (string * Any)) : option Any :=
  match d with
  | [] => None
  | (k', v) :: d' => if String.eqb k k' then Some v else dict_get k d'
  end.

(** [data.get(k, dflt)]. *)
Definition dict_get_default (k : string) (dflt : Any)
    (d : list (string * Any)) : Any :=
  default dflt (dict_get k d).

(** Truth value of an object. *)
Definition truthy (v : Any) : bool :=
  match v with
  | ANone => false
  | ABool b => b
  | AInt z => negb (z =? 0)%Z
  | AFloat q => negb (Qeq_bool q 0)
  | AStr s => negb (String.eqb s "")
  | AList l => match l with [] => false | _ => true end
  | ADict d => match d with [] => false | _ => true end
  end.

(** The record fields are typed, so a dictionary entry of another shape
    than the field's annotation has no image ([None]). *)
Definition as_str (v : Any) : option string :=
  match v with AStr s => Some s | _ => None end.
Definition as_int (v : Any) : option Z :=
  match v with AInt z => Some z | _ => None end.
Definition as_float (v : Any) : option Q :=
  match v with AFloat q => Some q | AInt z => Some (inject_Z z) | _ => None end.
Definition as_bool (v : Any) : option bool :=
  match v with ABool b => Some b | _ => None end.
Definition as_list (v : Any) : option (list Any) :=
  match v with AList l => Some l | _ => None end.
Definition as_dict (v : Any) : option (list (string * Any)) :=
  match v with ADict d => Some d | _ => None end.
Definition as_str_list (v : Any) : option (list string) :=
  l ← as_list v; mapM as_str l.
Definition as_optional_float (v : Any) : option (option Q) :=
  match v with ANone => Some None | _ => Some <$> as_float v end.

(** [conv(data[k])] and [conv(data.get(k, dflt))]. *)
Definition field {A} (k : string) (conv : Any -> option A)
    (data : list (string * Any)) : option A :=
  match dict_get k data with Some v => conv v | None => None end.
Definition field_default {A} (k : string) (dflt : Any)
    (conv : Any -> option A) (data : list (string * Any)) : option A :=
  conv (dict_get_default k dflt data).

(** A string entry read through a parser ([fromisoformat], [Enum(...)]). *)
Definition parsed {A} (parse : string -> option A) (v : Any) : option A :=
  match as_str v with Some s => parse s | None => None end.

(** [T.from_dict(data[k])] and [[T.from_dict(x) for x in data[k]]]. *)
Definition from_nested {A} (from_dict : list (string * Any) -> option A)
    (v : Any) : option A :=
  match as_dict v with Some d => from_dict d | None => None end.
Definition from_nested_list {A}
    (from_dict : list (string * Any) -> option A) (v : Any)
  : option (list A) :=
  match as_list v with
  | Some l => mapM (from_nested from_dict) l
  | None => None
  end.

(** *** [to_dict] and [from_dict] *)

Definition WeeklySnapshot_to_dict (s : WeeklySnapshot)
  : list (string * Any) :=
  [ ("period_start", AStr (date_isoformat (period_start s)));
    ("period_end", AStr (date_isoformat (period_end s)));
    ("total_events", AInt (total_events s));
    ("productivity_score", AFloat (productivity_score s));
    ("strategic_alignment_avg", AFloat (strategic_alignment_avg s));
    ("top_patterns", AList (AStr <$> top_patterns s));
    ("anomalies_detected", AInt (anomalies_detected s));
    ("pattern_diversity", AFloat (pattern_diversity s));
    ("success_signal_rate", AFloat (success_signal_rate s));
    ("active_hours", AInt (active_hours s)) ].

Definition WeeklySnapshot_from_dict (data : list (string * Any))
  : option WeeklySnapshot :=
  ps ← field "period_start" (parsed date_fromisoformat) data;
  pe ← field "period_end" (parsed date_fromisoformat) data;
  te ← field "total_events" as_int data;
  prod ← field "productivity_score" as_float data;
  saa ← field "strategic_alignment_avg" as_float data;
  tp ← field "top_patterns" as_str_list data;
  ad ← field "anomalies_detected" as_int data;
  pd ← field_default "pattern_diversity" (AFloat 0) as_float data;
  ssr ← field_default "success_signal_rate" (AFloat 0) as_float data;
  ah ← field_default "active_hours" (AInt 0) as_int data;
  Some (mk_WeeklySnapshot ps pe te prod saa tp ad pd ssr ah).

Definition TrendMetric_to_dict (t : TrendMetric) : list (string * Any) :=
  [ ("metric_name", AStr (metric_name t));
    ("current_value", AFloat (current_value t));
    ("previous_value", AFloat (previous_value t));
    ("change_percent", AFloat (change_percent t));
    ("trend_direction", AStr (TrendDirection_value (trend_direction t)));
    ("significance", AStr (TrendSignificance_value (significance t)));
    ("z_score", AFloat (z_score t));
    ("data_points", AInt (data_points t)) ].

Definition TrendMetric_from_dict (data : list (string * Any))
  : option TrendMetric :=
  mn ← field "metric_name" as_str data;
  cv ← field "current_value" as_float data;
  pv ← field "previous_value" as_float data;
  cp ← field "change_percent" as_float data;
  td ← field "trend_direction" (parsed TrendDirection_of_value) data;
  sg ← field "significance" (parsed TrendSignificance_of_value) data;
  z ← field_default "z_score" (AFloat 0) as_float data;
  dp ← field_default "data_points" (AInt 1) as_int data;
  Some (mk_TrendMetric mn cv pv cp td sg z dp).

Definition ExecutiveAlert_to_dict (a : ExecutiveAlert)
  : list (string * Any) :=
  [ ("alert_id", AStr (alert_id a));
    ("severity", AStr (AlertSeverity_value (severity a)));
    ("category", AStr (AlertCategory_value (category a)));
    ("title", AStr (title a));
    ("description", AStr (description a));
    ("data_evidence", ADict (data_evidence a));
    ("suggested_actions", AList (AStr <$> suggested_actions a));
    ("created_at", AStr (datetime_isoformat (created_at a)));
    ("acknowledged", ABool (acknowledged a));
    ("threshold_triggered",
      match threshold_triggered a with Some q => AFloat q | None => ANone end)
  ].

Definition ExecutiveAlert_from_dict (data : list (string * Any))
  : option ExecutiveAlert :=
  aid ← field "alert_id" as_str data;
  sev ← field "severity" (parsed AlertSeverity_of_value) data;
  cat ← field "category" (parsed AlertCategory_of_value) data;
  ttl ← field "title" as_str data;
  dsc ← field "description" as_str data;
  ev ← field "data_evidence" as_dict data;
  sa ← field "suggested_actions" as_str_list data;
  ca ← field "created_at" (parsed datetime_fromisoformat) data;
  ack ← field_default "acknowledged" (ABool false) as_bool data;
  tt ← field_default "threshold_triggered" ANone as_optional_float data;
  Some (mk_ExecutiveAlert aid sev cat ttl dsc ev sa ca ack tt).

Definition GoalCorrelation_to_dict (g : GoalCorrelation)
  : list (string * Any) :=
  [ ("okr_id", AStr (okr_id g));
    ("okr_title", AStr (okr_title g));
    ("aligned_patterns", AList (AStr <$> aligned_patterns g));
    ("alignment_score", AFloat (alignment_score g));
    ("progress_indicator",
      AStr (ProgressIndicator_value (progress_indicator g)));
    ("recommendations", AList (AStr <$> recommendations g));
    ("evidence_count", AInt (evidence_count g));
    ("last_activity",
      match last_activity g with
      | Some t => AStr (datetime_isoformat t)
      | None => ANone
      end) ].

Definition GoalCorrelation_from_dict (data : list (string * Any))
  : option GoalCorrelation :=
  oid ← field "okr_id" as_str data;
  ttl ← field "okr_title" as_str data;
  ap ← field "aligned_patterns" as_str_list data;
  sc ← field "alignment_score" as_float data;
  pi ← field "progress_indicator" (parsed ProgressIndicator_of_value) data;
  rec ← field "recommendations" as_str_list data;
  ec ← field_default "evidence_count" (AInt 0) as_int data;
  la ← (if truthy (dict_get_default "last_activity" ANone data)
        then Some <$> field "last_activity"
                        (parsed datetime_fromisoformat) data
        else Some None);
  Some (mk_GoalCorrelation oid ttl ap sc pi rec ec la).

Definition ExecutiveInsightReport_to_dict (r : ExecutiveInsightReport)
  : list (string * Any) :=
  [ ("generated_at", AStr (datetime_isoformat (generated_at r)));
    ("weekly_snapshot", ADict (WeeklySnapshot_to_dict (weekly_snapshot r)));
    ("trend_metrics",
      AList ((fun t => ADict (TrendMetric_to_dict t)) <$> trend_metrics r));
    ("alerts",
      AList ((fun a => ADict (ExecutiveAlert_to_dict a)) <$> alerts r));
    ("goal_correlations",
      AList ((fun g => ADict (GoalCorrelation_to_dict g))
               <$> goal_correlations r));
    ("summary", AStr (summary r));
    ("metadata", ADict (metadata r)) ].

Definition ExecutiveInsightReport_from_dict (data : list (string * Any))
  : option ExecutiveInsightReport :=
  ga ← field "generated_at" (parsed datetime_fromisoformat) data;
  ws ← field "weekly_snapshot" (from_nested WeeklySnapshot_from_dict) data;
  tm ← field "trend_metrics"
         (from_nested_list TrendMetric_from_dict) data;
  al ← field "alerts" (from_nested_list ExecutiveAlert_from_dict) data;
  gc ← field "goal_correlations"
         (from_nested_list GoalCorrelation_from_dict) data;
  sm ← field "summary" as_str data;
  md ← field_default "metadata" (ADict []) as_dict data;
  Some (mk_ExecutiveInsightReport ga ws tm al gc sm md).


(** *** Well-formed values: the dates and times inside are ones the
    [date] and [datetime] constructors accept *)

Definition wf_WeeklySnapshot (s : WeeklySnapshot) : bool :=
  valid_date (period_start s) && valid_date (period_end s).

Definition wf_ExecutiveAlert (a : ExecutiveAlert) : bool :=
  valid_datetime (created_at a).

Definition wf_GoalCorrelation (g : GoalCorrelation) : bool :=
  match last_activity g with
  | Some t => valid_datetime t
  | None => true
  end.

Definition wf_ExecutiveInsightReport (r : ExecutiveInsightReport) : bool :=
  valid_datetime (generated_at r)
  && wf_WeeklySnapshot (weekly_snapshot r)
  && forallb wf_ExecutiveAlert (alerts r)
  && forallb wf_GoalCorrelation (goal_correlations r).

(** *** The views of [ExecutiveInsightReport] *)

Definition critical_alerts (r : ExecutiveInsightReport)
  : list ExecutiveAlert :=
  filter (fun a => severity a = CRITICAL) (alerts r).

Definition warning_alerts (r : ExecutiveInsightReport)
  : list ExecutiveAlert :=
  filter (fun a => severity a = WARNING) (alerts r).

Definition is_significant (t : TrendMetric) : bool :=
  match significance t with SIGNIFICANT => true | _ => false end.

Definition significant_trends (r : ExecutiveInsightReport)
  : list TrendMetric :=
  filter (fun t => is_significant t = true) (trend_metrics r).

(** [g.progress_indicator in [AT_RISK, BEHIND]]. *)
Definition is_at_risk (g : GoalCorrelation) : bool :=
  match progress_indicator g with
  | AT_RISK | BEHIND => true
  | _ => false
  end.

Definition at_risk_goals (r : ExecutiveInsightReport)
  : list GoalCorrelation :=
  filter (fun g => is_at_risk g = true) (goal_correlations r).

End executive_models.

(** ** pattern_models.py *)

Module pattern_models.
Local Open Scope Q_scope.

Record CommandSequence := mk_CommandSequence {
  sequence : list string;
  occurrence_count : Z;
  avg_duration_ms : Z;
  confidence : Q }.

Record FileCluster := mk_FileCluster {
  files : list string;
  co_occurrence_count : Z;
  jaccard_similarity : Q;
  cluster_id : string }.

Record TimePatternSummary := mk_TimePatternSummary {
  peak_hours : list Z;
  peak_days : list Z;
  avg_session_duration_minutes : Q;
  session_count_by_hour : list (Z * Z);
  most_productive_hour : option Z }.

Record SuccessCorrelation := mk_SuccessCorrelation {
  activity_type : string;
  activity_pattern : string;
  outcome_type : string;
  correlation_strength : Q;
  sample_size : Z;
  time_window_minutes : Z }.

(** [report_confidence] is the report's [confidence] field (the name
    [confidence] is taken by [CommandSequence]). *)
Record PatternReport := mk_PatternReport {
  command_sequences : list CommandSequence;
  file_clusters : list FileCluster;
  time_patterns : option TimePatternSummary;
  success_correlations : list SuccessCorrelation;
  analysis_timestamp : string;
  report_confidence : Q }.

(** The [pattern_count] property. *)
Definition pattern_count (r : PatternReport) : nat :=
  length (command_sequences r) + length (file_clusters r)
  + length (success_correlations r)
  + (match time_patterns r with Some _ => 1 | None => 0 end).

Definition has_patterns (r : PatternReport) : bool :=
  bool_decide (0 < pattern_count r)%nat.

Section jaccard.
Context {A : Type} {eq_dec_A : EqDecision A} {countable_A : Countable A}.

(** [not s] for a set tests emptiness. *)
Definition set_is_empty (s : gset A) : bool := bool_decide (s = ∅).

Definition calculate_jaccard_similarity (set1 set2 : gset A) : Q :=
  if set_is_empty set1 || set_is_empty set2 then 0
  else
    let intersection := size (set1 ∩ set2) in
    let union := size (set1 ∪ set2) in
    if bool_decide (0 < union)%nat
    then inject_Z (Z.of_nat intersection) / inject_Z (Z.of_nat union)
    else 0.
End jaccard.
End pattern_models.

(** ** Python list and dict idioms shared by the observers *)

Module pylist.

(** [list.sort(key=...)] and [sorted]: a stable sort.  [le x y] says that
    [x] may stay in front of [y]; an element is inserted in front of the
    first element it may precede, so equal keys keep their order. *)
Fixpoint insert_sorted {A} (le : A -> A -> bool) (x : A) (l : list A)
  : list A :=
  match l with
  | [] => [x]
  | y :: l' => if le x y then x :: y :: l' else y :: insert_sorted le x l'
  end.

Definition stable_sort {A} (le : A -> A -> bool) (l : list A) : list A :=
  foldr (insert_sorted le) [] l.

(** [d[k].append(v)] on a [defaultdict(list)]; a new key goes last. *)
Fixpoint dict_append {K V} (eqb : K -> K -> bool) (k : K) (v : V)
    (d : list (K * list V)) : list (K * list V) :=
  match d with
  | [] => [(k, [v])]
  | (k', vs) :: d' =>
      if eqb k k' then (k', vs ++ [v]) :: d'
      else (k', vs) :: dict_append eqb k v d'
  end.

(** [c[k] += 1] on a [Counter]; a new key goes last. *)
Fixpoint counter_incr {K} (eqb : K -> K -> bool) (k : K)
    (c : list (K * Z)) : list (K * Z) :=
  match c with
  | [] => [(k, 1%Z)]
  | (k', n) :: c' =>
      if eqb k k' then (k', (n + 1)%Z) :: c'
      else (k', n) :: counter_incr eqb k c'
  end.

(** [Counter.most_common()]: items by count, largest first, ties in
    insertion order. *)
Definition most_common {K} (c : list (K * Z)) : list (K * Z) :=
  stable_sort (fun a b => (snd b <=? snd a)%Z) c.

(** Equality of tuples of strings, the keys of the n-gram counter. *)
Fixpoint list_string_eqb (a b : list string) : bool :=
  match a, b with
  | [], [] => true
  | x :: a', y :: b' => String.eqb x y && list_string_eqb a' b'
  | _, _ => false
  end.

(** [l[:n]] for an integer [n] of either sign. *)
Definition slice_to {A} (n : Z) (l : list A) : list A :=
  if (0 <=? n)%Z then take (Z.to_nat n) l
  else take (Z.to_nat (Z.of_nat (length l) + n)) l.

End pylist.

(** ** pattern_analyzer.py *)

Module pattern_analyzer.
Import pylist pattern_models.
Local Open Scope Q_scope.

Record Config := mk_Config {
  command_min_occurrences : Z;
  command_sequence_length : nat;
  file_similarity_threshold : Q;
  file_cluster_min_size : Z;
  time_peak_window_hours : Z;
  time_min_sessions : Z;
  correlation_window_minutes : Z;
  min_correlation : Q }.

Definition default_config : Config :=
  mk_Config 3 3 0.3 2 2 5 30 0.5.

(** A row of the command query, already ordered by session and time. *)
Record CommandRow := mk_CommandRow {
  command_name : string;
  event_id : Z;
  event_timestamp : string;
  session_id : option string }.

(** [if session_id:] — neither NULL nor the empty string. *)
Definition session_truthy (r : CommandRow) : option string :=
  match session_id r with
  | Some s => if String.eqb s "" then None else Some s
  | None => None
  end.

(** The per-session command lists, sessions in order of first appearance. *)
Definition session_sequences (rows : list CommandRow)
  : list (string * list string) :=
  fold_left
    (fun d r =>
       match session_truthy r with
       | Some s => dict_append String.eqb s (command_name r) d
       | None => d
       end)
    rows [].

(** [commands[i:i + n] for i in range(len(commands) - n + 1)], guarded by
    [len(commands) >= n]. *)
Definition ngrams (n : nat) (commands : list string) : list (list string) :=
  if (length commands <? n)%nat then []
  else map (fun i => take n (drop i commands))
           (seq 0 (length commands - n + 1)).

Definition count_ngrams (n : nat) (sessions : list (string * list string))
  : list (list string * Z) :=
  fold_left
    (fun c session =>
       fold_left (fun c' g => counter_incr list_string_eqb g c')
                 (ngrams n (snd session)) c)
    sessions [].

Definition to_command_sequences (min_occurrences : Z)
    (ranked : list (list string * Z)) : list CommandSequence :=
  omap (fun '(seq_tuple, count) =>
          if (min_occurrences <=? count)%Z
          then Some (mk_CommandSequence seq_tuple count 0
                       (Qmin 1 (inject_Z count / 10)))
          else None)
       ranked.

Definition analyze_command_sequences (cfg : Config)
    (rows : list CommandRow) : list CommandSequence :=
  match rows with
  | [] => []
  | _ =>
      let sessions := session_sequences rows in
      let sequence_counter :=
        count_ngrams (command_sequence_length cfg) sessions in
      to_command_sequences (command_min_occurrences cfg)
                           (most_common sequence_counter)
  end.

(** [analyze_all_patterns], after its four analyses have been awaited.  The
    file, time and success analyses are SQL aggregations over the event
    store; their results are arguments here. *)
Definition analyze_all_patterns (cfg : Config) (rows : list CommandRow)
    (file_clusters : list FileCluster)
    (time_patterns : option TimePatternSummary)
    (success_correlations : list SuccessCorrelation)
    (now_iso : string) : PatternReport :=
  let command_sequences := analyze_command_sequences cfg rows in
  let pattern_count :=
    (length command_sequences + length file_clusters
     + length success_correlations)%nat in
  let confidence := Qmin 1 (inject_Z (Z.of_nat pattern_count) / 10) in
  mk_PatternReport command_sequences file_clusters time_patterns
                   success_correlations now_iso confidence.

(** *** Further functions of pattern_analyzer.py *)

(** [_find_peak_window]: the first [window_hours] entries of the hours
    ranked by frequency. *)
Definition _find_peak_window (sorted_hours : list Z) (window_hours : Z)
  : list Z :=
  match sorted_hours with
  | [] => []
  | _ =>
      if (Z.of_nat (length sorted_hours) <=? window_hours)%Z
      then sorted_hours
      else slice_to window_hours sorted_hours
  end.

(** [calculate_confidence]; [None] is the [ZeroDivisionError] of
    [occurrences / (min_samples * 3)]. *)
Definition calculate_confidence (occurrences min_samples : Z) : option Q :=
  if (occurrences <? min_samples)%Z then Some 0.1
  else if (min_samples * 3 =? 0)%Z then None
  else Some (Qmin 1 (inject_Z occurrences / inject_Z (min_samples * 3))).

(** A row of the file-cluster query: [file_path], [cluster_id] (not NULL
    by the WHERE clause) and [COUNT( * )] of the group. *)
Record FileRow := mk_FileRow {
  file_path : string;
  file_cluster_id : string;
  edit_count : Z }.

(** [cluster_co_occurrence[k] = max(cluster_co_occurrence.get(k, 0), v)];
    a new key goes last. *)
Fixpoint dict_max (k : string) (v : Z) (d : list (string * Z))
  : list (string * Z) :=
  match d with
  | [] => [(k, Z.max 0 v)]
  | (k', w) :: d' =>
      if String.eqb k k' then (k', Z.max w v) :: d'
      else (k', w) :: dict_max k v d'
  end.

(** [d[k]]; [None] is [KeyError]. *)
Definition dict_lookup {V} (k : string) (d : list (string * V)) : option V :=
  snd <$> find (fun p => String.eqb k p.1) d.

Section file_relationships.
(** [Path(p).stem], the final path component without its suffix. *)
Variable stem : string -> string.

(** The loop over [cluster_files.items()]; a cluster always has a file
    and a co-occurrence entry, both written by the same loop over the
    rows. *)
Definition cluster_of (cfg : Config) (co_occurrence : list (string * Z))
    (entry : string * list string) : option FileCluster :=
  let '(cluster_id, files) := entry in
  if (Z.of_nat (length files) <? file_cluster_min_size cfg)%Z then None
  else
    match dict_lookup cluster_id co_occurrence, files with
    | Some count, first :: _ =>
        let similarity := Qmin 1 (inject_Z count / 10) in
        if Qle_bool (file_similarity_threshold cfg) similarity
        then Some (mk_FileCluster files count similarity
                     (stem first +:+ "_cluster"))
        else None
    | _, _ => None
    end.

(** [analyze_file_relationships] on the rows of its query. *)
Definition analyze_file_relationships (cfg : Config) (rows : list FileRow)
  : list FileCluster :=
  let cluster_files :=
    fold_left (fun d r => dict_append String.eqb (file_cluster_id r)
                            (file_path r) d) rows [] in
  let cluster_co_occurrence :=
    fold_left (fun d r => dict_max (file_cluster_id r) (edit_count r) d)
              rows [] in
  omap (cluster_of cfg cluster_co_occurrence) cluster_files.
End file_relationships.

(** A row of the time-pattern query; every column may be NULL. *)
Record TimeRow := mk_TimeRow {
  time_of_day_hour : option Z;
  day_of_week : option Z;
  duration_seconds : option Z;
  time_activity_type : option string }.

(** [hour_counts] and [day_counts]. *)
Definition count_some (col : TimeRow -> option Z) (rows : list TimeRow)
  : list (Z * Z) :=
  fold_left
    (fun c r =>
       match col r with
       | Some v => counter_incr Z.eqb v c
       | None => c
       end)
    rows [].

(** The recorded session durations, in minutes. *)
Definition session_durations (rows : list TimeRow) : list Q :=
  omap
    (fun r =>
       match duration_seconds r, time_activity_type r with
       | Some d, Some a =>
           if negb (d =? 0)%Z
              && (String.eqb a "session_start" || String.eqb a "active_work")
           then Some (inject_Z d / 60)
           else None
       | _, _ => None
       end)
    rows.

(** [analyze_time_patterns] on the rows of its query. *)
Definition analyze_time_patterns (cfg : Config) (rows : list TimeRow)
  : option TimePatternSummary :=
  match rows with
  | [] => None
  | _ =>
      let hour_counts := count_some time_of_day_hour rows in
      let day_counts := count_some day_of_week rows in
      let durations := session_durations rows in
      let sorted_hours := fst <$> most_common hour_counts in
      let peak_hours :=
        _find_peak_window sorted_hours (time_peak_window_hours cfg) in
      let peak_days := fst <$> take 3 (most_common day_counts) in
      let avg_duration :=
        match durations with
        | [] => 0
        | _ => Qsum durations / Qlen durations
        end in
      let most_productive := fst <$> head (most_common hour_counts) in
      Some (mk_TimePatternSummary peak_hours peak_days avg_duration
              hour_counts most_productive)
  end.

End pattern_analyzer.

(** ** statistics (standard library) *)

Module statistics.
Local Open Scope Q_scope.

(** [mean(data)].  It raises on empty data; every call below is behind a
    length check. *)
Definition mean (data : list Q) : Q := Qsum data / Qlen data.

(** [variance(data)], the sample variance; [None] is the
    [StatisticsError] raised for fewer than two data points. *)
Definition variance (data : list Q) : option Q :=
  if (length data <? 2)%nat then None
  else
    let m := mean data in
    Some (Qsum (map (fun x => (x - m) * (x - m)) data) / (Qlen data - 1)).

(** [stdev(data)] is the square root of the variance.  The square root is
    a parameter: the results below only use [sqrt 0 == 0]. *)
Definition stdev (sqrt : Q -> Q) (data : list Q) : option Q :=
  sqrt <$> variance data.

(** A square root to six decimals, for running the model. *)
Definition sqrt_6 (q : Q) : Q :=
  Z.sqrt (Qnum q * 10 ^ 12 / Z.pos (Qden q)) # 1000000.

End statistics.

(** ** trend_analyzer.py *)

Module trend_analyzer.
Import pystr pylist executive_models pattern_models statistics.
Local Open Scope Q_scope.
Local Open Scope string_scope.

Definition DEFAULT_WEEKS_BACK : Z := 4.
Definition DEFAULT_ANOMALY_THRESHOLD : Q := 2.

(** An entry of the list [detect_anomalies] returns. *)
Record Anomaly := mk_Anomaly {
  anomaly_metric_name : string;
  anomaly_current_value : Q;
  anomaly_historical_mean : Q;
  anomaly_historical_stddev : Q;
  anomaly_z_score : Q;
  anomaly_type : string;
  anomaly_severity : string;
  anomaly_description : string }.

Definition _format_anomaly_description (metric_name : string)
    (current_value historical_mean z_score : Q) : string :=
  let direction := if Qltb 0 z_score then "higher" else "lower" in
  let magnitude := Qabs z_score in
  let metric_display := str_title (replace_char "_" " " metric_name) in
  let severity :=
    if Qle_bool 3 magnitude then "extremely"
    else if Qle_bool 2 magnitude then "significantly"
    else "notably" in
  let deviation_pct :=
    Qabs ((current_value - historical_mean) / Qmax 0.01 historical_mean)
    * 100 in
  metric_display +:+ " is " +:+ severity +:+ " " +:+ direction
  +:+ " than normal (" +:+ format_fixed 2 current_value +:+ " vs "
  +:+ format_fixed 2 historical_mean +:+ " historical avg, "
  +:+ format_fixed 0 deviation_pct +:+ "% deviation)".

(** [generate_weekly_snapshot].  The week [period_start .. period_end]
    (Monday to Sunday around [date.today()]) and the strategic alignment
    read from the daily-plan files are arguments. *)
Definition generate_weekly_snapshot (period_start period_end : date)
    (strategic_alignment : Q) (pattern_report : PatternReport)
    (time_active_minutes : Z) : WeeklySnapshot :=
  let total_events :=
    Z.of_nat (length (command_sequences pattern_report)
              + length (file_clusters pattern_report)
              + length (success_correlations pattern_report)) in
  let success_count :=
    Z.of_nat (length (success_correlations pattern_report)) in
  let avg_confidence :=
    Qsum (confidence <$> command_sequences pattern_report)
    / inject_Z (Z.max 1 (Z.of_nat (length (command_sequences pattern_report))))
  in
  let active_hours := Z.max 1 (time_active_minutes / 60) in
  let productivity_score :=
    calculate_productivity_score success_count total_events avg_confidence
                                 active_hours in
  let pattern_types :=
    ((match command_sequences pattern_report with [] => 0 | _ => 1 end)
     + (match file_clusters pattern_report with [] => 0 | _ => 1 end)
     + (match success_correlations pattern_report with [] => 0 | _ => 1 end)
     + (match time_patterns pattern_report with None => 0 | Some _ => 1 end)
    )%Z in
  let pattern_diversity := inject_Z pattern_types / inject_Z (Z.max 1 4) in
  let success_signal_rate :=
    inject_Z success_count / inject_Z (Z.max 1 total_events) in
  let top_patterns :=
    (((fun seq => "seq:" +:+ join "→" (sequence seq))
        <$> take 3 (command_sequences pattern_report))
     ++ ((fun cluster => "cluster:" +:+ cluster_id cluster)
           <$> take 2 (file_clusters pattern_report)))%list in
  mk_WeeklySnapshot period_start period_end total_events productivity_score
    strategic_alignment (take 5 top_patterns) 0 pattern_diversity
    success_signal_rate active_hours.

(** The [if]/[elif] chain that reads a metric off a snapshot. *)
Definition snapshot_metric (metric_name : string) (snapshot : WeeklySnapshot)
  : Q :=
  if String.eqb metric_name "productivity_score"
  then productivity_score snapshot
  else if String.eqb metric_name "strategic_alignment"
  then strategic_alignment_avg snapshot
  else if String.eqb metric_name "pattern_diversity"
  then pattern_diversity snapshot
  else if String.eqb metric_name "success_rate"
  then success_signal_rate snapshot
  else inject_Z (active_hours snapshot).

(** The historical baseline of a metric: its positive values. *)
Definition historical_values (metric_name : string)
    (previous_snapshots : list WeeklySnapshot) : list Q :=
  filter (fun val => Qltb 0 val = true)
         (snapshot_metric metric_name <$> previous_snapshots).

(** [try: stdev(values) except: 0.1]. *)
Definition stdev_or_default (sqrt : Q -> Q) (values : list Q) : Q :=
  match stdev sqrt values with
  | Some s => s
  | None => 0.1
  end.

(** One turn of the loop over [metrics_to_check]; [None] when the metric
    is skipped or is no anomaly. *)
Definition check_metric (sqrt : Q -> Q)
    (previous_snapshots : list WeeklySnapshot) (threshold_stddev : Q)
    (metric : string * Q) : option Anomaly :=
  let '(metric_name, current_value) := metric in
  let values := historical_values metric_name previous_snapshots in
  if (length values <? 2)%nat then None
  else
    let hist_mean := mean values in
    let hist_stddev := stdev_or_default sqrt values in
    let z_score := calculate_z_score current_value hist_mean hist_stddev in
    if Qle_bool threshold_stddev (Qabs z_score)
    then
      let anomaly_type := if Qltb 0 z_score then "high" else "low" in
      Some (mk_Anomaly metric_name current_value hist_mean hist_stddev
              z_score anomaly_type
              (if Qle_bool (threshold_stddev * 1.5) (Qabs z_score)
               then "critical" else "warning")
              (_format_anomaly_description metric_name current_value
                 hist_mean z_score))
    else None.

Definition detect_anomalies (sqrt : Q -> Q) (period_start period_end : date)
    (strategic_alignment : Q) (current_report : PatternReport)
    (previous_snapshots : list WeeklySnapshot) (threshold_stddev : Q)
  : list Anomaly :=
  if (length previous_snapshots <? 2)%nat then []
  else
    let current_snapshot :=
      generate_weekly_snapshot period_start period_end strategic_alignment
                               current_report 0 in
    let metrics_to_check :=
      [ ("productivity_score", productivity_score current_snapshot);
        ("strategic_alignment", strategic_alignment_avg current_snapshot);
        ("pattern_diversity", pattern_diversity current_snapshot);
        ("success_rate", success_signal_rate current_snapshot);
        ("active_hours", inject_Z (active_hours current_snapshot)) ] in
    omap (check_metric sqrt previous_snapshots threshold_stddev)
         metrics_to_check.

Definition _calculate_metric_trend (sqrt : Q -> Q) (metric_name : string)
    (current_value previous_value : Q) (historical_values : list Q)
  : TrendMetric :=
  let change_percent := calculate_change_percent current_value previous_value in
  let trend_direction := determine_trend_direction change_percent 5 in
  let z_score :=
    if (2 <=? length historical_values)%nat
    then calculate_z_score current_value (mean historical_values)
           (stdev_or_default sqrt historical_values)
    else 0 in
  let significance := is_significant_change change_percent z_score in
  mk_TrendMetric metric_name current_value previous_value change_percent
    trend_direction significance z_score
    (Z.of_nat (length historical_values) + 1).

Definition analyze_weekly_trends (sqrt : Q -> Q)
    (period_start period_end : date) (strategic_alignment : Q)
    (current_report : PatternReport)
    (previous_snapshots : list WeeklySnapshot) : list TrendMetric :=
  let current_snapshot :=
    generate_weekly_snapshot period_start period_end strategic_alignment
                             current_report 0 in
  match previous_snapshots with
  | [] => []
  | prev_snapshot :: _ =>
      let positive := filter (fun val => Qltb 0 val = true) in
      [ _calculate_metric_trend sqrt "productivity_score"
          (productivity_score current_snapshot)
          (productivity_score prev_snapshot)
          (productivity_score <$> previous_snapshots);
        _calculate_metric_trend sqrt "strategic_alignment"
          (strategic_alignment_avg current_snapshot)
          (strategic_alignment_avg prev_snapshot)
          (positive (strategic_alignment_avg <$> previous_snapshots));
        _calculate_metric_trend sqrt "pattern_diversity"
          (pattern_diversity current_snapshot)
          (pattern_diversity prev_snapshot)
          (positive (pattern_diversity <$> previous_snapshots));
        _calculate_metric_trend sqrt "success_rate"
          (success_signal_rate current_snapshot)
          (success_signal_rate prev_snapshot)
          (positive (success_signal_rate <$> previous_snapshots));
        _calculate_metric_trend sqrt "active_hours"
          (inject_Z (active_hours current_snapshot))
          (inject_Z (active_hours prev_snapshot))
          (positive ((fun s => inject_Z (active_hours s))
                       <$> previous_snapshots)) ]
  end.

(** [mean(data)] with the [StatisticsError] it raises on empty data. *)
Definition mean_checked (data : list Q) : option Q :=
  match data with
  | [] => None
  | _ => Some (mean data)
  end.

(** [calculate_moving_average]; [values[i:i + window]] is
    [values[:i + window]] without its first [i] elements.  [None] is the
    [StatisticsError] of the mean of an empty slice. *)
Definition calculate_moving_average (values : list Q) (window : Z)
  : option (list Q) :=
  if (Z.of_nat (length values) <? window)%Z then Some values
  else
    mapM (fun i => mean_checked
                     (drop i (slice_to (Z.of_nat i + window) values)))
         (seq 0 (Z.to_nat (Z.of_nat (length values) - window + 1))).

(** [min(values)] and [max(values)] of a non-empty list: the first
    smallest and the first largest element. *)
Definition py_min (x : Q) (xs : list Q) : Q :=
  fold_left (fun m y => if Qltb y m then y else m) xs x.

Definition py_max (x : Q) (xs : list Q) : Q :=
  fold_left (fun m y => if Qltb m y then y else m) xs x.

(** The statistics [get_baseline_metrics] keeps for a metric. *)
Record Baseline := mk_Baseline {
  baseline_mean : Q;
  baseline_min : Q;
  baseline_max : Q;
  baseline_count : Z;
  baseline_stddev : Q }.

(** One turn of the loop over the metrics; [None] when the metric has no
    positive value and gets no entry. *)
Definition baseline_of (sqrt : Q -> Q) (values : list Q) : option Baseline :=
  match values with
  | [] => None
  | x :: xs =>
      Some (mk_Baseline (mean values) (py_min x xs) (py_max x xs)
              (Z.of_nat (length values))
              (match stdev sqrt values with
               | Some s => s
               | None => 0
               end))
  end.

Definition get_baseline_metrics (sqrt : Q -> Q)
    (snapshots : list WeeklySnapshot) : list (string * Baseline) :=
  let metrics : list (string * (WeeklySnapshot -> Q)) :=
    [ ("productivity_score", productivity_score);
      ("strategic_alignment", strategic_alignment_avg);
      ("pattern_diversity", pattern_diversity);
      ("success_rate", success_signal_rate);
      ("active_hours", fun s => inject_Z (active_hours s)) ] in
  omap (fun metric : string * (WeeklySnapshot -> Q) =>
          let '(metric_name, extractor) := metric in
          let values :=
            filter (fun val => Qltb 0 val = true) (extractor <$> snapshots) in
          (fun b => (metric_name, b)) <$> baseline_of sqrt values)
       metrics.

End trend_analyzer.

(** ** alert_system.py *)

Module alert_system.
Import pystr pylist executive_models pattern_models trend_analyzer.
Local Open Scope Q_scope.
Local Open Scope string_scope.

Definition PRODUCTIVITY_DROP_THRESHOLD : Q := 0.15.
Definition ALIGNMENT_DROP_THRESHOLD : Q := 0.20.
Definition NEW_PATTERN_CONFIDENCE_THRESHOLD : Q := 0.7.
Definition CRITICAL_DROP_THRESHOLD : Q := 0.40.
Definition WARNING_DROP_THRESHOLD : Q := 0.20.

(** The thresholds [__init__] reads from the [alerts] configuration. *)
Record Config := mk_Config {
  productivity_threshold : Q;
  alignment_threshold : Q;
  max_active_alerts : Z }.

Definition default_config : Config :=
  mk_Config PRODUCTIVITY_DROP_THRESHOLD ALIGNMENT_DROP_THRESHOLD 10.

(** The double-quote character. *)
Definition dquote : string := String (ascii_of_nat 34) EmptyString.

Definition _calculate_alert_severity (cfg : Config) (change_percent : Q)
    (category : AlertCategory) : AlertSeverity :=
  if Qltb change_percent 0 then
    let magnitude := Qabs change_percent in
    match category with
    | PRODUCTIVITY =>
        if Qle_bool (CRITICAL_DROP_THRESHOLD * 100) magnitude then CRITICAL
        else if Qle_bool (WARNING_DROP_THRESHOLD * 100) magnitude then WARNING
        else INFO
    | ALIGNMENT =>
        if Qle_bool (WARNING_DROP_THRESHOLD * 100) magnitude then CRITICAL
        else if Qle_bool (alignment_threshold cfg * 100) magnitude
        then WARNING
        else INFO
    | _ => INFO
    end
  else INFO.

Definition _format_productivity_alert_description (metric : TrendMetric)
  : string :=
  let direction :=
    if Qltb (change_percent metric) 0 then "decrease" else "increase" in
  let magnitude := Qabs (change_percent metric) in
  "Productivity score " +:+ direction +:+ "d by "
  +:+ format_fixed 0 magnitude +:+ "% (from "
  +:+ format_fixed 2 (previous_value metric) +:+ " to "
  +:+ format_fixed 2 (current_value metric) +:+ "). This is "
  +:+ TrendSignificance_value (significance metric) +:+ " based on "
  +:+ pretty (data_points metric) +:+ " weeks of data.".

Definition _format_alignment_alert_description (metric : TrendMetric)
  : string :=
  let magnitude := Qabs (change_percent metric) in
  "Strategic alignment decreased by " +:+ format_fixed 0 magnitude
  +:+ "% (from " +:+ format_fixed 2 (previous_value metric) +:+ " to "
  +:+ format_fixed 2 (current_value metric)
  +:+ "). Work may be drifting from DPD strategic objectives.".

Definition _format_pattern_alert_description (seq : CommandSequence)
  : string :=
  let workflow := join " → " (sequence seq) in
  "A new workflow pattern is emerging: " +:+ dquote +:+ workflow
  +:+ dquote +:+ ". This sequence has occurred "
  +:+ pretty (occurrence_count seq) +:+ " times with "
  +:+ format_percent0 (confidence seq) +:+ " confidence.".

Definition _format_opportunity_alert_description (metric : TrendMetric)
  : string :=
  let name := str_title (replace_char "_" " " (metric_name metric)) in
  name +:+ " increased by " +:+ format_fixed 0 (change_percent metric)
  +:+ "% (from " +:+ format_fixed 2 (previous_value metric) +:+ " to "
  +:+ format_fixed 2 (current_value metric)
  +:+ "). Consider what drove this improvement and how to sustain it.".

Definition _get_productivity_suggestions (metric : TrendMetric)
  : list string :=
  let suggestions :=
    [ "Review recent work sessions for bottlenecks or distractions";
      "Check if tool or process changes impacted productivity";
      "Consider if workload distribution is optimal" ] in
  if Qltb (z_score metric) (-2)
  then "CRITICAL: Investigate root cause immediately" :: suggestions
  else suggestions.

Definition _get_alignment_suggestions (metric : TrendMetric) : list string :=
  [ "Review recent work against DPD OKRs";
    "Check if current tasks align with strategic priorities";
    "Consider re-prioritizing to improve strategic alignment";
    "Ensure today_cmd planning includes strategic objectives" ].

Definition _get_opportunity_suggestions (metric : TrendMetric)
  : list string :=
  let name := replace_char "_" " " (metric_name metric) in
  [ "Document what drove the " +:+ name +:+ " improvement";
    "Share successful practices with the team";
    "Consider making this a standard practice";
    "Monitor if this improvement is sustainable" ].

(** [_get_anomaly_suggestions] starts with
    [anomaly["metric_name"].replace("_ " "")]: the two adjacent literals
    are one string, so [str.replace] gets a single argument and raises
    [TypeError] on every call.  No suggestion list is ever returned. *)
Definition _get_anomaly_suggestions (anomaly : Anomaly)
  : option (list string) :=
  None.

Definition trend_evidence (metric : TrendMetric) : list (string * Any) :=
  [ ("current_value", AFloat (current_value metric));
    ("previous_value", AFloat (previous_value metric));
    ("change_percent", AFloat (change_percent metric));
    ("z_score", AFloat (z_score metric)) ].

Definition _check_productivity_alerts (cfg : Config) (now : datetime)
    (trend_metrics : list TrendMetric) : list ExecutiveAlert :=
  omap
    (fun metric =>
       if String.eqb (metric_name metric) "productivity_score"
          && Qltb (change_percent metric) 0
       then
         let severity :=
           _calculate_alert_severity cfg (change_percent metric)
                                     PRODUCTIVITY in
         match severity with
         | CRITICAL | WARNING =>
             Some (mk_ExecutiveAlert (generate_alert_id now) severity
                     PRODUCTIVITY
                     ("Productivity "
                      +:+ str_title (AlertSeverity_value severity)
                      +:+ " Detected")
                     (_format_productivity_alert_description metric)
                     (trend_evidence metric)
                     (_get_productivity_suggestions metric)
                     now false (Some (change_percent metric)))
         | INFO => None
         end
       else None)
    trend_metrics.

Definition _check_alignment_alerts (cfg : Config) (now : datetime)
    (trend_metrics : list TrendMetric) : list ExecutiveAlert :=
  omap
    (fun metric =>
       if String.eqb (metric_name metric) "strategic_alignment"
          && Qltb (change_percent metric) (- alignment_threshold cfg * 100)
       then
         let severity :=
           _calculate_alert_severity cfg (change_percent metric) ALIGNMENT in
         Some (mk_ExecutiveAlert (generate_alert_id now) severity ALIGNMENT
                 ("Strategic Alignment "
                  +:+ str_title (AlertSeverity_value severity)
                  +:+ " Detected")
                 (_format_alignment_alert_description metric)
                 (trend_evidence metric)
                 (_get_alignment_suggestions metric)
                 now false (Some (change_percent metric)))
       else None)
    trend_metrics.

Definition _check_pattern_alerts (now : datetime)
    (pattern_report : PatternReport) : list ExecutiveAlert :=
  omap
    (fun seq =>
       if Qle_bool NEW_PATTERN_CONFIDENCE_THRESHOLD (confidence seq)
          && (3 <=? occurrence_count seq)%Z
          && (occurrence_count seq <=? 10)%Z
       then
         Some (mk_ExecutiveAlert (generate_alert_id now) INFO PATTERN_CHANGE
                 "New High-Confidence Workflow Detected"
                 (_format_pattern_alert_description seq)
                 [ ("sequence", AList (AStr <$> sequence seq));
                   ("confidence", AFloat (confidence seq));
                   ("occurrence_count", AInt (occurrence_count seq)) ]
                 [ "Review the workflow: " +:+ join " → " (sequence seq);
                   "Consider if this represents a reusable process";
                   "Document if this is a best practice to encourage" ]
                 now false None)
       else None)
    (command_sequences pattern_report).

Definition _check_opportunity_alerts (now : datetime)
    (trend_metrics : list TrendMetric) : list ExecutiveAlert :=
  omap
    (fun metric =>
       if Qltb 20 (change_percent metric)
       then
         Some (mk_ExecutiveAlert (generate_alert_id now) INFO OPPORTUNITY
                 ("Positive Trend in "
                  +:+ str_title (replace_char "_" " " (metric_name metric)))
                 (_format_opportunity_alert_description metric)
                 [ ("metric_name", AStr (metric_name metric));
                   ("current_value", AFloat (current_value metric));
                   ("previous_value", AFloat (previous_value metric));
                   ("change_percent", AFloat (change_percent metric)) ]
                 (_get_opportunity_suggestions metric)
                 now false None)
       else None)
    trend_metrics.

(** One alert per anomaly; [None] when building an alert raises. *)
Definition _create_anomaly_alerts (now : datetime) (anomalies : list Anomaly)
  : option (list ExecutiveAlert) :=
  mapM
    (fun anomaly =>
       let severity :=
         if String.eqb (anomaly_severity anomaly) "critical"
         then CRITICAL else WARNING in
       match _get_anomaly_suggestions anomaly with
       | Some suggestions =>
           Some (mk_ExecutiveAlert (generate_alert_id now) severity ANOMALY
                   ("Statistical Anomaly: "
                    +:+ str_title (replace_char "_" " "
                                     (anomaly_metric_name anomaly)))
                   (anomaly_description anomaly)
                   [ ("metric_name", AStr (anomaly_metric_name anomaly));
                     ("current_value", AFloat (anomaly_current_value anomaly));
                     ("historical_mean",
                       AFloat (anomaly_historical_mean anomaly));
                     ("z_score", AFloat (anomaly_z_score anomaly));
                     ("anomaly_type", AStr (anomaly_type anomaly)) ]
                   suggestions now false (Some (anomaly_z_score anomaly)))
       | None => None
       end)
    anomalies.

Definition severity_order (s : AlertSeverity) : Z :=
  match s with CRITICAL => 0 | WARNING => 1 | INFO => 2 end.

(** [alerts.sort(key=lambda a: severity_order.get(a.severity, 3))]. *)
Definition sort_by_severity (alerts : list ExecutiveAlert)
  : list ExecutiveAlert :=
  stable_sort
    (fun a b => (severity_order (severity a) <=? severity_order (severity b))%Z)
    alerts.

(** The alerts in the order [generate_alerts] collects them, before the
    cap. *)
Definition collect_alerts (cfg : Config) (now : datetime)
    (trend_metrics : list TrendMetric) (anomalies : list Anomaly)
    (pattern_report : option PatternReport) : option (list ExecutiveAlert) :=
  let productivity_alerts := _check_productivity_alerts cfg now trend_metrics in
  let alignment_alerts := _check_alignment_alerts cfg now trend_metrics in
  let pattern_alerts :=
    match pattern_report with
    | Some report => _check_pattern_alerts now report
    | None => []
    end in
  let opportunity_alerts := _check_opportunity_alerts now trend_metrics in
  match _create_anomaly_alerts now anomalies with
  | Some anomaly_alerts =>
      Some (productivity_alerts ++ alignment_alerts ++ pattern_alerts
            ++ opportunity_alerts ++ anomaly_alerts)%list
  | None => None
  end.

(** [generate_alerts]; [None] when it raises. *)
Definition generate_alerts (cfg : Config) (now : datetime)
    (trend_metrics : list TrendMetric) (anomalies : list Anomaly)
    (pattern_report : option PatternReport) : option (list ExecutiveAlert) :=
  match collect_alerts cfg now trend_metrics anomalies pattern_report with
  | Some alerts =>
      if (max_active_alerts cfg <? Z.of_nat (length alerts))%Z
      then Some (slice_to (max_active_alerts cfg) (sort_by_severity alerts))
      else Some alerts
  | None => None
  end.

End alert_system.

(** ** goal_recommender.py *)

Module goal_recommender.
Import pystr pylist executive_models pattern_models.
Local Open Scope Q_scope.
Local Open Scope string_scope.

(** An objective of the OKR dictionary; [okr_name] is its ["title"]
    entry.  A key the dictionary lacks reads as the empty list
    ([okr.get(key, [])]). *)
Record Okr := mk_Okr {
  okr_name : string;
  keywords : list string;
  file_patterns : list string;
  commands : list string }.

Definition DEFAULT_OKRS : list (string * Okr) :=
  [ ("obj1", mk_Okr "Decisions Improve as Work Happens"
       ["dependency"; "risk"; "capacity"; "dynamic planning"; "real-time"]
       ["Products/DPD/"; "Products/AgilePlace/"]
       ["/today"; "/commit"]);
    ("obj2", mk_Okr "One Cohesive DPD Experience"
       ["cohesive"; "integration"; "unified"; "onboarding"; "experience"]
       ["Products/Roadmaps/"; "Products/OKRs/"]
       ["/brainstorm"; "/prd"]);
    ("obj3", mk_Okr "Outcomes are Visible, Predictable, and Managed"
       ["outcome"; "visible"; "predictable"; "executive"; "tracking"]
       ["memory-bank/"; "Docs/memos/"]
       ["/today"; "memory"]);
    ("obj4", mk_Okr "AI is Embedded in the Flow of Work"
       ["ai"; "automation"; "claude"; "anvi"; "embedded"]
       ["scripts/automation/"; ".claude/"]
       ["/commit"; "/brainstorm"]) ].

Record Config := mk_Config {
  min_alignment_score : Q;
  max_correlations_per_okr : Z }.

Definition default_config : Config := mk_Config 0.3 3.

(** The two lists the loop over an objective appends to in step:
    [aligned_patterns] and [alignment_factors]. *)
Definition Alignment : Type := list string * list Q.

Definition record_match (st : Alignment) (pattern : string) (factor : Q)
  : Alignment :=
  (st.1 ++ [pattern], st.2 ++ [factor])%list.

(** [x in xs] for a list of strings. *)
Definition str_in (x : string) (xs : list string) : bool :=
  existsb (String.eqb x) xs.

(** File paths: the first matching pattern records the path and ends the
    inner loop. *)
Definition check_file_paths (okr : Okr) (file_paths : list string)
    (st : Alignment) : Alignment :=
  fold_left
    (fun st file_path =>
       if existsb (fun pattern => contains pattern file_path)
                  (file_patterns okr)
       then record_match st ("file:" +:+ file_path) 0.3
       else st)
    file_paths st.

Definition check_commands (okr : Okr) (command_list : list string)
    (st : Alignment) : Alignment :=
  fold_left
    (fun st command =>
       let command_clean := lstrip_char "/" command in
       if existsb (fun pattern => contains pattern command_clean)
                  (commands okr)
       then record_match st ("cmd:" +:+ command_clean) 0.2
       else st)
    command_list st.

(** Keywords: at the first file path holding the keyword, the keyword is
    recorded unless it already was, and the inner loop ends. *)
Definition check_keywords (okr : Okr) (file_paths : list string)
    (st : Alignment) : Alignment :=
  fold_left
    (fun st keyword =>
       if existsb (fun file_path => contains (lower keyword) (lower file_path))
                  file_paths
       then
         if str_in ("kw:" +:+ keyword) st.1 then st
         else record_match st ("kw:" +:+ keyword) 0.1
       else st)
    (keywords okr) st.

Definition okr_alignment (okr : Okr) (file_paths command_list : list string)
  : Alignment :=
  check_keywords okr file_paths
    (check_commands okr command_list
       (check_file_paths okr file_paths ([], []))).

Definition score_of_factors (alignment_factors : list Q) : Q :=
  match alignment_factors with
  | [] => 0
  | _ => Qmin 1 (Qsum alignment_factors)
  end.

Definition _determine_progress_indicator (alignment_score : Q)
    (pattern_count : Z) (pattern_report : PatternReport)
  : ProgressIndicator :=
  if Qle_bool 0.7 alignment_score then ON_TRACK
  else if Qle_bool 0.4 alignment_score then AT_RISK
  else BEHIND.

Definition _generate_goal_recommendations (okr_id : string) (okr : Okr)
    (aligned_patterns : list string) (alignment_score : Q) : list string :=
  let r1 :=
    if Qltb alignment_score 0.4
    then [ "Low alignment with '" +:+ okr_name okr
           +:+ "' - consider prioritizing related work" ]
    else [] in
  let r2 :=
    if str_in "dependency" (keywords okr)
    then [ "Focus on dependency management work to improve alignment" ]
    else [] in
  let r3 :=
    if str_in "ai" (keywords okr)
    then [ "Increase AI/automation work to improve alignment" ]
    else [] in
  let r4 :=
    if str_in "outcome" (keywords okr)
    then [ "Ensure work connects to measurable outcomes" ]
    else [] in
  let r5 :=
    match aligned_patterns with
    | top_pattern :: _ =>
        if String.prefix "file:" top_pattern
        then [ "Continue work in: " +:+ drop_chars 5 top_pattern ]
        else if String.prefix "cmd:" top_pattern
        then [ "Leverage workflow: " +:+ drop_chars 4 top_pattern ]
        else []
    | [] => []
    end in
  take 3 (r1 ++ r2 ++ r3 ++ r4 ++ r5)%list.

(** One turn of the loop over the objectives: the correlation, if the
    objective reaches [min_alignment_score]. *)
Definition correlate_okr (cfg : Config) (now : datetime)
    (pattern_report : PatternReport) (file_paths command_list : list string)
    (entry : string * Okr) : option GoalCorrelation :=
  let '(okr_id, okr) := entry in
  let '(aligned_patterns, alignment_factors) :=
    okr_alignment okr file_paths command_list in
  let alignment_score := score_of_factors alignment_factors in
  if Qle_bool (min_alignment_score cfg) alignment_score
  then
    let progress :=
      _determine_progress_indicator alignment_score
        (Z.of_nat (length aligned_patterns)) pattern_report in
    let recommendations :=
      _generate_goal_recommendations okr_id okr aligned_patterns
                                     alignment_score in
    Some (mk_GoalCorrelation okr_id (okr_name okr)
            (slice_to (max_correlations_per_okr cfg) aligned_patterns)
            alignment_score progress recommendations
            (Z.of_nat (length aligned_patterns)) (Some now))
  else None.

(** [correlate_patterns_to_goals]; [okrs] is what [load_okrs] returned
    (the parsed file or [DEFAULT_OKRS]).  The optional [recent_analysis]
    only seeds a variable that every turn of the loop overwrites. *)
Definition correlate_patterns_to_goals (cfg : Config) (now : datetime)
    (okrs : list (string * Okr)) (pattern_report : PatternReport)
  : list GoalCorrelation :=
  let file_paths := concat (files <$> file_clusters pattern_report) in
  let command_list :=
    concat (sequence <$> command_sequences pattern_report) in
  let correlations :=
    omap (correlate_okr cfg now pattern_report file_paths command_list)
         okrs in
  stable_sort
    (fun a b => Qle_bool (alignment_score b) (alignment_score a))
    correlations.

End goal_recommender.

(** ** pattern_store.py: the [pattern_history] table and its upsert *)

Module pattern_store.
Import executive_models.
Local Open Scope Q_scope.
Local Open Scope string_scope.

(** A row of [pattern_history] (SCHEMA_SQL); [row_id] and
    [row_confidence] are its [id] and [confidence] columns. *)
Record PatternRow := mk_PatternRow {
  row_id : Z;
  pattern_type : string;
  pattern_key : string;
  pattern_data : string;
  row_confidence : Q;
  first_seen : string;
  last_seen : string;
  occurrence_count : Z }.

(** The table: its rows in insertion order, and the last row id handed
    out ([id INTEGER PRIMARY KEY AUTOINCREMENT]). *)
Record Table := mk_Table {
  rows : list PatternRow;
  last_id : Z }.

Definition empty_table : Table := mk_Table [] 0.

(** [SET pattern_data = ?, confidence = ?, last_seen = CURRENT_TIMESTAMP,
    occurrence_count = occurrence_count + 1], on one row. *)
Definition touch (data_json : string) (confidence : Q) (now : string)
    (r : PatternRow) : PatternRow :=
  mk_PatternRow (row_id r) (pattern_type r) (pattern_key r) data_json
    confidence (first_seen r) now (occurrence_count r + 1).

(** The [UPDATE ... WHERE pattern_key = ?]: rows with the key are
    touched; the result is the new table and [cursor.rowcount]. *)
Definition update_row (key data_json : string) (confidence : Q)
    (now : string) (r : PatternRow) : PatternRow :=
  if String.eqb (pattern_key r) key
  then touch data_json confidence now r else r.

Definition sql_update (key data_json : string) (confidence : Q)
    (now : string) (t : Table) : Table * nat :=
  (mk_Table (update_row key data_json confidence now <$> rows t) (last_id t),
   length (filter (fun r => pattern_key r = key) (rows t))).

(** The [INSERT INTO pattern_history (...) VALUES (?, ?, ?, ?, 1)];
    [first_seen] and [last_seen] take their default [CURRENT_TIMESTAMP].
    [None] is the [IntegrityError] of [idx_pattern_key], the UNIQUE index
    on [pattern_key]. *)
Definition sql_insert (type_ key data_json : string) (confidence : Q)
    (now : string) (t : Table) : option Table :=
  if existsb (fun r => String.eqb (pattern_key r) key) (rows t) then None
  else
    Some (mk_Table
            (rows t ++ [mk_PatternRow (last_id t + 1) type_ key data_json
                          confidence now now 1])%list
            (last_id t + 1)).

Section upsert.
(** [json.dumps] on the pattern's dictionary. *)
Variable json_dumps : list (string * Any) -> string.

Definition _upsert_pattern (type_ key : string)
    (data : list (string * Any)) (confidence : Q) (now : string)
    (t : Table) : option Table :=
  let data_json := json_dumps data in
  let '(t', rowcount) := sql_update key data_json confidence now t in
  if (rowcount =? 0)%nat
  then sql_insert type_ key data_json confidence now t'
  else Some t'.

(** The tables the store can hold: what a run of upserts makes of an
    empty table. *)
Inductive reachable : Table -> Prop :=
| reachable_empty : reachable empty_table
| reachable_upsert (t t' : Table) (type_ key : string)
    (data : list (string * Any)) (confidence : Q) (now : string) :
    reachable t ->
    _upsert_pattern type_ key data confidence now t = Some t' ->
    reachable t'.
End upsert.

(** [SELECT ... WHERE pattern_key = ?]: the first row with the key. *)
Definition find_pattern (key : string) (t : Table) : option PatternRow :=
  find (fun r => String.eqb (pattern_key r) key) (rows t).

(** [SELECT COUNT( * ) ... WHERE pattern_key = ?]. *)
Definition count_key (key : string) (t : Table) : nat :=
  length (filter (fun r => pattern_key r = key) (rows t)).

(** One call of [_upsert_pattern] by [store_patterns]: pattern type, key,
    data and confidence. *)
Definition Upsert : Type := string * string * list (string * Any) * Q.

Definition upsert_key (u : Upsert) : string := u.1.1.2.

(** The upserts [store_patterns] makes for a report, in order: its
    command sequences, its file clusters, its success correlations. *)
Definition report_upserts (pattern_report : pattern_models.PatternReport)
  : list Upsert :=
  (((fun seq =>
       ("command_sequence", pystr.join "→" (pattern_models.sequence seq),
        [ ("sequence", AList (AStr <$> pattern_models.sequence seq));
          ("occurrence_count", AInt (pattern_models.occurrence_count seq));
          ("confidence", AFloat (pattern_models.confidence seq)) ],
        pattern_models.confidence seq))
      <$> pattern_models.command_sequences pattern_report)
   ++ ((fun cluster =>
          ("file_cluster", pattern_models.cluster_id cluster,
           [ ("cluster_id", AStr (pattern_models.cluster_id cluster));
             ("files", AList (AStr <$> pattern_models.files cluster));
             ("similarity",
               AFloat (pattern_models.jaccard_similarity cluster));
             ("count", AInt (pattern_models.co_occurrence_count cluster)) ],
           pattern_models.jaccard_similarity cluster))
         <$> pattern_models.file_clusters pattern_report)
   ++ ((fun corr =>
          ("success_correlation",
           pattern_models.activity_pattern corr +:+ "→"
           +:+ pattern_models.outcome_type corr,
           [ ("activity", AStr (pattern_models.activity_pattern corr));
             ("outcome", AStr (pattern_models.outcome_type corr));
             ("strength", AFloat (pattern_models.correlation_strength corr));
             ("sample_size", AInt (pattern_models.sample_size corr)) ],
           pattern_models.correlation_strength corr))
         <$> pattern_models.success_correlations pattern_report))%list.

(** The upserts one after the other; [clock i] is [CURRENT_TIMESTAMP] at
    the [i]-th of them.  [None] when one of them raises. *)
Fixpoint upsert_all (json_dumps : list (string * Any) -> string)
    (clock : nat -> string) (i : nat) (upserts : list Upsert) (t : Table)
  : option Table :=
  match upserts with
  | [] => Some t
  | (type_, key, data, confidence) :: upserts' =>
      match _upsert_pattern json_dumps type_ key data confidence (clock i) t
      with
      | Some t' => upsert_all json_dumps clock (S i) upserts' t'
      | None => None
      end
  end.

(** [store_patterns]: the table afterwards and the returned flag.  When
    an upsert raises nothing is committed and [False] is returned. *)
Definition store_patterns (json_dumps : list (string * Any) -> string)
    (clock : nat -> string) (pattern_report : pattern_models.PatternReport)
    (t : Table) : Table * bool :=
  match upsert_all json_dumps clock 0 (report_upserts pattern_report) t with
  | Some t' => (t', true)
  | None => (t, false)
  end.

(** *** The executive tables (EXECUTIVE_SCHEMA_SQL) *)

(** A value SQLite hands to Python: [None], an [int], a [float] or a
    [str]. *)
Inductive SqlValue :=
| SqlNull
| SqlInt (z : Z)
| SqlReal (q : Q)
| SqlText (s : string).

(** [datetime.fromisoformat] and [date.fromisoformat] on a column value:
    anything but a [str] is a [TypeError]. *)
Definition sql_datetime_fromisoformat (v : SqlValue) : option datetime :=
  match v with
  | SqlText s => datetime_fromisoformat s
  | _ => None
  end.

Definition sql_date_fromisoformat (v : SqlValue) : option date :=
  match v with
  | SqlText s => date_fromisoformat s
  | _ => None
  end.

(** [bool(v)] of a column value. *)
Definition sql_truthy (v : SqlValue) : bool :=
  match v with
  | SqlNull => false
  | SqlInt z => negb (z =? 0)%Z
  | SqlReal q => negb (Qeq_bool q 0)
  | SqlText s => negb (String.eqb s "")
  end.

(** A column value where the dataclass field holds a [str], a [float], an
    [int], a [bool] or an optional [float]. *)
Definition sql_text (v : SqlValue) : option string :=
  match v with SqlText s => Some s | _ => None end.

Definition sql_real (v : SqlValue) : option Q :=
  match v with
  | SqlReal q => Some q
  | SqlInt z => Some (inject_Z z)
  | _ => None
  end.

Definition sql_int (v : SqlValue) : option Z :=
  match v with SqlInt z => Some z | _ => None end.

Definition sql_bool (v : SqlValue) : option bool :=
  match v with SqlInt z => Some (negb (z =? 0)%Z) | _ => None end.

Definition sql_optional_real (v : SqlValue) : option (option Q) :=
  match v with
  | SqlNull => Some None
  | SqlReal q => Some (Some q)
  | SqlInt z => Some (Some (inject_Z z))
  | SqlText _ => None
  end.

(** [row[i]], converted. *)
Definition column {A} (i : nat) (conv : SqlValue -> option A)
    (row : list SqlValue) : option A :=
  match row !! i with
  | Some v => conv v
  | None => None
  end.

(** A text column handed to a parser. *)
Definition sql_parsed {A} (parse : string -> option A) (v : SqlValue)
  : option A :=
  match sql_text v with
  | Some s => parse s
  | None => None
  end.

(** [f(row[i]) if row[i] else default]. *)
Definition sql_or_default {A} (conv : SqlValue -> option A) (dflt : A)
    (v : SqlValue) : option A :=
  if sql_truthy v then conv v else Some dflt.

(** [LIMIT ?]: a negative limit is no limit. *)
Definition sql_limit {A} (n : Z) (l : list A) : list A :=
  if (n <? 0)%Z then l else take (Z.to_nat n) l.

(** A row of [executive_alerts]. *)
Record AlertRow := mk_AlertRow {
  alert_row_id : Z;
  col_alert_id : string;
  col_severity : string;
  col_category : string;
  col_title : string;
  col_description : string;
  col_data_evidence : string;
  col_suggested_actions : string;
  col_threshold_triggered : option Q;
  col_created_at : string;
  col_acknowledged : bool }.

Record AlertTable := mk_AlertTable {
  alert_rows : list AlertRow;
  alert_last_id : Z }.

(** A row of [weekly_snapshots]. *)
Record SnapshotRow := mk_SnapshotRow {
  snapshot_row_id : Z;
  col_period_start : string;
  col_period_end : string;
  col_productivity_score : Q;
  col_total_events : Z;
  col_strategic_alignment_avg : Q;
  col_top_patterns : string;
  col_anomalies_count : Z;
  col_pattern_diversity : Q;
  col_success_signal_rate : Q;
  col_active_hours : Z;
  col_snapshot_metadata : string;
  col_snapshot_created_at : string }.

Record SnapshotTable := mk_SnapshotTable {
  snapshot_rows : list SnapshotRow;
  snapshot_last_id : Z }.

Section executive_store.
(** [json.dumps] on a dictionary and on a list of strings, and
    [json.loads] of a column, where [None] is the error on malformed
    text. *)
Variable json_dumps : list (string * Any) -> string.
Variable json_dumps_list : list string -> string.
Variable json_loads : string -> option (list (string * Any)).
Variable json_loads_list : string -> option (list string).


(** The columns [get_active_alerts] selects, in the order of its
    [SELECT]: [row[0]] to [row[9]]. *)
Definition select_alert_columns (r : AlertRow) : list SqlValue :=
  [ SqlText (col_alert_id r); SqlText (col_severity r);
    SqlText (col_category r); SqlText (col_title r);
    SqlText (col_description r); SqlText (col_data_evidence r);
    SqlText (col_suggested_actions r);
    match col_threshold_triggered r with
    | Some q => SqlReal q
    | None => SqlNull
    end;
    SqlText (col_created_at r);
    SqlInt (if col_acknowledged r then 1 else 0) ].

(** The [ExecutiveAlert(...)] built from a selected row; [None] when an
    argument raises. *)
Definition alert_of_row (row : list SqlValue) : option ExecutiveAlert :=
  alert_id ← column 0 sql_text row;
  severity ← column 1 (sql_parsed AlertSeverity_of_value) row;
  category ← column 2 (sql_parsed AlertCategory_of_value) row;
  title ← column 3 sql_text row;
  description ← column 4 sql_text row;
  data_evidence ← column 5 (sql_or_default (sql_parsed json_loads) []) row;
  suggested_actions ←
    column 6 (sql_or_default (sql_parsed json_loads_list) []) row;
  created_at ← column 7 sql_datetime_fromisoformat row;
  threshold_triggered ← column 8 sql_optional_real row;
  acknowledged ← column 9 sql_bool row;
  Some (mk_ExecutiveAlert alert_id severity category title description
          data_evidence suggested_actions created_at acknowledged
          threshold_triggered).

(** [WHERE acknowledged = FALSE], with [AND severity = ?] when a
    severity is given. *)
Definition alert_selected (severity : option AlertSeverity) (r : AlertRow)
  : bool :=
  negb (col_acknowledged r)
  && match severity with
     | Some s => String.eqb (col_severity r) (AlertSeverity_value s)
     | None => true
     end.

(** [get_active_alerts]; [order_by_created_at] is the order in which
    SQLite returns the rows for [ORDER BY created_at DESC].  An exception
    in the loop is caught and gives the empty list. *)
Definition get_active_alerts
    (order_by_created_at : list AlertRow -> list AlertRow)
    (severity : option AlertSeverity) (limit : Z) (t : AlertTable)
  : list ExecutiveAlert :=
  let selected :=
    filter (fun r => alert_selected severity r = true) (alert_rows t) in
  let rows := sql_limit limit (order_by_created_at selected) in
  match mapM (fun r => alert_of_row (select_alert_columns r)) rows with
  | Some alerts => alerts
  | None => []
  end.

(** [store_weekly_snapshot]: [INSERT OR REPLACE] on
    [UNIQUE(period_start, period_end)]. *)
Definition store_weekly_snapshot (now : string) (snapshot : WeeklySnapshot)
    (t : SnapshotTable) : SnapshotTable * bool :=
  let start := date_isoformat (period_start snapshot) in
  let end_ := date_isoformat (period_end snapshot) in
  (mk_SnapshotTable
     (filter (fun r => ~ (col_period_start r = start
                          /\ col_period_end r = end_))
             (snapshot_rows t)
      ++ [mk_SnapshotRow (snapshot_last_id t + 1) start end_
            (productivity_score snapshot) (total_events snapshot)
            (strategic_alignment_avg snapshot)
            (json_dumps_list (top_patterns snapshot))
            (anomalies_detected snapshot) (pattern_diversity snapshot)
            (success_signal_rate snapshot) (active_hours snapshot)
            (json_dumps (WeeklySnapshot_to_dict snapshot)) now])%list
     (snapshot_last_id t + 1),
   true).

(** The columns [get_recent_snapshots] selects: [row[0]] to [row[9]]. *)
Definition select_snapshot_columns (r : SnapshotRow) : list SqlValue :=
  [ SqlText (col_period_start r); SqlText (col_period_end r);
    SqlReal (col_productivity_score r); SqlInt (col_total_events r);
    SqlReal (col_strategic_alignment_avg r); SqlText (col_top_patterns r);
    SqlInt (col_anomalies_count r); SqlReal (col_pattern_diversity r);
    SqlReal (col_success_signal_rate r); SqlInt (col_active_hours r) ].

(** The [WeeklySnapshot(...)] built from a selected row. *)
Definition snapshot_of_row (row : list SqlValue) : option WeeklySnapshot :=
  period_start ← column 0 sql_date_fromisoformat row;
  period_end ← column 1 sql_date_fromisoformat row;
  productivity_score ← column 2 sql_real row;
  total_events ← column 3 sql_int row;
  strategic_alignment_avg ← column 4 sql_real row;
  top_patterns ←
    column 5 (sql_or_default (sql_parsed json_loads_list) []) row;
  anomalies_detected ← column 6 sql_int row;
  pattern_diversity ← column 7 (sql_or_default sql_real 0) row;
  success_signal_rate ← column 8 (sql_or_default sql_real 0) row;
  active_hours ← column 9 (sql_or_default sql_int 0%Z) row;
  Some (mk_WeeklySnapshot period_start period_end total_events
          productivity_score strategic_alignment_avg top_patterns
          anomalies_detected pattern_diversity success_signal_rate
          active_hours).

(** [get_recent_snapshots]; [order_by_period_start] is the order in which
    SQLite returns the rows for [ORDER BY period_start DESC]. *)
Definition get_recent_snapshots
    (order_by_period_start : list SnapshotRow -> list SnapshotRow)
    (weeks : Z) (t : SnapshotTable) : list WeeklySnapshot :=
  let rows := sql_limit weeks (order_by_period_start (snapshot_rows t)) in
  match mapM (fun r => snapshot_of_row (select_snapshot_columns r)) rows with
  | Some snapshots => snapshots
  | None => []
  end.
End executive_store.

End pattern_store.

(* ================================================================== *)
(** * Vocabulary of the statements, and sample inputs *)
(* ================================================================== *)

Module pattern_analyzer_terms.
Import pylist pattern_models pattern_analyzer.
Local Open Scope Q_scope.
Local Open Scope string_scope.

(** The count behind the overall confidence. *)
Definition listed_pattern_count (r : PatternReport) : nat :=
  (length (command_sequences r) + length (file_clusters r)
   + length (success_correlations r))%nat.

Definition abcabc_rows : list CommandRow :=
  map (fun '(c, i) => mk_CommandRow c i "2025-01-30 09:00:00" (Some "s1"))
      [("a", 1%Z); ("b", 2%Z); ("c", 3%Z); ("a", 4%Z); ("b", 5%Z); ("c", 6%Z)].

Definition some_time_patterns : TimePatternSummary :=
  mk_TimePatternSummary [9%Z] [0%Z] 30 [(9%Z, 1%Z)] (Some 9%Z).

End pattern_analyzer_terms.

Module serialization_terms.
Import pystr executive_models.
Local Open Scope Q_scope.
Local Open Scope string_scope.

Definition sample_snapshot : WeeklySnapshot :=
  mk_WeeklySnapshot (mk_date 2025 1 27) (mk_date 2025 2 2) 12 0.55 0.8
    ["seq:/today"; "cluster:memory_cluster"] 1 0.75 0.25 6.

Definition sample_metric : TrendMetric :=
  mk_TrendMetric "strategic_alignment" 0.56 0.8 (-30) DOWN SIGNIFICANT
    (-1.5) 5.

Definition sample_alert : ExecutiveAlert :=
  mk_ExecutiveAlert "alert_20250130_143052" CRITICAL ALIGNMENT
    "Strategic Alignment Critical Detected" "Strategic alignment decreased"
    [("change_percent", AFloat (-30))] ["Review recent work against DPD OKRs"]
    (mk_datetime (mk_date 2025 1 30) 14 30 52 250000) false (Some (-30)).

Definition sample_goal : GoalCorrelation :=
  mk_GoalCorrelation "obj4" "AI is Embedded in the Flow of Work"
    ["file:scripts/automation/run.py"] 0.3 BEHIND ["Continue work"] 1
    (Some (mk_datetime (mk_date 2024 2 29) 9 5 0 0)).

Definition sample_report : ExecutiveInsightReport :=
  mk_ExecutiveInsightReport (mk_datetime (mk_date 2025 1 30) 14 30 53 0)
    sample_snapshot [sample_metric] [sample_alert] [sample_goal]
    "One alignment alert" [("version", AInt 4)].

End serialization_terms.

Module trend_analyzer_terms.
Import pystr executive_models pattern_models statistics trend_analyzer.
Local Open Scope Q_scope.
Local Open Scope string_scope.

(** The documented example: four earlier weeks whose strategic alignment
    was 10, to be compared with a current alignment of 100. *)
Definition week_with_alignment (a : Q) : WeeklySnapshot :=
  mk_WeeklySnapshot (mk_date 2025 1 6) (mk_date 2025 1 12) 0 0 a [] 0 0 0 0.

Definition constant_history : list WeeklySnapshot :=
  [ week_with_alignment 10; week_with_alignment 10;
    week_with_alignment 10; week_with_alignment 10 ].

Definition empty_report : PatternReport :=
  mk_PatternReport [] [] None [] "2025-01-30T09:00:00" 0.

End trend_analyzer_terms.

Module alert_system_terms.
Import pystr pylist executive_models pattern_models trend_analyzer.
Import alert_system.
Local Open Scope Q_scope.
Local Open Scope string_scope.

(** The alerts of one severity, in their order in [alerts]. *)
Definition of_severity (s : AlertSeverity) (alerts : list ExecutiveAlert)
  : list ExecutiveAlert :=
  filter (fun a => severity a = s) alerts.

(** [a] ranks no later than [b]. *)
Definition ranks_before (a b : ExecutiveAlert) : Prop :=
  (severity_order (severity a) <= severity_order (severity b))%Z.

Definition severity_le (a b : ExecutiveAlert) : bool :=
  (severity_order (severity a) <=? severity_order (severity b))%Z.


Definition sample_now : datetime :=
  mk_datetime (mk_date 2025 1 30) 14 30 52 0.

Definition metric_with_change (name : string) (change : Q) : TrendMetric :=
  mk_TrendMetric name 0.5 0.5 change STABLE NORMAL 0 5.

(** Fifteen alerts: two critical productivity drops, two critical
    alignment drops and eleven opportunities. *)
Definition fifteen_alert_metrics : list TrendMetric :=
  (replicate 11 (metric_with_change "active_hours" 30)
   ++ replicate 2 (metric_with_change "productivity_score" (-50))
   ++ replicate 2 (metric_with_change "strategic_alignment" (-30)))%list.

End alert_system_terms.

Module goal_recommender_terms.
Import pystr pylist executive_models pattern_models goal_recommender.
Local Open Scope Q_scope.
Local Open Scope string_scope.

(** The three weights a match can contribute. *)
Definition is_weight (f : Q) : Prop := f = 0.3 \/ f = 0.2 \/ f = 0.1.

Definition weights_only (st : Alignment) : Prop := Forall is_weight st.2.

End goal_recommender_terms.

Module pattern_store_terms.
Import executive_models pattern_store.
Local Open Scope Q_scope.
Local Open Scope string_scope.

Definition keys (t : Table) : list string := pattern_key <$> rows t.

(** The invariant of [idx_pattern_key]: no key occurs in two rows. *)
Definition unique_keys (t : Table) : Prop := NoDup (keys t).

(** A stand-in for [json.dumps], for running the model. *)
Definition plain_dumps (data : list (string * Any)) : string := "{}".

(** A table holding one pattern, stored once. *)
Definition stored_once : Table :=
  mk_Table
    [mk_PatternRow 1 "command_sequence" "/today→/commit" "{}" 0.3
       "2025-01-30 09:00:00" "2025-01-30 09:00:00" 1] 1.

End pattern_store_terms.

Module mining_terms.
Import pylist pattern_models pattern_analyzer.
Local Open Scope Q_scope.
Local Open Scope string_scope.

(** How often [k] occurs in [l]. *)
Definition occurrences {K} `{EqDecision K} (k : K) (l : list K) : Z :=
  Z.of_nat (length (filter (fun x => x = k) l)).

(** The value a counter holds for a key, 0 for a missing key. *)
Definition counter_get {K} (eqb : K -> K -> bool) (k : K)
    (c : list (K * Z)) : Z :=
  match find (fun p => eqb k p.1) c with
  | Some p => p.2
  | None => 0
  end.

(** The rows that count: those with a session id. *)
Definition in_session (sid : string) (r : CommandRow) : Prop :=
  session_truthy r = Some sid.

#[global] Instance in_session_dec (sid : string) (r : CommandRow) :
  Decision (in_session sid r).
Proof. unfold in_session. apply _. Defined.

(** The list a [defaultdict(list)] holds for a key. *)
Definition dict_values {V} (k : string) (d : list (string * list V))
  : list V :=
  match find (fun p => String.eqb k p.1) d with
  | Some p => p.2
  | None => []
  end.

(** Every window of length [n] of every session, session by session. *)
Definition all_windows (n : nat) (rows : list CommandRow)
  : list (list string) :=
  concat ((fun session => ngrams n session.2) <$> session_sequences rows).

(** A row with a usable session id. *)
Definition has_session (r : CommandRow) : Prop :=
  is_Some (session_truthy r).

#[global] Instance has_session_dec (r : CommandRow) :
  Decision (has_session r).
Proof. unfold has_session. apply _. Defined.

(** Ranked by count, largest first. *)
Definition count_ge (a b : CommandSequence) : Prop :=
  (occurrence_count b <= occurrence_count a)%Z.

(** The sequence the miner reports for a window seen [count] times. *)
Definition mined (w : list string) (count : Z) : CommandSequence :=
  mk_CommandSequence w count 0 (Qmin 1 (inject_Z count / 10)).

(** Sample rows of the time-pattern query: hour 9 three times, hour 14
    twice, hour 20 once, one row without an hour. *)
Definition sample_time_rows : list TimeRow :=
  [ mk_TimeRow (Some 14%Z) (Some 0%Z) (Some 1800%Z) (Some "session_start");
    mk_TimeRow (Some 9%Z) (Some 0%Z) (Some 600%Z) (Some "active_work");
    mk_TimeRow (Some 9%Z) (Some 1%Z) None (Some "session_start");
    mk_TimeRow (Some 20%Z) (Some 1%Z) (Some 300%Z) (Some "idle");
    mk_TimeRow None (Some 2%Z) (Some 60%Z) (Some "active_work");
    mk_TimeRow (Some 14%Z) (Some 3%Z) (Some 0%Z) (Some "active_work");
    mk_TimeRow (Some 9%Z) None (Some 1200%Z) (Some "active_work") ].

End mining_terms.

Module file_terms.
Import pylist pattern_models pattern_analyzer.
Local Open Scope Q_scope.
Local Open Scope string_scope.

(** The rows of one cluster. *)
Definition in_cluster (cid : string) (r : FileRow) : Prop :=
  file_cluster_id r = cid.

#[global] Instance in_cluster_dec (cid : string) (r : FileRow) :
  Decision (in_cluster cid r).
Proof. unfold in_cluster. apply _. Defined.

(** The largest edit count of some rows, and 0 at least. *)
Definition largest_edit_count (members : list FileRow) : Z :=
  foldr Z.max 0%Z (edit_count <$> members).

(** The cluster reported for the rows [members] of one cluster id. *)
Definition reported_cluster (stem : string -> string)
    (members : list FileRow) : FileCluster :=
  mk_FileCluster (file_path <$> members) (largest_edit_count members)
    (Qmin 1 (inject_Z (largest_edit_count members) / 10))
    (stem (default "" (head (file_path <$> members))) +:+ "_cluster").

(** Sample rows: two clusters, interleaved. *)
Definition sample_file_rows : list FileRow :=
  [ mk_FileRow "src/a.py" "c1" 4; mk_FileRow "docs/x.md" "c2" 1;
    mk_FileRow "src/b.py" "c1" 2; mk_FileRow "docs/y.md" "c2" 1 ].

End file_terms.

Module trend_history_terms.
Import pystr executive_models pattern_models statistics trend_analyzer.
Import trend_analyzer_terms.
Local Open Scope Q_scope.
Local Open Scope string_scope.

(** The metrics that are tracked, in the order they are looked at. *)
Definition tracked_metrics : list string :=
  [ "productivity_score"; "strategic_alignment"; "pattern_diversity";
    "success_rate"; "active_hours" ].

(** Three earlier weeks whose strategic alignment varied a little. *)
Definition varied_history : list WeeklySnapshot :=
  [ week_with_alignment 0.5; week_with_alignment 0.6;
    week_with_alignment 0.55 ].

(** What an entry of the anomaly list says about the history it was
    measured against. *)
Definition explained_anomaly (previous : list WeeklySnapshot)
    (threshold : Q) (a : Anomaly) : Prop :=
  let values := historical_values (anomaly_metric_name a) previous in
  (2 <= length values)%nat
  /\ anomaly_historical_mean a = mean values
  /\ ~ anomaly_historical_stddev a == 0
  /\ anomaly_z_score a * anomaly_historical_stddev a
     == anomaly_current_value a - anomaly_historical_mean a
  /\ threshold <= Qabs (anomaly_z_score a)
  /\ (anomaly_type a = "high" /\ 0 < anomaly_z_score a
      \/ anomaly_type a = "low" /\ anomaly_z_score a < 0)
  /\ (anomaly_severity a = "critical"
      /\ threshold * 1.5 <= Qabs (anomaly_z_score a)
      \/ anomaly_severity a = "warning"
         /\ Qabs (anomaly_z_score a) < threshold * 1.5).

End trend_history_terms.

Module alert_rules_terms.
Import pystr pylist executive_models pattern_models pattern_analyzer.
Import alert_system.
Local Open Scope Q_scope.
Local Open Scope string_scope.

#[global] Instance Qle_decision (x y : Q) : Decision (x <= y).
Proof.
  destruct (Qlt_le_dec y x) as [H|H];
    [right; now apply Qlt_not_le | left; exact H].
Defined.

#[global] Instance Qlt_decision (x y : Q) : Decision (x < y).
Proof.
  destruct (Qlt_le_dec x y) as [H|H];
    [left; exact H | right; now apply Qle_not_lt].
Defined.

#[global] Instance AlertCategory_eq_dec : EqDecision AlertCategory.
Proof. solve_decision. Defined.

(** A productivity score that fell by 20% or more. *)
Definition productivity_drop (m : TrendMetric) : Prop :=
  metric_name m = "productivity_score" /\ change_percent m <= - (20).

#[global] Instance productivity_drop_dec (m : TrendMetric) :
  Decision (productivity_drop m).
Proof. unfold productivity_drop. apply _. Defined.

(** A metric that rose by more than 20%. *)
Definition improvement (m : TrendMetric) : Prop := 20 < change_percent m.

#[global] Instance improvement_dec (m : TrendMetric) :
  Decision (improvement m).
Proof. unfold improvement. apply _. Defined.

(** A sequence seen seven to ten times. *)
Definition emerging (cs : CommandSequence) : Prop :=
  (7 <= occurrence_count cs <= 10)%Z.

#[global] Instance emerging_dec (cs : CommandSequence) :
  Decision (emerging cs).
Proof. unfold emerging. apply _. Defined.

(** Ten uses of one command in one session. *)
Definition ten_commits : list CommandRow :=
  (fun i => mk_CommandRow "/commit" (Z.of_nat i) "2025-01-30 09:00:00"
              (Some "s1")) <$> seq 1 10.

End alert_rules_terms.

Module goal_ranking_terms.
Import pystr pylist executive_models pattern_models goal_recommender.
Local Open Scope Q_scope.
Local Open Scope string_scope.

(** Ranked by alignment score, highest first. *)
Definition score_ge (a b : GoalCorrelation) : Prop :=
  alignment_score b <= alignment_score a.

(** The progress indicator that goes with a score. *)
Definition progress_matches (c : GoalCorrelation) : Prop :=
  progress_indicator c = ON_TRACK /\ 0.7 <= alignment_score c
  \/ progress_indicator c = AT_RISK /\ 0.4 <= alignment_score c < 0.7
  \/ progress_indicator c = BEHIND /\ alignment_score c < 0.4.

(** A report with one cluster of automation scripts and one workflow. *)
Definition automation_report : PatternReport :=
  mk_PatternReport
    [mk_CommandSequence ["/today"; "/commit"] 4 0 0.4]
    [mk_FileCluster ["scripts/automation/run.py"; ".claude/settings.json"]
       4 0.4 "run_cluster"]
    None [] "2025-01-30T09:00:00" 0.5.

(** The same with a note of the memory bank among the files. *)
Definition mixed_report : PatternReport :=
  mk_PatternReport
    [mk_CommandSequence ["/today"; "/commit"] 4 0 0.4]
    [mk_FileCluster
       ["scripts/automation/run.py"; ".claude/settings.json";
        "memory-bank/notes.md"]
       4 0.4 "run_cluster"]
    None [] "2025-01-30T09:00:00" 0.5.

End goal_ranking_terms.

Module store_terms.
Import pystr pylist executive_models pattern_models pattern_store.
Import mining_terms.
Local Open Scope Q_scope.
Local Open Scope string_scope.

(** How the row of a key changes when the key is upserted [n] times,
    from the table [t] to the table [t']: an existing row keeps its id,
    type and first-seen date and counts [n] more occurrences; a new row has
    a fresh id and counts [n]; a key that is not upserted stays absent. *)
Definition accumulated (n : Z) (t t' : Table) (key : string) : Prop :=
  match find_pattern key t with
  | Some r =>
      exists r',
        find_pattern key t' = Some r'
        /\ row_id r' = row_id r
        /\ pattern_type r' = pattern_type r
        /\ first_seen r' = first_seen r
        /\ pattern_store.occurrence_count r'
           = (pattern_store.occurrence_count r + n)%Z
  | None =>
      (n = 0%Z -> find_pattern key t' = None)
      /\ ((0 < n)%Z ->
          exists r',
            find_pattern key t' = Some r'
            /\ (last_id t < row_id r')%Z
            /\ pattern_store.occurrence_count r' = n)
  end.

(** A report whose sequence and whose cluster share a key. *)
Definition colliding_report : PatternReport :=
  mk_PatternReport
    [mk_CommandSequence ["/today"; "/commit"] 4 0 0.4]
    [mk_FileCluster ["a.py"; "b.py"] 3 0.3 "/today→/commit"]
    None [] "2025-01-30T09:00:00" 0.5.

End store_terms.

Module executive_store_terms.
Import pystr pylist executive_models pattern_store.
Local Open Scope Q_scope.
Local Open Scope string_scope.

(** The row of the week of a snapshot. *)
Definition in_period (s : WeeklySnapshot) (r : SnapshotRow) : Prop :=
  col_period_start r = date_isoformat (period_start s)
  /\ col_period_end r = date_isoformat (period_end s).

#[global] Instance in_period_dec (s : WeeklySnapshot) (r : SnapshotRow) :
  Decision (in_period s r).
Proof. unfold in_period. apply _. Defined.

(** Two snapshots that hold the same values; the floats that are read
    back through [x if x else 0.0] are compared as numbers. *)
Definition same_snapshot (a b : WeeklySnapshot) : Prop :=
  period_start a = period_start b
  /\ period_end a = period_end b
  /\ total_events a = total_events b
  /\ productivity_score a = productivity_score b
  /\ strategic_alignment_avg a = strategic_alignment_avg b
  /\ top_patterns a = top_patterns b
  /\ anomalies_detected a = anomalies_detected b
  /\ pattern_diversity a == pattern_diversity b
  /\ success_signal_rate a == success_signal_rate b
  /\ active_hours a = active_hours b.

(** A row [get_recent_snapshots] can turn into a snapshot. *)
Definition decodable (json_loads_list : string -> option (list string))
    (r : SnapshotRow) : Prop :=
  is_Some (snapshot_of_row json_loads_list (select_snapshot_columns r)).

(** Stand-ins for [json.dumps] and [json.loads] on the empty list, and for
    the order of the rows, for running the model. *)
Definition empty_list_dumps (l : list string) : string := "[]".
Definition empty_list_loads (s : string) : option (list string) := Some [].
Definition newest_first {A} (l : list A) : list A := reverse l.

Definition quiet_week : WeeklySnapshot :=
  mk_WeeklySnapshot (mk_date 2025 1 27) (mk_date 2025 2 2) 0 0 0.5 [] 0 0 0 1.

Definition stored_alert_row : AlertRow :=
  mk_AlertRow 1 "alert_20250130_143052" "critical" "alignment"
    "Strategic Alignment Critical Detected" "Strategic alignment decreased"
    "{}" "[]" (Some (-30)) "2025-01-30 14:30:52" false.

End executive_store_terms.

(* ================================================================== *)
(** * Properties *)
(* ================================================================== *)

Module productivity_props.
Import executive_models.
Local Open Scope Q_scope.



Lemma Qdiv_nonneg (x y : Q) : 0 <= x -> 0 < y -> 0 <= x / y.
Proof.
  intros Hx Hy. unfold Qdiv.
  apply Qmult_le_0_compat; [exact Hx|].
  apply Qlt_le_weak, Qinv_lt_0_compat, Hy.
Qed.

Lemma inject_Z_nonneg (z : Z) : (0 <= z)%Z -> 0 <= inject_Z z.
Proof. intros Hz. change 0 with (inject_Z 0). now rewrite <- Zle_Qle. Qed.

Lemma inject_Z_pos (z : Z) : (0 < z)%Z -> 0 < inject_Z z.
Proof. intros Hz. change 0 with (inject_Z 0). now rewrite <- Zlt_Qlt. Qed.

(** C10, first half: with no events the score is exactly [0.0], whatever
    the confidence and the active hours are. *)
Lemma productivity_score_no_events (s : Z) (c : Q) (h : Z) :
  calculate_productivity_score s 0 c h = 0.
Proof. reflexivity. Qed.



End productivity_props.

Module jaccard_props.
Import pattern_models.
Local Open Scope Q_scope.

Section with_elements.
Context {A : Type} {eq_dec_A : EqDecision A} {countable_A : Countable A}.
Implicit Types X Y : gset A.

Lemma set_is_empty_true X : set_is_empty X = true <-> X = ∅.
Proof. unfold set_is_empty. apply bool_decide_eq_true. Qed.

Lemma set_is_empty_false X : set_is_empty X = false <-> X ≠ ∅.
Proof. unfold set_is_empty. apply bool_decide_eq_false. Qed.

Lemma jaccard_empty X Y :
  X = ∅ \/ Y = ∅ -> calculate_jaccard_similarity X Y = 0.
Proof.
  intros HXY. unfold calculate_jaccard_similarity.
  destruct HXY as [->| ->]; cbn.
  - reflexivity.
  - now rewrite orb_true_r.
Qed.

Lemma jaccard_nonempty X Y :
  X ≠ ∅ -> Y ≠ ∅ ->
  calculate_jaccard_similarity X Y =
    inject_Z (Z.of_nat (size (X ∩ Y))) / inject_Z (Z.of_nat (size (X ∪ Y)))
  /\ (0 < size (X ∪ Y))%nat.
Proof.
  intros HX HY. unfold calculate_jaccard_similarity.
  apply set_is_empty_false in HX as HX'. apply set_is_empty_false in HY as ->.
  rewrite HX'. cbn.
  assert (0 < size (X ∪ Y))%nat as Hpos.
  { enough (size (X ∪ Y) ≠ 0)%nat by lia.
    apply size_non_empty_iff. intros Hu. apply HX.
    apply leibniz_equiv. set_solver. }
  rewrite bool_decide_eq_true_2 by exact Hpos. split; [reflexivity|exact Hpos].
Qed.

Lemma size_inter_le_union X Y : (size (X ∩ Y) <= size (X ∪ Y))%nat.
Proof. apply subseteq_size. set_solver. Qed.

Lemma inter_union_size_eq X Y :
  size (X ∩ Y) = size (X ∪ Y) <-> X = Y.
Proof.
  split.
  - intros Hsz.
    assert (X ∩ Y ≡ X ∪ Y) as Heq.
    { apply set_subseteq_size_equiv; [set_solver | lia]. }
    apply leibniz_equiv. set_solver.
  - intros ->. f_equal. apply leibniz_equiv. set_solver.
Qed.

Lemma ratio_range (i u : nat) :
  (i <= u)%nat -> (0 < u)%nat ->
  0 <= inject_Z (Z.of_nat i) / inject_Z (Z.of_nat u) <= 1.
Proof.
  intros Hiu Hu.
  assert (0 < inject_Z (Z.of_nat u)) as Hu'.
  { apply productivity_props.inject_Z_pos. lia. }
  split.
  - apply productivity_props.Qdiv_nonneg; [|exact Hu'].
    apply productivity_props.inject_Z_nonneg. lia.
  - apply Qle_shift_div_r; [exact Hu'|]. rewrite Qmult_1_l.
    rewrite <- Zle_Qle. lia.
Qed.

Lemma ratio_one (i u : nat) :
  (0 < u)%nat ->
  inject_Z (Z.of_nat i) / inject_Z (Z.of_nat u) == 1 <-> i = u.
Proof.
  intros Hu.
  assert (~ inject_Z (Z.of_nat u) == 0) as Hu'.
  { intros Hz. change 0 with (inject_Z 0) in Hz.
    rewrite inject_Z_injective in Hz. lia. }
  split.
  - intros Hq.
    assert (inject_Z (Z.of_nat i) == inject_Z (Z.of_nat u)) as Hiu.
    { rewrite <- (Qmult_1_l (inject_Z (Z.of_nat u))), <- Hq.
      field. exact Hu'. }
    rewrite inject_Z_injective in Hiu. lia.
  - intros ->. field. exact Hu'.
Qed.

(** C2 (as amended): the Jaccard similarity of two sets lies in [[0,1]],
    is symmetric, is [0.0] whenever one of the sets is empty, and is
    [1.0] exactly when the sets are equal and not empty. *)
Theorem jaccard_similarity_properties X Y :
  0 <= calculate_jaccard_similarity X Y <= 1
  /\ calculate_jaccard_similarity X Y = calculate_jaccard_similarity Y X
  /\ (calculate_jaccard_similarity X Y == 1 <-> X = Y /\ X ≠ ∅)
  /\ (X = ∅ \/ Y = ∅ -> calculate_jaccard_similarity X Y == 0).
Proof.
  destruct (decide (X = ∅)) as [HX|HX]; [|destruct (decide (Y = ∅)) as [HY|HY]].
  - rewrite (jaccard_empty X Y), (jaccard_empty Y X) by auto.
    split; [split; discriminate|]. split; [reflexivity|].
    split; [|reflexivity].
    split; [intros H1; vm_compute in H1; discriminate H1|].
    intros [_ Hne]. contradiction.
  - rewrite (jaccard_empty X Y), (jaccard_empty Y X) by auto.
    split; [split; discriminate|]. split; [reflexivity|].
    split; [|reflexivity].
    split; [intros H1; vm_compute in H1; discriminate H1|].
    intros [-> Hne]. contradiction.
  - destruct (jaccard_nonempty X Y HX HY) as [-> Hpos].
    destruct (jaccard_nonempty Y X HY HX) as [-> _].
    split; [|split; [|split]].
    + apply ratio_range; [apply size_inter_le_union | exact Hpos].
    + now rewrite (comm_L (∩) Y X), (comm_L (∪) Y X).
    + rewrite (ratio_one _ _ Hpos), inter_union_size_eq. tauto.
    + intros [?|?]; contradiction.
Qed.
End with_elements.

Lemma jaccard_similarity_properties_witness :
calculate_jaccard_similarity (∅ : gset string) {["a.py"%string]} == 0.
Proof.
apply (proj2 (proj2 (proj2
  (jaccard_similarity_properties (∅ : gset string) {["a.py"%string]})))).
left. reflexivity.
Defined.

(** Two equal sets need not have similarity [1.0]: for the empty set the
  guard on empty arguments answers [0.0]. *)
Lemma jaccard_equal_empty_sets_not_one :
(∅ : gset string) = ∅ /\
~ calculate_jaccard_similarity (∅ : gset string) ∅ == 1.
Proof. split; [reflexivity | intros H1; vm_compute in H1; discriminate H1]. Qed.
End jaccard_props.

Module pattern_analyzer_props.
Import pylist pattern_models pattern_analyzer pattern_analyzer_terms.
Local Open Scope Q_scope.
Local Open Scope string_scope.

(** Rows of one session accumulate into a single entry of the session
    dictionary, in row order. *)
Lemma session_sequences_step (sid : string) (rows : list CommandRow)
    (acc : list string) :
  sid <> "" ->
  Forall (fun r => session_id r = Some sid) rows ->
  fold_left
    (fun d r =>
       match session_truthy r with
       | Some s => dict_append String.eqb s (command_name r) d
       | None => d
       end)
    rows [(sid, acc)]
  = [(sid, (acc ++ map command_name rows)%list)].
Proof.
  intros Hsid Hall. revert acc.
  induction Hall as [|r rows Hr _ IH]; intros acc; cbn [fold_left map].
  - now rewrite app_nil_r.
  - unfold session_truthy at 2. rewrite Hr.
    destruct (String.eqb_spec sid "") as [?|_]; [contradiction|].
    cbn [dict_append]. rewrite String.eqb_refl, IH.
    now rewrite <- app_assoc.
Qed.

Lemma session_sequences_single (sid : string) (rows : list CommandRow) :
  sid <> "" -> rows <> [] ->
  Forall (fun r => session_id r = Some sid) rows ->
  session_sequences rows = [(sid, map command_name rows)].
Proof.
  intros Hsid Hne Hall. destruct rows as [|r rows]; [contradiction|].
  inversion Hall as [|? ? Hr Hrest]; subst.
  unfold session_sequences. cbn [fold_left].
  unfold session_truthy at 2. rewrite Hr.
  destruct (String.eqb_spec sid "") as [?|_]; [contradiction|].
  cbn [dict_append]. now rewrite session_sequences_step.
Qed.

(** Every start position [0 .. len - n] contributes one window, so
    overlapping windows are all counted. *)
Lemma ngrams_length (n : nat) (commands : list string) :
  (n <= length commands)%nat ->
  length (ngrams n commands) = (length commands - n + 1)%nat.
Proof.
  intros Hn. unfold ngrams.
  destruct (Nat.ltb_spec (length commands) n) as [?|_]; [lia|].
  now rewrite length_map, length_seq.
Qed.

Lemma ngrams_lookup (n i : nat) (commands : list string) :
  (i + n <= length commands)%nat ->
  ngrams n commands !! i = Some (take n (drop i commands)).
Proof.
  intros Hi. unfold ngrams.
  destruct (Nat.ltb_spec (length commands) n) as [?|_]; [lia|].
  rewrite list_lookup_fmap, lookup_seq_lt by lia. reflexivity.
Qed.

(** C6: for one session running the commands a, b, c, a, b, c in this
    order, mining with window length 3 and [min_occurrences = 2] looks at
    the four overlapping windows abc, bca, cab, abc and returns exactly one
    sequence, [["a","b","c"]], seen twice, with confidence
    [min(1, 2/10)]. *)
Theorem sequence_mining_abcabc (cfg : Config) (sid : string)
    (rows : list CommandRow) :
  command_sequence_length cfg = 3%nat ->
  command_min_occurrences cfg = 2%Z ->
  sid <> "" ->
  Forall (fun r => session_id r = Some sid) rows ->
  map command_name rows = ["a"; "b"; "c"; "a"; "b"; "c"] ->
  ngrams 3 (map command_name rows)
    = [["a"; "b"; "c"]; ["b"; "c"; "a"]; ["c"; "a"; "b"]; ["a"; "b"; "c"]]
  /\ analyze_command_sequences cfg rows
    = [mk_CommandSequence ["a"; "b"; "c"] 2 0 (Qmin 1 (inject_Z 2 / 10))].
Proof.
  intros Hn Hmin Hsid Hall Hcmds. split.
  - now rewrite Hcmds.
  - unfold analyze_command_sequences.
    destruct rows as [|r0 rows0] eqn:Hrows; [discriminate Hcmds|].
    rewrite <- Hrows in *.
    rewrite (session_sequences_single sid rows) by (subst; auto; discriminate).
    rewrite Hn, Hmin, Hcmds. reflexivity.
Qed.

Lemma sequence_mining_abcabc_witness :
  analyze_command_sequences (mk_Config 2 3 0.3 2 2 5 30 0.5) abcabc_rows
  = [mk_CommandSequence ["a"; "b"; "c"] 2 0 (Qmin 1 (inject_Z 2 / 10))].
Proof.
  apply (proj2 (sequence_mining_abcabc
                  (mk_Config 2 3 0.3 2 2 5 30 0.5) "s1" abcabc_rows
                  eq_refl eq_refl ltac:(discriminate)
                  ltac:(repeat constructor) eq_refl)).
Defined.

(** C4 (as amended): the overall confidence of the report is
    [min(1, m/10)] where [m] counts the command sequences, file clusters and
    success correlations; the time-pattern summary, which [pattern_count]
    counts as one more pattern, does not enter.  So the confidence is
    [min(1, pattern_count/10)] when there is no time-pattern summary and
    [min(1, (pattern_count - 1)/10)] when there is one. *)
Theorem overall_confidence_of_listed_patterns (cfg : Config)
    (rows : list CommandRow) (fc : list FileCluster)
    (tp : option TimePatternSummary) (sc : list SuccessCorrelation)
    (now_iso : string) :
  let r := analyze_all_patterns cfg rows fc tp sc now_iso in
  report_confidence r
    = Qmin 1 (inject_Z (Z.of_nat (listed_pattern_count r)) / 10)
  /\ pattern_count r
    = (listed_pattern_count r + match tp with Some _ => 1 | None => 0 end)%nat
  /\ (tp = None ->
      report_confidence r = Qmin 1 (inject_Z (Z.of_nat (pattern_count r)) / 10)).
Proof.
  cbn zeta. split; [reflexivity|]. split; [reflexivity|].
  intros ->. unfold pattern_count, analyze_all_patterns. cbn.
  now rewrite Nat.add_0_r.
Qed.

Lemma overall_confidence_of_listed_patterns_witness :
  let r := analyze_all_patterns default_config abcabc_rows [] None [] "t" in
  report_confidence r = Qmin 1 (inject_Z (Z.of_nat (pattern_count r)) / 10).
Proof.
  apply (proj2 (proj2 (overall_confidence_of_listed_patterns
                         default_config abcabc_rows [] None [] "t"))).
  reflexivity.
Defined.

(** A report holding only a time-pattern summary has [pattern_count = 1]
    and confidence [0.0], not [min(1, 1/10)]. *)
Lemma overall_confidence_ignores_time_patterns :
  let r := analyze_all_patterns default_config [] []
             (Some some_time_patterns) [] "t" in
  pattern_count r = 1%nat
  /\ report_confidence r == 0
  /\ ~ report_confidence r == Qmin 1 (inject_Z (Z.of_nat (pattern_count r)) / 10).
Proof.
  cbn zeta. split; [reflexivity|]. split; [reflexivity|].
  intros Heq. vm_compute in Heq. discriminate Heq.
Qed.

End pattern_analyzer_props.

Module serialization_props.
Import pystr executive_models serialization_terms.
Local Open Scope string_scope.

(** *** Decimal digits *)

Lemma digit_val_digit_char (k : Z) :
  (0 <= k <= 9)%Z -> digit_val (digit_char k) = Some k.
Proof.
  intros Hk. unfold digit_val, digit_char.
  rewrite nat_ascii_embedding by lia.
  destruct (Nat.leb_spec 48 (48 + Z.to_nat k)) as [_|?]; [|lia].
  destruct (Nat.leb_spec (48 + Z.to_nat k) 57) as [_|?]; [|lia].
  cbn [andb]. f_equal. lia.
Qed.

Lemma parse_digits_from_app (s1 s2 : string) (acc : Z) :
  parse_digits_from acc (s1 ++ s2)
  = match parse_digits_from acc s1 with
    | Some a => parse_digits_from a s2
    | None => None
    end.
Proof.
  revert acc. induction s1 as [|c s1 IH]; intros acc; [reflexivity|].
  change (String c s1 ++ s2) with (String c (s1 ++ s2)).
  cbn [parse_digits_from].
  destruct (digit_val c); [apply IH | reflexivity].
Qed.

Lemma parse_digits_from_zpad (w : nat) (n acc : Z) :
  (0 <= n < 10 ^ Z.of_nat w)%Z ->
  parse_digits_from acc (zpad w n) = Some (acc * 10 ^ Z.of_nat w + n)%Z.
Proof.
  revert n acc. induction w as [|w IH]; intros n acc Hn.
  - cbn in *. f_equal. lia.
  - rewrite Nat2Z.inj_succ, Z.pow_succ_r in * by lia.
    cbn [zpad]. rewrite parse_digits_from_app, IH.
    + cbn [parse_digits_from].
      rewrite digit_val_digit_char
        by (pose proof (Z.mod_pos_bound n 10); lia).
      f_equal. pose proof (Z.div_mod n 10). lia.
    + split; [apply Z.div_pos; lia | apply Z.div_lt_upper_bound; lia].
Qed.

Lemma parse_digits_zpad (w : nat) (n : Z) :
  (0 <= n < 10 ^ Z.of_nat w)%Z -> parse_digits (zpad w n) = Some n.
Proof.
  intros Hn. unfold parse_digits. now rewrite parse_digits_from_zpad.
Qed.

(** *** Dates *)

Lemma valid_date_bounds (d : date) :
  valid_date d = true ->
  (0 <= year d < 10 ^ 4 /\ 0 <= month d < 10 ^ 2 /\ 0 <= day d < 10 ^ 2)%Z.
Proof.
  unfold valid_date, days_in_month. intros Hv.
  repeat (apply andb_prop in Hv as [Hv ?]).
  repeat match goal with
         | H : (_ <=? _)%Z = true |- _ => apply Z.leb_le in H
         end.
  assert (day d <= 31)%Z
    by (repeat match goal with
               | H : context [if ?b then _ else _] |- _ => destruct b
               end; lia).
  lia.
Qed.

Lemma date_fromisoformat_digits (y m d : Z) :
  date_fromisoformat (zpad 4 y ++ "-" ++ zpad 2 m ++ "-" ++ zpad 2 d)
  = match parse_digits (zpad 4 y) with
    | Some y' =>
        match parse_digits (zpad 2 m) with
        | Some m' =>
            match parse_digits (zpad 2 d) with
            | Some d' =>
                if valid_date (mk_date y' m' d')
                then Some (mk_date y' m' d') else None
            | None => None
            end
        | None => None
        end
    | None => None
    end.
Proof. reflexivity. Qed.

Lemma date_roundtrip (d : date) :
  valid_date d = true -> date_fromisoformat (date_isoformat d) = Some d.
Proof.
  intros Hv. destruct (valid_date_bounds d Hv) as (Hy & Hm & Hd).
  unfold date_isoformat. rewrite date_fromisoformat_digits.
  rewrite !parse_digits_zpad by assumption.
  destruct d as [y m dd]. cbn [year month day] in *. now rewrite Hv.
Qed.

Lemma valid_time_bounds (h m s us : Z) :
  valid_time h m s us = true ->
  (0 <= h < 10 ^ 2 /\ 0 <= m < 10 ^ 2 /\ 0 <= s < 10 ^ 2
   /\ 0 <= us < 10 ^ 6)%Z.
Proof.
  unfold valid_time. intros Hv.
  repeat (apply andb_prop in Hv as [Hv ?]).
  repeat match goal with
         | H : (_ <=? _)%Z = true |- _ => apply Z.leb_le in H
         end.
  lia.
Qed.

Lemma time_fromisoformat_digits (h m s : Z) (frac : string) :
  time_fromisoformat (zpad 2 h ++ ":" ++ zpad 2 m ++ ":" ++ zpad 2 s ++ frac)
  = match parse_digits (zpad 2 h) with
    | Some h' =>
        match parse_digits (zpad 2 m) with
        | Some m' =>
            match parse_digits (zpad 2 s) with
            | Some s' =>
                match
                  match frac with
                  | EmptyString => Some 0%Z
                  | String "." digits =>
                      if (String.length digits =? 6)%nat
                      then parse_digits digits else None
                  | _ => None
                  end
                with
                | Some us' =>
                    if valid_time h' m' s' us'
                    then Some (h', m', s', us') else None
                | None => None
                end
            | None => None
            end
        | None => None
        end
    | None => None
    end.
Proof. reflexivity. Qed.

Lemma datetime_isoformat_split (t : datetime) :
  String.substring 0 10 (datetime_isoformat t) = date_isoformat (dt_date t)
  /\ drop_chars 10 (datetime_isoformat t)
     = "T" ++ zpad 2 (hour t) ++ ":" ++ zpad 2 (minute t) ++ ":"
       ++ zpad 2 (second t)
       ++ (if (microsecond t =? 0)%Z then ""
           else "." ++ zpad 6 (microsecond t)).
Proof. split; reflexivity. Qed.

Lemma datetime_roundtrip (t : datetime) :
  valid_datetime t = true ->
  datetime_fromisoformat (datetime_isoformat t) = Some t.
Proof.
  intros Hv. apply andb_prop in Hv as [Hd Ht].
  destruct (valid_time_bounds _ _ _ _ Ht) as (Hh & Hm & Hs & Hus).
  unfold datetime_fromisoformat.
  destruct (datetime_isoformat_split t) as [-> ->].
  rewrite (date_roundtrip _ Hd). cbn [mbind option_bind].
  change ("T" ++ ?s) with (String "T" s). cbv iota beta.
  rewrite time_fromisoformat_digits.
  rewrite !parse_digits_zpad by assumption.
  destruct t as [d h m s us]. cbn [hour minute second microsecond dt_date] in *.
  destruct (Z.eqb_spec us 0) as [->|Hne].
  - rewrite Ht. reflexivity.
  - change ("." ++ zpad 6 us) with (String "." (zpad 6 us)). cbv iota beta.
    assert ((String.length (zpad 6 us) =? 6)%nat = true) as -> by reflexivity.
    rewrite parse_digits_zpad by assumption. rewrite Ht. reflexivity.
Qed.

(** *** Enumerations *)

Lemma TrendDirection_roundtrip (d : TrendDirection) :
  TrendDirection_of_value (TrendDirection_value d) = Some d.
Proof. now destruct d. Qed.

Lemma TrendSignificance_roundtrip (d : TrendSignificance) :
  TrendSignificance_of_value (TrendSignificance_value d) = Some d.
Proof. now destruct d. Qed.

Lemma AlertSeverity_roundtrip (d : AlertSeverity) :
  AlertSeverity_of_value (AlertSeverity_value d) = Some d.
Proof. now destruct d. Qed.

Lemma AlertCategory_roundtrip (d : AlertCategory) :
  AlertCategory_of_value (AlertCategory_value d) = Some d.
Proof. now destruct d. Qed.

Lemma ProgressIndicator_roundtrip (d : ProgressIndicator) :
  ProgressIndicator_of_value (ProgressIndicator_value d) = Some d.
Proof. now destruct d. Qed.

Lemma as_str_list_roundtrip (l : list string) :
  as_str_list (AList (AStr <$> l)) = Some l.
Proof.
  unfold as_str_list. cbn [as_list mbind option_bind].
  induction l as [|x l IH]; [reflexivity|].
  cbn. cbn in IH. now rewrite IH.
Qed.


(** An ISO timestamp is never the empty string, so [data.get(...)] of
    it is truthy. *)
Lemma datetime_isoformat_nonempty (t : datetime) :
  String.eqb (datetime_isoformat t) "" = false.
Proof. reflexivity. Qed.

(** *** Records *)

Local Opaque date_fromisoformat date_isoformat.
Local Opaque datetime_fromisoformat datetime_isoformat as_str_list.

Lemma WeeklySnapshot_roundtrip (s : WeeklySnapshot) :
  wf_WeeklySnapshot s = true ->
  WeeklySnapshot_from_dict (WeeklySnapshot_to_dict s) = Some s.
Proof.
  intros Hwf. apply andb_prop in Hwf as [Hs He].
  unfold WeeklySnapshot_from_dict, WeeklySnapshot_to_dict. cbn.
  rewrite !date_roundtrip by assumption. cbn.
  rewrite as_str_list_roundtrip. cbn. now destruct s.
Qed.

Lemma TrendMetric_roundtrip (t : TrendMetric) :
  TrendMetric_from_dict (TrendMetric_to_dict t) = Some t.
Proof.
  unfold TrendMetric_from_dict, TrendMetric_to_dict. cbn.
  rewrite TrendDirection_roundtrip. cbn.
  rewrite TrendSignificance_roundtrip. cbn. now destruct t.
Qed.

Lemma ExecutiveAlert_roundtrip (a : ExecutiveAlert) :
  wf_ExecutiveAlert a = true ->
  ExecutiveAlert_from_dict (ExecutiveAlert_to_dict a) = Some a.
Proof.
  unfold wf_ExecutiveAlert. intros Hwf.
  unfold ExecutiveAlert_from_dict, ExecutiveAlert_to_dict. cbn.
  rewrite AlertSeverity_roundtrip. cbn.
  rewrite AlertCategory_roundtrip. cbn.
  rewrite as_str_list_roundtrip. cbn.
  rewrite datetime_roundtrip by assumption. cbn.
  destruct a as [? ? ? ? ? ? ? ? ? [q|]]; reflexivity.
Qed.

Lemma GoalCorrelation_roundtrip (g : GoalCorrelation) :
  wf_GoalCorrelation g = true ->
  GoalCorrelation_from_dict (GoalCorrelation_to_dict g) = Some g.
Proof.
  unfold wf_GoalCorrelation. intros Hwf.
  unfold GoalCorrelation_from_dict, GoalCorrelation_to_dict. cbn.
  rewrite !as_str_list_roundtrip. cbn.
  rewrite ProgressIndicator_roundtrip. cbn.
  destruct g as [? ? ? ? ? ? ? [t|]]; cbn in *; [|reflexivity].
  rewrite datetime_isoformat_nonempty.
  cbn. now rewrite datetime_roundtrip.
Qed.

Lemma from_nested_list_roundtrip {A}
    (to_dict : A -> list (string * Any))
    (from_dict : list (string * Any) -> option A)
    (wf : A -> bool) (l : list A) :
  (forall x, wf x = true -> from_dict (to_dict x) = Some x) ->
  forallb wf l = true ->
  from_nested_list from_dict (AList ((fun x => ADict (to_dict x)) <$> l))
  = Some l.
Proof.
  intros Hrt Hall. unfold from_nested_list. cbn [as_list].
  induction l as [|x l IH]; [reflexivity|].
  cbn in Hall. apply andb_prop in Hall as [Hx Hl].
  cbn. rewrite (Hrt x Hx). cbn.
  cbn in IH. now rewrite (IH Hl).
Qed.

Local Opaque WeeklySnapshot_from_dict WeeklySnapshot_to_dict from_nested_list.

Lemma ExecutiveInsightReport_roundtrip (r : ExecutiveInsightReport) :
  wf_ExecutiveInsightReport r = true ->
  ExecutiveInsightReport_from_dict (ExecutiveInsightReport_to_dict r)
  = Some r.
Proof.
  unfold wf_ExecutiveInsightReport. intros Hwf.
  apply andb_prop in Hwf as [Hwf Hgoals].
  apply andb_prop in Hwf as [Hwf Halerts].
  apply andb_prop in Hwf as [Hgen Hsnap].
  unfold ExecutiveInsightReport_from_dict, ExecutiveInsightReport_to_dict.
  cbn. rewrite datetime_roundtrip by assumption. cbn.
  rewrite WeeklySnapshot_roundtrip by assumption. cbn.
  rewrite (from_nested_list_roundtrip TrendMetric_to_dict
             TrendMetric_from_dict (fun _ => true))
    by (auto using TrendMetric_roundtrip; now induction (trend_metrics r)).
  cbn.
  rewrite (from_nested_list_roundtrip ExecutiveAlert_to_dict
             ExecutiveAlert_from_dict wf_ExecutiveAlert)
    by auto using ExecutiveAlert_roundtrip.
  cbn.
  rewrite (from_nested_list_roundtrip GoalCorrelation_to_dict
             GoalCorrelation_from_dict wf_GoalCorrelation)
    by auto using GoalCorrelation_roundtrip.
  cbn. now destruct r.
Qed.

(** C9: for each report type, reading back the dictionary written by
    [to_dict] gives the value it was written from, field for field:
    [from_dict(to_dict(x)) == x] for every well-formed [WeeklySnapshot],
    [TrendMetric], [ExecutiveAlert], [GoalCorrelation] and
    [ExecutiveInsightReport]. *)
Theorem to_dict_from_dict_roundtrip :
  (forall s, wf_WeeklySnapshot s = true ->
     WeeklySnapshot_from_dict (WeeklySnapshot_to_dict s) = Some s)
  /\ (forall t, TrendMetric_from_dict (TrendMetric_to_dict t) = Some t)
  /\ (forall a, wf_ExecutiveAlert a = true ->
        ExecutiveAlert_from_dict (ExecutiveAlert_to_dict a) = Some a)
  /\ (forall g, wf_GoalCorrelation g = true ->
        GoalCorrelation_from_dict (GoalCorrelation_to_dict g) = Some g)
  /\ (forall r, wf_ExecutiveInsightReport r = true ->
        ExecutiveInsightReport_from_dict (ExecutiveInsightReport_to_dict r)
        = Some r).
Proof.
  repeat split.
  - apply WeeklySnapshot_roundtrip.
  - apply TrendMetric_roundtrip.
  - apply ExecutiveAlert_roundtrip.
  - apply GoalCorrelation_roundtrip.
  - apply ExecutiveInsightReport_roundtrip.
Qed.

Lemma to_dict_from_dict_roundtrip_witness :
  WeeklySnapshot_from_dict (WeeklySnapshot_to_dict sample_snapshot)
    = Some sample_snapshot
  /\ ExecutiveAlert_from_dict (ExecutiveAlert_to_dict sample_alert)
    = Some sample_alert
  /\ GoalCorrelation_from_dict (GoalCorrelation_to_dict sample_goal)
    = Some sample_goal
  /\ ExecutiveInsightReport_from_dict
       (ExecutiveInsightReport_to_dict sample_report)
    = Some sample_report.
Proof.
  destruct to_dict_from_dict_roundtrip as (Hs & _ & Ha & Hg & Hr).
  split; [apply Hs; reflexivity|].
  split; [apply Ha; reflexivity|].
  split; [apply Hg; reflexivity|].
  apply Hr; reflexivity.
Defined.

End serialization_props.

Module trend_analyzer_props.
Import pystr executive_models pattern_models statistics trend_analyzer.
Import trend_analyzer_terms.
Local Open Scope Q_scope.
Local Open Scope string_scope.

(** With two or more data points [stdev] does not raise, so the
    [except] branch and its default [0.1] are never taken. *)
Lemma stdev_or_default_guarded (sqrt : Q -> Q) (values : list Q) :
  (2 <= length values)%nat ->
  exists v, variance values = Some v /\ stdev_or_default sqrt values = sqrt v.
Proof.
  intros Hlen. unfold stdev_or_default, stdev, variance.
  destruct (Nat.ltb_spec (length values) 2) as [?|_]; [lia|].
  eexists. split; reflexivity.
Qed.

(** A metric whose history has a zero standard deviation is never
    reported, whatever its current value. *)
Lemma check_metric_zero_stddev (sqrt : Q -> Q)
    (previous_snapshots : list WeeklySnapshot) (threshold : Q)
    (metric_name : string) (current_value : Q) :
  0 < threshold ->
  stdev_or_default sqrt (historical_values metric_name previous_snapshots)
    == 0 ->
  check_metric sqrt previous_snapshots threshold (metric_name, current_value)
  = None.
Proof.
  intros Hthr Hsd. unfold check_metric.
  destruct (length _ <? 2)%nat; [reflexivity|].
  unfold calculate_z_score.
  apply Qeq_bool_iff in Hsd. rewrite Hsd.
  destruct (Qle_bool threshold (Qabs 0)) eqn:Hle; [|reflexivity].
  apply Qle_bool_iff in Hle. change (Qabs 0) with 0 in Hle. lra.
Qed.

Lemma check_metric_short_history (sqrt : Q -> Q)
    (previous_snapshots : list WeeklySnapshot) (threshold : Q)
    (metric_name : string) (current_value : Q) :
  (length (historical_values metric_name previous_snapshots) < 2)%nat ->
  check_metric sqrt previous_snapshots threshold (metric_name, current_value)
  = None.
Proof.
  intros Hlen. unfold check_metric.
  destruct (Nat.ltb_spec (length (historical_values metric_name
                                    previous_snapshots)) 2) as [_|?];
    [reflexivity | lia].
Qed.

(** C1 (the code departs from the claim): on the history [10,10,10,10]
    and the current value 100 the standard deviation is 0, it is not
    replaced by a positive floor, the z-score is therefore 0.0 and
    [detect_anomalies] reports nothing at the default threshold 2.0. *)
Theorem constant_history_reports_no_anomaly (sqrt : Q -> Q) :
  (forall q, q == 0 -> sqrt q == 0) ->
  historical_values "strategic_alignment" constant_history = [10; 10; 10; 10]
  /\ stdev_or_default sqrt [10; 10; 10; 10] == 0
  /\ calculate_z_score 100 (mean [10; 10; 10; 10])
       (stdev_or_default sqrt [10; 10; 10; 10]) = 0
  /\ detect_anomalies sqrt (mk_date 2025 1 27) (mk_date 2025 2 2) 100
       empty_report constant_history DEFAULT_ANOMALY_THRESHOLD = [].
Proof.
  intros Hsqrt.
  assert (stdev_or_default sqrt [10; 10; 10; 10] == 0) as Hsd.
  { destruct (stdev_or_default_guarded sqrt [10; 10; 10; 10]) as (v & Hv & ->);
      [cbn; lia|].
    apply Hsqrt. injection Hv as <-. reflexivity. }
  split; [reflexivity|]. split; [exact Hsd|]. split.
  - unfold calculate_z_score. apply Qeq_bool_iff in Hsd. now rewrite Hsd.
  - unfold detect_anomalies.
    change (length constant_history <? 2)%nat with false. cbv iota zeta.
    cbn [omap list_omap].
    rewrite (check_metric_short_history _ _ _ "productivity_score")
      by (vm_compute; lia).
    rewrite (check_metric_zero_stddev _ _ _ "strategic_alignment")
      by (try exact Hsd; reflexivity).
    rewrite (check_metric_short_history _ _ _ "pattern_diversity")
      by (vm_compute; lia).
    rewrite (check_metric_short_history _ _ _ "success_rate") by (vm_compute; lia).
    rewrite (check_metric_short_history _ _ _ "active_hours") by (vm_compute; lia).
    reflexivity.
Qed.

Lemma sqrt_6_zero (q : Q) : q == 0 -> sqrt_6 q == 0.
Proof.
  intros Hq. unfold sqrt_6.
  assert (Qnum q = 0%Z) as ->.
  { unfold Qeq in Hq. cbn in Hq. lia. }
  reflexivity.
Qed.

Lemma constant_history_reports_no_anomaly_witness :
  detect_anomalies sqrt_6 (mk_date 2025 1 27) (mk_date 2025 2 2) 100
    empty_report constant_history DEFAULT_ANOMALY_THRESHOLD = [].
Proof.
  apply (proj2 (proj2 (proj2
           (constant_history_reports_no_anomaly sqrt_6 sqrt_6_zero)))).
Defined.

(** Had the floor [0.1] been applied, the same input would have been a
    critical anomaly: [z = 900 >= 1.5 * 2.0]. *)
Lemma z_score_with_floor :
  calculate_z_score 100 (mean [10; 10; 10; 10]) 0.1 == 900
  /\ Qle_bool (DEFAULT_ANOMALY_THRESHOLD * 1.5)
       (Qabs (calculate_z_score 100 (mean [10; 10; 10; 10]) 0.1)) = true.
Proof. split; reflexivity. Qed.

End trend_analyzer_props.

Module pylist_props.
Import pylist.

Section stable_sort.
Context {A : Type} (le : A -> A -> bool).

Lemma insert_sorted_Permutation (x : A) (l : list A) :
  insert_sorted le x l ≡ₚ x :: l.
Proof.
  induction l as [|y l IH]; cbn; [reflexivity|].
  destruct (le x y); [reflexivity|].
  rewrite IH. apply Permutation_swap.
Qed.

Lemma stable_sort_Permutation (l : list A) : stable_sort le l ≡ₚ l.
Proof.
  induction l as [|x l IH]; cbn; [reflexivity|].
  rewrite insert_sorted_Permutation. now rewrite IH.
Qed.

Lemma stable_sort_length (l : list A) :
  length (stable_sort le l) = length l.
Proof. now rewrite stable_sort_Permutation. Qed.

(** An element passes over a prefix it may not precede... *)
Lemma insert_sorted_skip (x : A) (l1 l2 : list A) :
  Forall (fun y => le x y = false) l1 ->
  insert_sorted le x (l1 ++ l2) = l1 ++ insert_sorted le x l2.
Proof.
  induction 1 as [|y l1 Hy _ IH]; cbn; [reflexivity|].
  now rewrite Hy, IH.
Qed.

(** ... and stops in front of the first element it may precede. *)
Lemma insert_sorted_stop (x : A) (l : list A) :
  Forall (fun y => le x y = true) l -> insert_sorted le x l = x :: l.
Proof. destruct 1 as [|y l Hy _]; cbn; [reflexivity | now rewrite Hy]. Qed.

End stable_sort.
End pylist_props.

Module alert_system_props.
Import pystr pylist executive_models pattern_models trend_analyzer.
Import alert_system alert_system_terms pylist_props.
Local Open Scope Q_scope.
Local Open Scope string_scope.

Lemma Forall_of_severity (P : ExecutiveAlert -> Prop) (s : AlertSeverity)
    (alerts : list ExecutiveAlert) :
  (forall a, severity a = s -> P a) -> Forall P (of_severity s alerts).
Proof.
  intros HP. apply Forall_forall. intros a Ha.
  apply list_elem_of_filter in Ha as [Hs _]. now apply HP.
Qed.

(** Comparing an alert of known severity with a whole severity group. *)
Ltac compare_group Hx :=
  apply Forall_of_severity;
  let y := fresh "y" in
  let Hy := fresh "Hy" in
  intros y Hy; unfold severity_le; rewrite Hx, Hy; reflexivity.

(** The stable sort on three severities lists the critical alerts, then
    the warnings, then the informational ones, each group in generation
    order. *)
Lemma sort_by_severity_groups (alerts : list ExecutiveAlert) :
  sort_by_severity alerts
  = (of_severity CRITICAL alerts ++ of_severity WARNING alerts
     ++ of_severity INFO alerts)%list.
Proof.
  unfold sort_by_severity. fold severity_le.
  induction alerts as [|x l IH]; [reflexivity|].
  cbn [stable_sort foldr]. fold (stable_sort severity_le l). rewrite IH.
  unfold of_severity at 4 5 6.
  destruct (severity x) eqn:Hx.
  - rewrite filter_cons_True, !filter_cons_False by congruence.
    apply insert_sorted_stop. apply Forall_forall. intros y _.
    unfold severity_le. rewrite Hx. now destruct (severity y).
  - rewrite filter_cons_False, filter_cons_True, filter_cons_False
      by congruence.
    rewrite insert_sorted_skip by compare_group Hx.
    f_equal. apply insert_sorted_stop, Forall_app.
    split; compare_group Hx.
  - rewrite !filter_cons_False, filter_cons_True by congruence.
    rewrite insert_sorted_skip by compare_group Hx.
    f_equal. rewrite insert_sorted_skip by compare_group Hx.
    f_equal. apply insert_sorted_stop. compare_group Hx.
Qed.

Lemma groups_StronglySorted (alerts : list ExecutiveAlert) :
  StronglySorted ranks_before
    (of_severity CRITICAL alerts ++ of_severity WARNING alerts
     ++ of_severity INFO alerts)%list.
Proof.
  assert (forall s l, StronglySorted ranks_before (of_severity s l)) as Hgrp.
  { intros s l. unfold of_severity.
    induction l as [|x l IH]; [constructor|].
    rewrite filter_cons. destruct (decide (severity x = s)) as [Hx|_];
      [|exact IH].
    constructor; [exact IH|].
    apply Forall_of_severity. intros y Hy. unfold ranks_before.
    rewrite Hx, Hy. lia. }
  apply StronglySorted_app_2; [|apply Hgrp|].
  - intros a b Ha Hb.
    apply list_elem_of_filter in Ha as [Ha _].
    unfold ranks_before. rewrite Ha. cbn. destruct (severity b); cbn; lia.
  - apply StronglySorted_app_2; [|apply Hgrp | apply Hgrp].
    intros a b Ha Hb.
    apply list_elem_of_filter in Ha as [Ha _].
    apply list_elem_of_filter in Hb as [Hb _].
    unfold ranks_before. rewrite Ha, Hb. cbn. lia.
Qed.

Lemma StronglySorted_take {A} (R : relation A) (n : nat) (l : list A) :
  StronglySorted R l -> StronglySorted R (take n l).
Proof.
  intros Hl. rewrite <- (take_drop n l) in Hl.
  now apply StronglySorted_app_1_l in Hl.
Qed.

(** In the grouped order a critical alert sits in front of every
    informational one. *)
Lemma groups_critical_before_info (alerts : list ExecutiveAlert)
    (i j : nat) (a b : ExecutiveAlert) :
  let sorted := (of_severity CRITICAL alerts ++ of_severity WARNING alerts
                 ++ of_severity INFO alerts)%list in
  sorted !! i = Some a -> sorted !! j = Some b ->
  severity a = CRITICAL -> severity b = INFO -> (i < j)%nat.
Proof.
  cbn zeta. intros Hi Hj Ha Hb.
  destruct (decide (i < length (of_severity CRITICAL alerts))%nat)
    as [Hlt|Hge].
  - destruct (decide (j < length (of_severity CRITICAL alerts))%nat)
      as [Hjlt|Hjge]; [|lia].
    rewrite lookup_app_l in Hj by exact Hjlt.
    apply list_elem_of_lookup_2, list_elem_of_filter in Hj as [Hj _].
    congruence.
  - rewrite lookup_app_r in Hi by lia.
    apply list_elem_of_lookup_2, elem_of_app in Hi as [Hi|Hi];
      apply list_elem_of_filter in Hi as [Hi _]; congruence.
Qed.

Lemma collect_alerts_no_anomalies (cfg : Config) (now : datetime)
    (trend_metrics : list TrendMetric)
    (pattern_report : option PatternReport) :
  collect_alerts cfg now trend_metrics [] pattern_report
  = Some (_check_productivity_alerts cfg now trend_metrics
          ++ _check_alignment_alerts cfg now trend_metrics
          ++ match pattern_report with
             | Some report => _check_pattern_alerts now report
             | None => []
             end
          ++ _check_opportunity_alerts now trend_metrics ++ [])%list.
Proof. reflexivity. Qed.

(** Building the alert of any anomaly raises, so with a non-empty anomaly
    list [generate_alerts] returns nothing. *)
Lemma generate_alerts_raises_on_anomalies (cfg : Config) (now : datetime)
    (trend_metrics : list TrendMetric) (anomaly : Anomaly)
    (anomalies : list Anomaly) (pattern_report : option PatternReport) :
  generate_alerts cfg now trend_metrics (anomaly :: anomalies) pattern_report
  = None.
Proof. reflexivity. Qed.

(** C5 (as amended): with a non-negative cap and no anomalies to convert,
    [generate_alerts] returns a list of at most [max_active_alerts] alerts.
    When no more alerts were generated than the cap, they are returned in
    the order they were generated (productivity, alignment, pattern,
    opportunity), not ranked.  When more were generated, the result has
    exactly [max_active_alerts] entries: the first ones of the generated
    alerts ranked CRITICAL, WARNING, INFO with ties in generation order,
    so every critical alert precedes every informational one. *)
Theorem generate_alerts_cap_and_ranking (cfg : Config) (now : datetime)
    (trend_metrics : list TrendMetric)
    (pattern_report : option PatternReport) :
  (0 <= max_active_alerts cfg)%Z ->
  exists generated result,
    collect_alerts cfg now trend_metrics [] pattern_report = Some generated
    /\ generate_alerts cfg now trend_metrics [] pattern_report = Some result
    /\ (Z.of_nat (length result) <= max_active_alerts cfg)%Z
    /\ ((Z.of_nat (length generated) <= max_active_alerts cfg)%Z ->
        result = generated)
    /\ ((max_active_alerts cfg < Z.of_nat (length generated))%Z ->
        result = take (Z.to_nat (max_active_alerts cfg))
                   (of_severity CRITICAL generated
                    ++ of_severity WARNING generated
                    ++ of_severity INFO generated)%list
        /\ Z.of_nat (length result) = max_active_alerts cfg
        /\ StronglySorted ranks_before result
        /\ (forall kept dropped,
              kept ∈ result ->
              dropped ∈ drop (Z.to_nat (max_active_alerts cfg))
                          (of_severity CRITICAL generated
                           ++ of_severity WARNING generated
                           ++ of_severity INFO generated)%list ->
              ranks_before kept dropped)
        /\ (forall i j a b,
              result !! i = Some a -> result !! j = Some b ->
              severity a = CRITICAL -> severity b = INFO -> (i < j)%nat)).
Proof.
  intros Hcap. unfold generate_alerts.
  rewrite collect_alerts_no_anomalies.
  set (generated := (_ ++ _)%list).
  destruct (Z.ltb_spec (max_active_alerts cfg) (Z.of_nat (length generated)))
    as [Hover|Hunder].
  - exists generated, (slice_to (max_active_alerts cfg)
                         (sort_by_severity generated)).
    assert (slice_to (max_active_alerts cfg) (sort_by_severity generated)
            = take (Z.to_nat (max_active_alerts cfg))
                (of_severity CRITICAL generated
                 ++ of_severity WARNING generated
                 ++ of_severity INFO generated)%list) as Hres.
    { unfold slice_to. destruct (Z.leb_spec 0 (max_active_alerts cfg)); [|lia].
      now rewrite sort_by_severity_groups. }
    assert (length (slice_to (max_active_alerts cfg)
                      (sort_by_severity generated))
            = Z.to_nat (max_active_alerts cfg)) as Hlen.
    { rewrite Hres, <- sort_by_severity_groups. apply length_take_le.
      unfold sort_by_severity. rewrite stable_sort_length. lia. }
    split; [reflexivity|]. split; [reflexivity|].
    split; [lia|]. split; [lia|]. intros _.
    split; [exact Hres|]. split; [lia|]. split; [|split].
    + rewrite Hres. apply StronglySorted_take, groups_StronglySorted.
    + rewrite Hres. intros kept dropped Hkept Hdropped.
      pose proof (groups_StronglySorted generated) as Hsorted.
      rewrite <- (take_drop (Z.to_nat (max_active_alerts cfg))) in Hsorted.
      exact (StronglySorted_app_1_elem_of _ _ _ _ _ Hsorted Hkept Hdropped).
    + intros i j a b Hi Hj. rewrite Hres in Hi, Hj.
      apply lookup_take_Some in Hi as [Hi _].
      apply lookup_take_Some in Hj as [Hj _].
      now apply (groups_critical_before_info generated i j a b).
  - exists generated, generated.
    split; [reflexivity|]. split; [reflexivity|].
    split; [lia|]. split; [reflexivity|]. lia.
Qed.

Lemma generate_alerts_cap_and_ranking_witness :
  exists result,
    generate_alerts default_config sample_now fifteen_alert_metrics [] None
      = Some result
    /\ length result = 10%nat
    /\ severity <$> result
       = [CRITICAL; CRITICAL; CRITICAL; CRITICAL; INFO; INFO; INFO; INFO;
          INFO; INFO].
Proof.
  destruct (generate_alerts_cap_and_ranking default_config sample_now
              fifteen_alert_metrics None) as (generated & result & Hgen & Hres
                                              & _ & _ & Hover);
    [discriminate|].
  exists result. split; [exact Hres|].
  injection Hgen as <-.
  destruct Hover as (-> & _); [reflexivity|].
  split; reflexivity.
Defined.

(** Below the cap nothing is sorted: a productivity warning generated
    before a critical alignment alert stays in front of it. *)
Lemma generate_alerts_unsorted_below_cap :
  exists result,
    generate_alerts default_config sample_now
      [ metric_with_change "productivity_score" (-25);
        metric_with_change "strategic_alignment" (-30) ] [] None
      = Some result
    /\ (Z.of_nat (length result) <= max_active_alerts default_config)%Z
    /\ map severity result = [WARNING; CRITICAL]
    /\ ~ StronglySorted ranks_before result.
Proof.
  eexists. split; [reflexivity|]. split; [discriminate|].
  split; [reflexivity|].
  intros Hsorted. apply StronglySorted_inv in Hsorted as [_ Hfirst].
  apply Forall_inv in Hfirst. vm_compute in Hfirst. now apply Hfirst.
Qed.

(** *** Alignment alerts *)







End alert_system_props.

Module goal_recommender_props.
Import pystr pylist executive_models pattern_models goal_recommender.
Import goal_recommender_terms.
Import pylist_props.
Local Open Scope Q_scope.
Local Open Scope string_scope.

Lemma record_match_weights (st : Alignment) (pattern : string) (f : Q) :
  weights_only st -> is_weight f -> weights_only (record_match st pattern f).
Proof.
  unfold weights_only, record_match. cbn. intros Hst Hf.
  apply Forall_app. split; [exact Hst | now constructor].
Qed.

Lemma fold_left_invariant {A B} (P : A -> Prop) (f : A -> B -> A)
    (l : list B) (a : A) :
  (forall a b, P a -> P (f a b)) -> P a -> P (fold_left f l a).
Proof.
  intros Hstep. revert a. induction l as [|b l IH]; intros a Ha; cbn.
  - exact Ha.
  - apply IH, Hstep, Ha.
Qed.

Lemma okr_alignment_weights (okr : Okr) (file_paths command_list : list string) :
  weights_only (okr_alignment okr file_paths command_list).
Proof.
  unfold okr_alignment, check_keywords, check_commands, check_file_paths.
  apply fold_left_invariant.
  { intros st keyword Hst.
    repeat match goal with |- context [if ?b then _ else _] => destruct b end;
      try exact Hst.
    apply record_match_weights; [exact Hst | right; right; reflexivity]. }
  apply fold_left_invariant.
  { intros st command Hst. cbn zeta.
    destruct (existsb _ _); [|exact Hst].
    apply record_match_weights; [exact Hst | right; left; reflexivity]. }
  apply fold_left_invariant.
  { intros st file_path Hst.
    destruct (existsb _ _); [|exact Hst].
    apply record_match_weights; [exact Hst | left; reflexivity]. }
  constructor.
Qed.

Lemma is_weight_nonneg (f : Q) : is_weight f -> 0 <= f.
Proof. intros [->|[->| ->]]; discriminate. Qed.

Lemma fold_left_Qplus_nonneg (xs : list Q) (a : Q) :
  Forall is_weight xs -> 0 <= a -> 0 <= fold_left Qplus xs a.
Proof.
  intros Hxs. revert a. induction Hxs as [|x xs Hx _ IH]; intros a Ha; cbn.
  - exact Ha.
  - apply IH. apply is_weight_nonneg in Hx. lra.
Qed.

(** The capped sum of any number of weights lies in [[0,1]]. *)
Lemma score_of_factors_range (factors : list Q) :
  Forall is_weight factors -> 0 <= score_of_factors factors <= 1.
Proof.
  intros Hf. unfold score_of_factors.
  destruct factors as [|f factors]; [split; discriminate|].
  split.
  - apply Q.min_glb; [discriminate|].
    unfold Qsum. apply fold_left_Qplus_nonneg; [exact Hf | discriminate].
  - apply Q.le_min_l.
Qed.

Lemma correlate_okr_score (cfg : Config) (now : datetime)
    (report : PatternReport) (file_paths command_list : list string)
    (entry : string * Okr) (c : GoalCorrelation) :
  correlate_okr cfg now report file_paths command_list entry = Some c ->
  alignment_score c
  = score_of_factors (okr_alignment entry.2 file_paths command_list).2.
Proof.
  destruct entry as [okr_id okr]. unfold correlate_okr. cbn [snd].
  destruct (okr_alignment okr file_paths command_list) as [aligned factors].
  destruct (Qle_bool _ _); [|discriminate].
  intros [= <-]. reflexivity.
Qed.

(** C8: every goal correlation [correlate_patterns_to_goals] returns has
    an alignment score in [[0,1]]: the score is the sum of the weights
    0.3 (file-path match), 0.2 (command match) and 0.1 (keyword match)
    that were recorded, capped at 1.0, however many there are. *)
Theorem alignment_score_in_unit_interval (cfg : Config) (now : datetime)
    (okrs : list (string * Okr)) (pattern_report : PatternReport) :
  Forall
    (fun c =>
       0 <= alignment_score c <= 1
       /\ exists factors,
            Forall is_weight factors
            /\ alignment_score c
               = match factors with
                 | [] => 0
                 | _ => Qmin 1 (Qsum factors)
                 end)
    (correlate_patterns_to_goals cfg now okrs pattern_report).
Proof.
  unfold correlate_patterns_to_goals.
  rewrite stable_sort_Permutation.
  apply Forall_forall. intros c Hc.
  apply list_elem_of_omap in Hc as (entry & _ & Hc).
  apply correlate_okr_score in Hc.
  pose proof (okr_alignment_weights entry.2
                (concat (files <$> file_clusters pattern_report))
                (concat (sequence <$> command_sequences pattern_report)))
    as Hw.
  rewrite Hc. split.
  - now apply score_of_factors_range.
  - eexists. split; [exact Hw | reflexivity].
Qed.

(** Ten matching file paths give a raw sum of 3.0 and a score of 1.0. *)
Example alignment_score_saturates :
  let report :=
    mk_PatternReport []
      [mk_FileCluster (replicate 10 "scripts/automation/run.py") 4 0.4 "c"]
      None [] "t" 0 in
  (fun c => (okr_id c, alignment_score c, evidence_count c))
    <$> correlate_patterns_to_goals default_config
          (mk_datetime (mk_date 2025 1 30) 9 0 0 0) DEFAULT_OKRS report
  = [("obj4", 1, 11%Z)].
Proof. vm_compute. reflexivity. Qed.

End goal_recommender_props.

Module pattern_store_props.
Import executive_models pattern_store pattern_store_terms.
Local Open Scope string_scope.

Lemma count_zero_iff (rs : list PatternRow) (key : string) :
  length (filter (fun r => pattern_key r = key) rs) = 0%nat
  <-> key ∉ pattern_key <$> rs.
Proof.
  induction rs as [|r rs IH].
  - split; [intros _; apply not_elem_of_nil | reflexivity].
  - rewrite fmap_cons, filter_cons, not_elem_of_cons.
    destruct (decide (pattern_key r = key)) as [Hk|Hk]; cbn [length].
    + split; [discriminate | intros [Hne _]; congruence].
    + rewrite IH. split; [intros ?; split; [congruence | assumption] | tauto].
Qed.

Lemma existsb_key_false (rs : list PatternRow) (key : string) :
  key ∉ pattern_key <$> rs ->
  existsb (fun r => String.eqb (pattern_key r) key) rs = false.
Proof.
  induction rs as [|r rs IH]; cbn; [reflexivity|].
  rewrite not_elem_of_cons. intros [Hne Hrest].
  destruct (String.eqb_spec (pattern_key r) key) as [?|_]; [congruence|].
  now apply IH.
Qed.

Lemma count_one (rs : list PatternRow) (key : string) :
  NoDup (pattern_key <$> rs) -> key ∈ pattern_key <$> rs ->
  length (filter (fun r => pattern_key r = key) rs) = 1%nat.
Proof.
  induction rs as [|r rs IH].
  - intros _ Hin. now apply elem_of_nil in Hin.
  - rewrite fmap_cons, NoDup_cons, elem_of_cons, filter_cons.
    intros [Hfresh Hnd] Hin.
    destruct (decide (pattern_key r = key)) as [Hk|Hk]; cbn [length].
    + f_equal. apply count_zero_iff. now rewrite <- Hk.
    + destruct Hin as [?|Hin]; [congruence | now apply IH].
Qed.

Section update.
Variables (key data_json : string) (confidence : Q) (now : string).

Local Abbreviation update :=
  (update_row key data_json confidence now).

Lemma update_row_key (r : PatternRow) :
  pattern_key (update r) = pattern_key r.
Proof. unfold update_row. now destruct (String.eqb _ _). Qed.

Lemma update_keys (rs : list PatternRow) :
  pattern_key <$> (update <$> rs) = pattern_key <$> rs.
Proof.
  induction rs as [|r rs IH]; cbn; [reflexivity|].
  now rewrite update_row_key, IH.
Qed.

Lemma update_absent (rs : list PatternRow) :
  key ∉ pattern_key <$> rs -> update <$> rs = rs.
Proof.
  induction rs as [|r rs IH]; cbn; [reflexivity|].
  rewrite not_elem_of_cons. intros [Hne Hrest]. rewrite IH by exact Hrest.
  unfold update_row.
  destruct (String.eqb_spec (pattern_key r) key) as [?|_]; [congruence|].
  reflexivity.
Qed.

Lemma update_find (rs : list PatternRow) :
  find (fun r => String.eqb (pattern_key r) key) (update <$> rs)
  = touch data_json confidence now
      <$> find (fun r => String.eqb (pattern_key r) key) rs.
Proof.
  induction rs as [|r rs IH]; cbn; [reflexivity|].
  rewrite update_row_key. unfold update_row at 1.
  destruct (String.eqb (pattern_key r) key); [reflexivity | exact IH].
Qed.

Lemma update_find_other (key' : string) (rs : list PatternRow) :
  key' <> key ->
  find (fun r => String.eqb (pattern_key r) key') (update <$> rs)
  = find (fun r => String.eqb (pattern_key r) key') rs.
Proof.
  intros Hne. induction rs as [|r rs IH]; cbn; [reflexivity|].
  rewrite update_row_key, IH. unfold update_row.
  destruct (String.eqb_spec (pattern_key r) key') as [Hk|_]; [|reflexivity].
  destruct (String.eqb_spec (pattern_key r) key) as [?|_]; [congruence|].
  reflexivity.
Qed.
End update.

Section upsert.
Variable json_dumps : list (string * Any) -> string.
Variables (type_ key : string) (data : list (string * Any)).
Variables (confidence : Q) (now : string).

(** An absent key: the UPDATE touches nothing and the INSERT adds the one
    row, with [occurrence_count = 1]. *)
Lemma upsert_absent (t : Table) :
  key ∉ keys t ->
  _upsert_pattern json_dumps type_ key data confidence now t
  = Some (mk_Table
            (rows t ++ [mk_PatternRow (last_id t + 1) type_ key
                          (json_dumps data) confidence now now 1])%list
            (last_id t + 1)).
Proof.
  intros Habs. unfold _upsert_pattern, sql_update.
  rewrite (proj2 (count_zero_iff (rows t) key)) by exact Habs.
  cbn [Nat.eqb]. unfold sql_insert. cbn [rows last_id].
  rewrite update_absent by exact Habs.
  now rewrite existsb_key_false.
Qed.

(** A present key (in a table with unique keys): the UPDATE touches its
    row and nothing is inserted. *)
Lemma upsert_present (t : Table) :
  unique_keys t -> key ∈ keys t ->
  _upsert_pattern json_dumps type_ key data confidence now t
  = Some (mk_Table
            (update_row key (json_dumps data) confidence now <$> rows t)
            (last_id t)).
Proof.
  intros Huniq Hin. unfold _upsert_pattern, sql_update.
  now rewrite (count_one (rows t) key Huniq Hin).
Qed.

Lemma upsert_unique_keys (t t' : Table) :
  unique_keys t ->
  _upsert_pattern json_dumps type_ key data confidence now t = Some t' ->
  unique_keys t'.
Proof.
  intros Huniq Hup. destruct (decide (key ∈ keys t)) as [Hin|Habs].
  - rewrite (upsert_present t Huniq Hin) in Hup. injection Hup as <-.
    unfold unique_keys, keys. cbn [rows]. now rewrite update_keys.
  - rewrite (upsert_absent t Habs) in Hup. injection Hup as <-.
    unfold unique_keys, keys. cbn [rows]. rewrite fmap_app. cbn.
    apply NoDup_app. split; [exact Huniq|]. split.
    + intros k Hk Hk'. apply list_elem_of_singleton in Hk'. now subst.
    + apply NoDup_singleton.
Qed.
End upsert.

Lemma reachable_unique_keys (json_dumps : list (string * Any) -> string)
    (t : Table) :
  reachable json_dumps t -> unique_keys t.
Proof.
  induction 1 as [|t t' ty k d c now _ IH Hup].
  - apply NoDup_nil_2.
  - exact (upsert_unique_keys json_dumps ty k d c now t t' IH Hup).
Qed.

Lemma find_app_first {A} (f : A -> bool) (l1 l2 : list A) :
  find f (l1 ++ l2)
  = match find f l1 with Some x => Some x | None => find f l2 end.
Proof.
  induction l1 as [|x l1 IH]; cbn; [reflexivity|].
  destruct (f x); [reflexivity | exact IH].
Qed.

Lemma find_pattern_None (key : string) (t : Table) :
  find_pattern key t = None <-> key ∉ keys t.
Proof.
  unfold find_pattern, keys. induction (rows t) as [|r rs IH]; cbn.
  - split; [intros _; apply not_elem_of_nil | reflexivity].
  - rewrite not_elem_of_cons.
    destruct (String.eqb_spec (pattern_key r) key) as [Hk|Hk].
    + split; [discriminate | intros [Hne _]; congruence].
    + rewrite IH. split; [intros ?; split; [congruence | assumption] | tauto].
Qed.

(** C7: in every table reachable through [_upsert_pattern] no key has two
    rows, and an upsert on such a table succeeds and keeps it so.  For a
    key that is present it adds exactly 1 to the row's
    [occurrence_count] (refreshing data, confidence and [last_seen]) and
    adds no row; for an absent key it appends exactly one row, with
    [occurrence_count = 1].  Either way the key then has exactly one row
    and the rows of other keys are as before. *)
Theorem upsert_pattern_by_key (json_dumps : list (string * Any) -> string)
    (type_ key : string) (data : list (string * Any)) (confidence : Q)
    (now : string) (t : Table) :
  reachable json_dumps t ->
  unique_keys t
  /\ exists t',
       _upsert_pattern json_dumps type_ key data confidence now t = Some t'
       /\ reachable json_dumps t'
       /\ unique_keys t'
       /\ count_key key t' = 1%nat
       /\ (forall key', key' <> key ->
             find_pattern key' t' = find_pattern key' t)
       /\ match find_pattern key t with
          | Some r =>
              length (rows t') = length (rows t)
              /\ find_pattern key t'
                 = Some (touch (json_dumps data) confidence now r)
              /\ (forall r', find_pattern key t' = Some r' ->
                    occurrence_count r' = (occurrence_count r + 1)%Z)
          | None =>
              rows t'
              = (rows t ++ [mk_PatternRow (last_id t + 1) type_ key
                              (json_dumps data) confidence now now 1])%list
          end.
Proof.
  intros Hreach. pose proof (reachable_unique_keys _ _ Hreach) as Huniq.
  split; [exact Huniq|].
  destruct (decide (key ∈ keys t)) as [Hin|Habs].
  - eexists. split; [apply (upsert_present _ _ _ _ _ _ _ Huniq Hin)|].
    pose proof (upsert_present json_dumps type_ key data confidence now t
                  Huniq Hin) as Hup.
    split; [eapply reachable_upsert; eassumption|].
    pose proof (upsert_unique_keys _ _ _ _ _ _ _ _ Huniq Hup) as Huniq'.
    split; [exact Huniq'|]. split.
    { apply count_one; [exact Huniq'|].
      unfold keys in *. cbn [rows]. now rewrite update_keys. }
    split.
    { intros key' Hne. unfold find_pattern. cbn [rows].
      now apply update_find_other. }
    destruct (find_pattern key t) as [r|] eqn:Hfind.
    + unfold find_pattern in *. cbn [rows].
      rewrite length_fmap, update_find, Hfind. cbn.
      split; [reflexivity|]. split; [reflexivity|].
      intros r' [= <-]. reflexivity.
    + apply find_pattern_None in Hfind. contradiction.
  - eexists. split; [apply (upsert_absent _ _ _ _ _ _ _ Habs)|].
    pose proof (upsert_absent json_dumps type_ key data confidence now t
                  Habs) as Hup.
    split; [eapply reachable_upsert; eassumption|].
    pose proof (upsert_unique_keys _ _ _ _ _ _ _ _ Huniq Hup) as Huniq'.
    split; [exact Huniq'|]. split.
    { apply count_one; [exact Huniq'|].
      unfold keys. cbn [rows]. rewrite fmap_app, elem_of_app. right.
      apply list_elem_of_here. }
    split.
    { intros key' Hne. unfold find_pattern. cbn [rows].
      rewrite find_app_first. destruct (find _ (rows t)); [reflexivity|].
      cbn. destruct (String.eqb_spec key key') as [?|_]; [congruence|].
      reflexivity. }
    apply find_pattern_None in Habs. now rewrite Habs.
Qed.

Lemma stored_once_reachable : reachable plain_dumps stored_once.
Proof.
  apply (reachable_upsert plain_dumps empty_table stored_once
           "command_sequence" "/today→/commit" [] 0.3 "2025-01-30 09:00:00").
  - apply reachable_empty.
  - reflexivity.
Qed.

Lemma upsert_pattern_by_key_witness :
  exists t',
    _upsert_pattern plain_dumps "command_sequence" "/today→/commit" [] 0.4
      "2025-01-31 09:00:00" stored_once = Some t'
    /\ count_key "/today→/commit" t' = 1%nat
    /\ length (rows t') = 1%nat
    /\ occurrence_count <$> find_pattern "/today→/commit" t' = Some 2%Z.
Proof.
  destruct (upsert_pattern_by_key plain_dumps "command_sequence"
              "/today→/commit" [] 0.4 "2025-01-31 09:00:00" stored_once
              stored_once_reachable)
    as (_ & t' & Hup & _ & _ & Hcount & _ & Hrow).
  exists t'. split; [exact Hup|]. split; [exact Hcount|].
  change (find_pattern "/today→/commit" stored_once)
    with (Some (mk_PatternRow 1 "command_sequence" "/today→/commit" "{}" 0.3
                  "2025-01-30 09:00:00" "2025-01-30 09:00:00" 1)) in Hrow.
  destruct Hrow as (Hlen & Hfind & _).
  split; [exact Hlen|]. rewrite Hfind. reflexivity.
Defined.

End pattern_store_props.

(* ================================================================== *)
(** * Further properties of the code *)
(* ================================================================== *)

Module pylist_more_props.
Import pylist pylist_props mining_terms.

Lemma list_string_eqb_spec (a b : list string) :
  list_string_eqb a b = true <-> a = b.
Proof.
  revert b. induction a as [|x a IH]; intros [|y b]; cbn;
    try (split; [discriminate | discriminate]); [tauto|].
  rewrite andb_true_iff, IH, String.eqb_eq.
  split; [intros [-> ->]; reflexivity | intros [= -> ->]; tauto].
Qed.

Section stable_sort_sorted.
Context {A : Type} (le : A -> A -> bool).
Hypothesis le_total : forall x y, le x y = false -> le y x = true.
Hypothesis le_trans :
  forall x y z, le x y = true -> le y z = true -> le x z = true.

Lemma insert_sorted_StronglySorted (x : A) (l : list A) :
  StronglySorted (fun a b => le a b = true) l ->
  StronglySorted (fun a b => le a b = true) (insert_sorted le x l).
Proof.
  induction 1 as [|y l Hl IH Hy]; cbn.
  - repeat constructor.
  - destruct (le x y) eqn:Hxy.
    + constructor; [now constructor|].
      constructor; [exact Hxy|].
      eapply Forall_impl; [exact Hy|]. intros z Hz. cbn in Hz.
      now apply (le_trans x y z).
    + constructor; [exact IH|].
      rewrite insert_sorted_Permutation. constructor; [|exact Hy].
      now apply le_total.
Qed.

Lemma stable_sort_StronglySorted (l : list A) :
  StronglySorted (fun a b => le a b = true) (stable_sort le l).
Proof.
  induction l as [|x l IH]; cbn; [constructor|].
  now apply insert_sorted_StronglySorted.
Qed.
End stable_sort_sorted.

Lemma StronglySorted_omap {A B} (R : relation A) (S : relation B)
    (f : A -> option B) (l : list A) :
  (forall x y x' y', f x = Some x' -> f y = Some y' -> R x y -> S x' y') ->
  StronglySorted R l -> StronglySorted S (omap f l).
Proof.
  intros Hf. induction 1 as [|x l Hl IH Hx]; cbn; [constructor|].
  destruct (f x) as [x'|] eqn:Hfx; [|exact IH].
  constructor; [exact IH|].
  apply Forall_forall. intros y' Hy'.
  apply list_elem_of_omap in Hy' as (y & Hy & Hfy).
  rewrite Forall_forall in Hx. eauto.
Qed.

Lemma omap_fst_sublist {A B C} (f : A * B -> option C) (g : C -> A)
    (l : list (A * B)) :
  (forall p c, f p = Some c -> g c = p.1) ->
  (g <$> omap f l) `sublist_of` (fst <$> l).
Proof.
  intros Hf. induction l as [|p l IH]; cbn; [constructor|].
  destruct (f p) as [c|] eqn:Hfp; cbn.
  - rewrite (Hf p c Hfp). now constructor.
  - now constructor.
Qed.

Section counter.
Context {K : Type} `{EqDecision K} (eqb : K -> K -> bool).
Hypothesis eqb_spec : forall a b, eqb a b = true <-> a = b.

Lemma eqb_refl (k : K) : eqb k k = true.
Proof. now apply eqb_spec. Qed.

Lemma eqb_neq (a b : K) : a <> b -> eqb a b = false.
Proof.
  intros Hne. destruct (eqb a b) eqn:Hab; [|reflexivity].
  now apply eqb_spec in Hab.
Qed.

Lemma counter_get_incr_same (k : K) (c : list (K * Z)) :
  counter_get eqb k (counter_incr eqb k c) = (counter_get eqb k c + 1)%Z.
Proof.
  unfold counter_get. induction c as [|[k' n] c IH]; cbn.
  - now rewrite eqb_refl.
  - destruct (eqb k k') eqn:Hk; cbn; rewrite Hk; [reflexivity | exact IH].
Qed.

Lemma counter_get_incr_other (k k' : K) (c : list (K * Z)) :
  k' <> k ->
  counter_get eqb k' (counter_incr eqb k c) = counter_get eqb k' c.
Proof.
  intros Hne. unfold counter_get. induction c as [|[k0 n] c IH]; cbn.
  - now rewrite eqb_neq.
  - destruct (eqb k k0) eqn:Hk; cbn.
    + apply eqb_spec in Hk as <-. now rewrite eqb_neq.
    + destruct (eqb k' k0); [reflexivity | exact IH].
Qed.

Lemma counter_incr_keys (k : K) (c : list (K * Z)) :
  (counter_incr eqb k c).*1
  = if decide (k ∈ c.*1) then c.*1 else (c.*1 ++ [k])%list.
Proof.
  induction c as [|[k' n] c IH]; cbn.
  - rewrite decide_False by apply not_elem_of_nil. reflexivity.
  - destruct (eqb k k') eqn:Hk; cbn.
    + apply eqb_spec in Hk as <-.
      rewrite decide_True by apply list_elem_of_here. reflexivity.
    + assert (k <> k') as Hne by (intros ->; now rewrite eqb_refl in Hk).
      rewrite IH. destruct (decide (k ∈ c.*1)) as [Hin|Hout].
      * rewrite decide_True by now apply list_elem_of_further. reflexivity.
      * rewrite decide_False; [reflexivity|].
        rewrite elem_of_cons. tauto.
Qed.

Lemma counter_incr_NoDup (k : K) (c : list (K * Z)) :
  NoDup c.*1 -> NoDup (counter_incr eqb k c).*1.
Proof.
  intros Hc. rewrite counter_incr_keys.
  destruct (decide (k ∈ c.*1)) as [Hin|Hout]; [exact Hc|].
  apply NoDup_app. split; [exact Hc|]. split; [|apply NoDup_singleton].
  intros x Hx Hx'. apply list_elem_of_singleton in Hx'. now subst.
Qed.

Lemma counter_incr_elem_of (k k' : K) (c : list (K * Z)) :
  k' ∈ (counter_incr eqb k c).*1 <-> k' = k \/ k' ∈ c.*1.
Proof.
  rewrite counter_incr_keys.
  destruct (decide (k ∈ c.*1)) as [Hin|Hout].
  - split; [tauto | intros [->|?]; assumption].
  - rewrite elem_of_app, list_elem_of_singleton. tauto.
Qed.

Lemma occurrences_cons (k x : K) (l : list K) :
  occurrences k (x :: l)
  = ((if decide (x = k) then 1 else 0) + occurrences k l)%Z.
Proof.
  unfold occurrences. rewrite filter_cons.
  destruct (decide (x = k)); cbn [length]; lia.
Qed.

Lemma occurrences_nonneg (k : K) (l : list K) : (0 <= occurrences k l)%Z.
Proof. unfold occurrences. lia. Qed.

Lemma occurrences_pos (k : K) (l : list K) :
  k ∈ l <-> (1 <= occurrences k l)%Z.
Proof.
  induction l as [|x l IH].
  - split; [intros Hin; now apply elem_of_nil in Hin|].
    unfold occurrences. cbn. lia.
  - rewrite occurrences_cons, elem_of_cons.
    pose proof (occurrences_nonneg k l).
    destruct (decide (x = k)) as [->|Hne].
    + split; [lia | now left].
    + rewrite IH. split; [intros [?|?]; [congruence | lia] | right; lia].
Qed.

(** Counting a list of keys into a counter. *)
Lemma counter_fold (ws : list K) (c : list (K * Z)) :
  let c' := fold_left (fun c k => counter_incr eqb k c) ws c in
  (NoDup c.*1 -> NoDup c'.*1)
  /\ (forall k, counter_get eqb k c'
                = (counter_get eqb k c + occurrences k ws)%Z)
  /\ (forall k, k ∈ c'.*1 <-> k ∈ c.*1 \/ k ∈ ws).
Proof.
  revert c. induction ws as [|w ws IH]; intros c; cbn.
  - split; [tauto|]. split.
    + intros k. unfold occurrences. cbn. lia.
    + intros k. rewrite elem_of_nil. tauto.
  - destruct (IH (counter_incr eqb w c)) as (Hnd & Hget & Hkeys).
    split; [|split].
    + intros Hc. now apply Hnd, counter_incr_NoDup.
    + intros k. rewrite Hget, occurrences_cons.
      destruct (decide (w = k)) as [->|Hne].
      * rewrite counter_get_incr_same. lia.
      * rewrite counter_get_incr_other by congruence. lia.
    + intros k. rewrite Hkeys, counter_incr_elem_of, elem_of_cons.
      split; [intros [[->|?]|?]; tauto | intros [?|[->|?]]; tauto].
Qed.

Lemma counter_get_elem_of (k : K) (v : Z) (c : list (K * Z)) :
  NoDup c.*1 -> ((k, v) ∈ c <-> k ∈ c.*1 /\ v = counter_get eqb k c).
Proof.
  unfold counter_get. induction c as [|[k' n] c IH]; cbn.
  - intros _. rewrite !elem_of_nil. tauto.
  - rewrite NoDup_cons. intros [Hfresh Hnd]. rewrite !elem_of_cons.
    destruct (eqb k k') eqn:Hk; cbn.
    + apply eqb_spec in Hk as ->. split.
      * intros [[= ->]|Hin]; [tauto|].
        exfalso. apply Hfresh. apply list_elem_of_fmap. now exists (k', v).
      * intros [_ ->]. now left.
    + assert (k <> k') as Hne by (intros ->; now rewrite eqb_refl in Hk).
      rewrite IH by exact Hnd.
      split; [intros [[= ? ?]|?]; [congruence | tauto]
             | intros [[?|?] ?]; [congruence | tauto]].
Qed.

(** The counter of a list holds each key of the list with the number of
    its occurrences. *)
Lemma counter_of_list (ws : list K) (k : K) (v : Z) :
  let c := fold_left (fun c k => counter_incr eqb k c) ws [] in
  NoDup c.*1 /\ ((k, v) ∈ c <-> k ∈ ws /\ v = occurrences k ws).
Proof.
  cbn zeta. destruct (counter_fold ws []) as (Hnd & Hget & Hkeys).
  specialize (Hnd (NoDup_nil_2 (A:=K))). split; [exact Hnd|].
  rewrite (counter_get_elem_of k v _ Hnd), Hget, Hkeys.
  change (counter_get eqb k []) with 0%Z. rewrite Z.add_0_l.
  change ([] : list (K * Z)).*1 with ([] : list K). rewrite elem_of_nil.
  tauto.
Qed.
End counter.

End pylist_more_props.

Module mining_props.
Import pylist pylist_props pylist_more_props pattern_models pattern_analyzer.
Import mining_terms.
Local Open Scope Q_scope.
Local Open Scope string_scope.

(** *** The session dictionary *)

Section dict_append.
Context {V : Type}.
Implicit Types d : list (string * list V).

Lemma dict_values_append_same (k : string) (v : V) d :
  dict_values k (dict_append String.eqb k v d)
  = (dict_values k d ++ [v])%list.
Proof.
  unfold dict_values. induction d as [|[k' vs] d IH]; cbn.
  - now rewrite String.eqb_refl.
  - destruct (String.eqb k k') eqn:Hk; cbn; rewrite Hk; [reflexivity|exact IH].
Qed.

Lemma dict_values_append_other (k k' : string) (v : V) d :
  k' <> k ->
  dict_values k' (dict_append String.eqb k v d) = dict_values k' d.
Proof.
  intros Hne. unfold dict_values. induction d as [|[k0 vs] d IH]; cbn.
  - apply String.eqb_neq in Hne. now rewrite Hne.
  - destruct (String.eqb_spec k k0) as [<-|Hk]; cbn.
    + apply String.eqb_neq in Hne. now rewrite Hne.
    + destruct (String.eqb k' k0); [reflexivity | exact IH].
Qed.

Lemma dict_append_keys (k : string) (v : V) d :
  (dict_append String.eqb k v d).*1
  = if decide (k ∈ d.*1) then d.*1 else (d.*1 ++ [k])%list.
Proof.
  induction d as [|[k' vs] d IH]; cbn.
  - rewrite decide_False by apply not_elem_of_nil. reflexivity.
  - destruct (String.eqb_spec k k') as [<-|Hne]; cbn.
    + rewrite decide_True by apply list_elem_of_here. reflexivity.
    + rewrite IH. destruct (decide (k ∈ d.*1)) as [Hin|Hout].
      * rewrite decide_True by now apply list_elem_of_further. reflexivity.
      * rewrite decide_False; [reflexivity|]. rewrite elem_of_cons. tauto.
Qed.

Lemma dict_values_elem_of (k : string) (vs : list V) d :
  NoDup d.*1 -> ((k, vs) ∈ d <-> k ∈ d.*1 /\ vs = dict_values k d).
Proof.
  unfold dict_values. induction d as [|[k' vs'] d IH]; cbn.
  - intros _. rewrite !elem_of_nil. tauto.
  - rewrite NoDup_cons. intros [Hfresh Hnd]. rewrite !elem_of_cons.
    destruct (String.eqb_spec k k') as [->|Hne]; cbn.
    + split.
      * intros [[= ->]|Hin]; [tauto|].
        exfalso. apply Hfresh. apply list_elem_of_fmap. now exists (k', vs).
      * intros [_ ->]. now left.
    + rewrite IH by exact Hnd.
      split; [intros [[= ? ?]|?]; [congruence | tauto]
             | intros [[?|?] ?]; [congruence | tauto]].
Qed.
End dict_append.

(** The state of the session dictionary after a run of rows. *)
Lemma session_fold (rows : list CommandRow) (d : list (string * list string)) :
  let step := fun d r =>
                match session_truthy r with
                | Some s => dict_append String.eqb s (command_name r) d
                | None => d
                end in
  let d' := fold_left step rows d in
  (NoDup d.*1 -> NoDup d'.*1)
  /\ (forall sid, dict_values sid d'
                  = (dict_values sid d
                     ++ (command_name <$> filter (in_session sid) rows))%list)
  /\ (forall sid, sid ∈ d'.*1
                  <-> sid ∈ d.*1 \/ exists r, r ∈ rows /\ in_session sid r).
Proof.
  cbn zeta. revert d. induction rows as [|r rows IH]; intros d.
  - cbn. split; [tauto|]. split.
    + intros sid. now rewrite app_nil_r.
    + intros sid. split; [tauto|].
      intros [?|(r & Hr & _)]; [assumption | now apply elem_of_nil in Hr].
  - cbn [fold_left].
    destruct (session_truthy r) as [s|] eqn:Hs.
    + destruct (IH (dict_append String.eqb s (command_name r) d))
        as (Hnd & Hval & Hkeys).
      split; [|split].
      * intros Hd. apply Hnd. rewrite dict_append_keys.
        destruct (decide (s ∈ d.*1)); [exact Hd|].
        apply NoDup_app. split; [exact Hd|]. split; [|apply NoDup_singleton].
        intros x Hx Hx'. apply list_elem_of_singleton in Hx'. now subst.
      * intros sid. rewrite Hval, filter_cons.
        destruct (decide (in_session sid r)) as [Hin|Hout];
          unfold in_session in *.
        -- assert (s = sid) as -> by congruence.
           rewrite dict_values_append_same, fmap_cons.
           now rewrite <- app_assoc.
        -- rewrite dict_values_append_other by congruence. reflexivity.
      * intros sid. rewrite Hkeys, dict_append_keys.
        split.
        -- intros [Hin|(r' & Hr' & Hsid)].
           ++ destruct (decide (s ∈ d.*1)); [now left|].
              apply elem_of_app in Hin as [?|Hin]; [now left|].
              apply list_elem_of_singleton in Hin as ->.
              right. exists r. split; [apply list_elem_of_here | exact Hs].
           ++ right. exists r'. split; [now apply list_elem_of_further|exact Hsid].
        -- intros [Hin|(r' & Hr' & Hsid)].
           ++ left. destruct (decide (s ∈ d.*1)); [exact Hin|].
              apply elem_of_app. now left.
           ++ apply elem_of_cons in Hr' as [->|Hr'].
              ** left. unfold in_session in Hsid. rewrite Hs in Hsid.
                 injection Hsid as ->.
                 destruct (decide (sid ∈ d.*1)); [assumption|].
                 apply elem_of_app. right. apply list_elem_of_here.
              ** right. exists r'. tauto.
    + destruct (IH d) as (Hnd & Hval & Hkeys).
      split; [exact Hnd|]. split.
      * intros sid. rewrite Hval, filter_cons.
        destruct (decide (in_session sid r)) as [Hin|_]; [|reflexivity].
        unfold in_session in Hin. congruence.
      * intros sid. rewrite Hkeys. split.
        -- intros [?|(r' & Hr' & Hsid)]; [now left|].
           right. exists r'. split; [now apply list_elem_of_further|exact Hsid].
        -- intros [?|(r' & Hr' & Hsid)]; [now left|].
           apply elem_of_cons in Hr' as [->|Hr'].
           ++ unfold in_session in Hsid. congruence.
           ++ right. exists r'. tauto.
Qed.

Lemma session_sequences_entries (rows : list CommandRow) :
  NoDup (session_sequences rows).*1
  /\ forall sid cmds,
       (sid, cmds) ∈ session_sequences rows
       <-> (exists r, r ∈ rows /\ in_session sid r)
           /\ cmds = command_name <$> filter (in_session sid) rows.
Proof.
  unfold session_sequences.
  destruct (session_fold rows []) as (Hnd & Hval & Hkeys). cbn zeta in *.
  specialize (Hnd (NoDup_nil_2 (A:=string))).
  split; [exact Hnd|]. intros sid cmds.
  rewrite (dict_values_elem_of sid cmds _ Hnd), Hval, Hkeys.
  change (dict_values sid []) with ([] : list string). rewrite app_nil_l.
  change ([] : list (string * list string)).*1 with ([] : list string).
  rewrite elem_of_nil. tauto.
Qed.

(** X1: Grouping by session: each session id that occurs (NULL and the empty
    string apart) has one entry, holding the commands of its rows in row
    order, also when the rows of several sessions interleave. *)
Theorem session_sequences_groups (rows : list CommandRow) :
  NoDup (session_sequences rows).*1
  /\ forall sid cmds,
       (sid, cmds) ∈ session_sequences rows
       <-> (exists r, r ∈ rows /\ in_session sid r)
           /\ cmds = command_name <$> filter (in_session sid) rows.
Proof. exact (session_sequences_entries rows). Qed.

(** *** Counting the windows *)

Lemma fold_left_concat {A B C} (f : A -> B -> A) (g : C -> list B)
    (l : list C) (a : A) :
  fold_left (fun a c => fold_left f (g c) a) l a
  = fold_left f (concat (g <$> l)) a.
Proof.
  revert a. induction l as [|c l IH]; intros a; cbn; [reflexivity|].
  now rewrite fold_left_app, IH.
Qed.

Lemma analyze_command_sequences_unfold (cfg : Config)
    (rows : list CommandRow) :
  analyze_command_sequences cfg rows
  = to_command_sequences (command_min_occurrences cfg)
      (most_common
         (fold_left (fun c k => counter_incr list_string_eqb k c)
                    (all_windows (command_sequence_length cfg) rows) [])).
Proof.
  unfold analyze_command_sequences, all_windows, count_ngrams.
  destruct rows as [|r rows]; [reflexivity|].
  now rewrite (fold_left_concat
                 (fun c g => counter_incr list_string_eqb g c)
                 (fun session => ngrams (command_sequence_length cfg)
                                   session.2)).
Qed.

Lemma to_command_sequences_elem_of (min_occurrences : Z)
    (ranked : list (list string * Z)) (cs : CommandSequence) :
  cs ∈ to_command_sequences min_occurrences ranked
  <-> exists w count,
        (w, count) ∈ ranked /\ (min_occurrences <= count)%Z
        /\ cs = mined w count.
Proof.
  unfold to_command_sequences. rewrite list_elem_of_omap. split.
  - intros ([w count] & Hin & Hf).
    destruct (Z.leb_spec min_occurrences count); [|discriminate].
    injection Hf as <-. now exists w, count.
  - intros (w & count & Hin & Hmin & ->). exists (w, count).
    split; [exact Hin|]. cbn.
    destruct (Z.leb_spec min_occurrences count); [reflexivity | lia].
Qed.

Lemma analyze_command_sequences_elem_of (cfg : Config)
    (rows : list CommandRow) (cs : CommandSequence) :
  let ws := all_windows (command_sequence_length cfg) rows in
  cs ∈ analyze_command_sequences cfg rows
  <-> exists w,
        w ∈ ws
        /\ (command_min_occurrences cfg <= occurrences w ws)%Z
        /\ cs = mined w (occurrences w ws).
Proof.
  cbn zeta. rewrite analyze_command_sequences_unfold.
  rewrite to_command_sequences_elem_of.
  set (ws := all_windows (command_sequence_length cfg) rows).
  split.
  - intros (w & count & Hin & Hmin & ->).
    unfold most_common in Hin. rewrite stable_sort_Permutation in Hin.
    apply (counter_of_list list_string_eqb list_string_eqb_spec) in Hin
      as [Hw ->].
    now exists w.
  - intros (w & Hw & Hmin & ->). exists w, (occurrences w ws).
    split; [|tauto].
    unfold most_common. rewrite stable_sort_Permutation.
    now apply (counter_of_list list_string_eqb list_string_eqb_spec).
Qed.


Lemma ngrams_elem_length (n : nat) (commands w : list string) :
  w ∈ ngrams n commands -> length w = n.
Proof.
  unfold ngrams.
  destruct (Nat.ltb_spec (length commands) n) as [?|Hlen].
  - intros Hin. now apply elem_of_nil in Hin.
  - intros Hin. apply list_elem_of_fmap in Hin as (i & -> & Hi).
    apply elem_of_seq in Hi. rewrite length_take, length_drop. lia.
Qed.

Lemma elem_of_concat {A} (x : A) (ls : list (list A)) :
  x ∈ concat ls <-> exists l, x ∈ l /\ l ∈ ls.
Proof.
  induction ls as [|l ls IH]; cbn.
  - split; [intros Hin; now apply elem_of_nil in Hin|].
    intros (l & _ & Hl). now apply elem_of_nil in Hl.
  - rewrite elem_of_app, IH. split.
    + intros [Hx|(l' & Hx & Hl')].
      * exists l. split; [exact Hx | apply list_elem_of_here].
      * exists l'. split; [exact Hx | now apply list_elem_of_further].
    + intros (l' & Hx & Hl'). apply elem_of_cons in Hl' as [->|Hl'].
      * now left.
      * right. now exists l'.
Qed.

Lemma all_windows_length (n : nat) (rows : list CommandRow)
    (w : list string) :
  w ∈ all_windows n rows -> length w = n.
Proof.
  unfold all_windows. intros Hin.
  apply elem_of_concat in Hin as (ws & Hw & Hws).
  apply list_elem_of_fmap in Hws as (session & -> & _).
  now apply ngrams_elem_length in Hw.
Qed.

Lemma mined_confidence_range (count : Z) :
  (1 <= count)%Z -> 0 < Qmin 1 (inject_Z count / 10) <= 1.
Proof.
  intros Hc. split; [|apply Q.le_min_l].
  apply Q.min_glb_lt; [reflexivity|].
  apply Qlt_shift_div_l; [reflexivity|]. rewrite Qmult_0_l.
  change 0 with (inject_Z 0). rewrite <- Zlt_Qlt. lia.
Qed.

(** X3: The shape of the mining result: no sequence is reported twice, the
    sequences come ranked by count (largest first), and each has the
    configured length, a count of at least 1 and of at least
    [command_min_occurrences], a confidence in (0,1] and no duration. *)
Theorem mined_sequences_shape (cfg : Config) (rows : list CommandRow) :
  let result := analyze_command_sequences cfg rows in
  NoDup (sequence <$> result)
  /\ StronglySorted count_ge result
  /\ Forall
       (fun cs =>
          length (sequence cs) = command_sequence_length cfg
          /\ (1 <= occurrence_count cs)%Z
          /\ (command_min_occurrences cfg <= occurrence_count cs)%Z
          /\ 0 < confidence cs <= 1
          /\ avg_duration_ms cs = 0%Z)
       result.
Proof.
  cbn zeta. split; [|split].
  - rewrite analyze_command_sequences_unfold.
    set (c := fold_left _ _ _).
    assert (NoDup c.*1) as Hnd
      by apply (counter_of_list list_string_eqb list_string_eqb_spec
                  _ [] 0%Z).
    apply (sublist_NoDup _ (most_common c).*1).
    + unfold most_common. now rewrite stable_sort_Permutation.
    + apply (omap_fst_sublist _ sequence (most_common c)).
      intros [w count] cs Hf. cbn in Hf.
      destruct (_ <=? _)%Z; [|discriminate]. now injection Hf as <-.
  - rewrite analyze_command_sequences_unfold.
    unfold to_command_sequences, most_common.
    eapply StronglySorted_omap;
      [|apply stable_sort_StronglySorted].
    + intros [w1 c1] [w2 c2] cs1 cs2 H1 H2 Hle. cbn in *.
      destruct (_ <=? c1)%Z; [|discriminate].
      destruct (_ <=? c2)%Z; [|discriminate].
      injection H1 as <-. injection H2 as <-.
      unfold count_ge. cbn. lia.
    + intros x y Hxy. apply Z.leb_gt in Hxy. apply Z.leb_le. lia.
    + intros x y z Hxy Hyz. apply Z.leb_le in Hxy, Hyz. apply Z.leb_le. lia.
  - apply Forall_forall. intros cs Hcs.
    apply analyze_command_sequences_elem_of in Hcs as (w & Hw & Hmin & ->).
    cbn [mined sequence occurrence_count confidence avg_duration_ms].
    assert (1 <= occurrences w
                   (all_windows (command_sequence_length cfg) rows))%Z
      as Hpos by now apply occurrences_pos.
    split; [now apply all_windows_length in Hw|].
    split; [exact Hpos|]. split; [exact Hmin|].
    split; [now apply mined_confidence_range | reflexivity].
Qed.

Lemma session_sequences_filter (rows : list CommandRow)
    (d : list (string * list string)) :
  fold_left
    (fun d r =>
       match session_truthy r with
       | Some s => dict_append String.eqb s (command_name r) d
       | None => d
       end) (filter has_session rows) d
  = fold_left
      (fun d r =>
         match session_truthy r with
         | Some s => dict_append String.eqb s (command_name r) d
         | None => d
         end) rows d.
Proof.
  revert d. induction rows as [|r rows IH]; intros d; [reflexivity|].
  rewrite filter_cons. destruct (decide (has_session r)) as [Hs|Hs].
  - cbn [fold_left]. apply IH.
  - cbn [fold_left]. rewrite IH.
    destruct (session_truthy r) eqn:Hr; [|reflexivity].
    exfalso. apply Hs. unfold has_session. rewrite Hr. now eexists.
Qed.

Lemma all_windows_nil (n : nat) (rows : list CommandRow) :
  (forall sid, length (filter (in_session sid) rows) < n)%nat ->
  all_windows n rows = [].
Proof.
  intros Hshort. unfold all_windows.
  destruct (session_sequences_entries rows) as [_ Hgroups].
  assert (Forall (fun session => ngrams n session.2 = [])
            (session_sequences rows)) as Hall.
  { apply Forall_forall. intros [sid cmds] Hin.
    apply Hgroups in Hin as [_ ->]. cbn. unfold ngrams.
    rewrite length_fmap.
    destruct (Nat.ltb_spec (length (filter (in_session sid) rows)) n)
      as [_|Hlen]; [reflexivity|].
    specialize (Hshort sid). lia. }
  clear Hgroups. induction Hall as [|session d Hs _ IH]; [reflexivity|].
  rewrite fmap_cons. cbn [concat]. rewrite Hs, IH. reflexivity.
Qed.

(** X4: What never enters the mining: rows without a session id (NULL or the
    empty string) can be dropped without changing the result, and when no
    session has as many commands as the window is long, nothing is
    reported. *)
Theorem mining_ignores_short_and_sessionless (cfg : Config)
    (rows : list CommandRow) :
  analyze_command_sequences cfg (filter has_session rows)
  = analyze_command_sequences cfg rows
  /\ ((forall sid,
         length (filter (in_session sid) rows)
         < command_sequence_length cfg)%nat ->
      analyze_command_sequences cfg rows = []).
Proof.
  split.
  - rewrite !analyze_command_sequences_unfold.
    unfold all_windows, session_sequences.
    now rewrite session_sequences_filter.
  - intros Hshort. rewrite analyze_command_sequences_unfold.
    now rewrite all_windows_nil.
Qed.

Lemma mining_ignores_short_and_sessionless_witness :
  analyze_command_sequences (mk_Config 1 3 0.3 2 2 5 30 0.5)
    [ mk_CommandRow "a" 1 "t1" (Some "s1");
      mk_CommandRow "b" 2 "t2" (Some "s2");
      mk_CommandRow "c" 3 "t3" (Some "s1");
      mk_CommandRow "d" 4 "t4" None ] = [].
Proof.
  apply (proj2 (mining_ignores_short_and_sessionless
                  (mk_Config 1 3 0.3 2 2 5 30 0.5) _)).
  intros sid. cbn [command_sequence_length].
  rewrite !filter_cons, filter_nil.
  repeat match goal with
         | |- context [decide ?P] => destruct (decide P)
         end; cbn; try lia;
    unfold in_session, session_truthy in *; cbn in *; congruence.
Defined.

End mining_props.

Module time_patterns_props.
Import pylist pylist_props pylist_more_props pattern_models pattern_analyzer.
Import mining_terms.
Local Open Scope Q_scope.

Lemma count_some_fold (col : TimeRow -> option Z) (rows : list TimeRow)
    (c : list (Z * Z)) :
  fold_left
    (fun c r =>
       match col r with
       | Some v => counter_incr Z.eqb v c
       | None => c
       end) rows c
  = fold_left (fun c k => counter_incr Z.eqb k c) (omap col rows) c.
Proof.
  revert c. induction rows as [|r rows IH]; intros c; cbn; [reflexivity|].
  destruct (col r); cbn; apply IH.
Qed.

Lemma count_some_entries (col : TimeRow -> option Z) (rows : list TimeRow) :
  NoDup (count_some col rows).*1
  /\ forall h c,
       (h, c) ∈ count_some col rows
       <-> h ∈ omap col rows /\ c = occurrences h (omap col rows).
Proof.
  unfold count_some. rewrite count_some_fold. split.
  - apply (counter_of_list Z.eqb Z.eqb_eq _ 0%Z 0%Z).
  - intros h c. apply (counter_of_list Z.eqb Z.eqb_eq).
Qed.

Lemma find_peak_window_take (sorted_hours : list Z) (window_hours : Z) :
  (0 <= window_hours)%Z ->
  _find_peak_window sorted_hours window_hours
  = take (Z.to_nat window_hours) sorted_hours.
Proof.
  intros Hw. unfold _find_peak_window.
  destruct sorted_hours as [|h l]; [now rewrite take_nil|].
  destruct (Z.leb_spec (Z.of_nat (length (h :: l))) window_hours).
  - rewrite take_ge by lia. reflexivity.
  - unfold slice_to. destruct (Z.leb_spec 0 window_hours); [reflexivity|lia].
Qed.

Lemma most_common_ranked {K} (c : list (K * Z)) :
  most_common c ≡ₚ c
  /\ StronglySorted (fun a b => (b.2 <=? a.2)%Z = true) (most_common c).
Proof.
  unfold most_common. split; [apply stable_sort_Permutation|].
  apply stable_sort_StronglySorted.
  - intros x y Hxy. apply Z.leb_gt in Hxy. apply Z.leb_le. lia.
  - intros x y z Hxy Hyz. apply Z.leb_le in Hxy, Hyz. apply Z.leb_le. lia.
Qed.

Lemma NoDup_fst_unique {K V} (l : list (K * V)) (k : K) (v v' : V) :
  NoDup l.*1 -> (k, v) ∈ l -> (k, v') ∈ l -> v = v'.
Proof.
  induction l as [|[k0 v0] l IH]; cbn.
  - intros _ Hin. now apply elem_of_nil in Hin.
  - rewrite NoDup_cons, !elem_of_cons. intros [Hfresh Hnd] [Hv|Hv] [Hv'|Hv'].
    + congruence.
    + injection Hv as -> ->. exfalso. apply Hfresh.
      apply list_elem_of_fmap. now exists (k0, v').
    + injection Hv' as -> ->. exfalso. apply Hfresh.
      apply list_elem_of_fmap. now exists (k0, v).
    + now apply IH.
Qed.

(** X5: The time-pattern summary.  There is none exactly when the query
    returned no row.  Otherwise the hour histogram counts the rows of each
    hour; the peak hours are distinct hours that were observed, as many as
    the (non-negative) window asks for if there are that many, and no hour
    left out was seen more often than a peak hour; the most productive
    hour heads the peak hours; and at most three peak days are named. *)
Theorem time_patterns_summary (cfg : Config) (rows : list TimeRow) :
  (analyze_time_patterns cfg rows = None <-> rows = [])
  /\ forall s,
       (0 <= time_peak_window_hours cfg)%Z ->
       analyze_time_patterns cfg rows = Some s ->
       let hours := omap time_of_day_hour rows in
       (forall h c, (h, c) ∈ session_count_by_hour s
                    <-> h ∈ hours /\ c = occurrences h hours)
       /\ NoDup (peak_hours s)
       /\ length (peak_hours s)
          = Nat.min (Z.to_nat (time_peak_window_hours cfg))
                    (length (session_count_by_hour s))
       /\ (forall h, h ∈ peak_hours s -> h ∈ hours)
       /\ (forall h h', h ∈ peak_hours s -> h' ∈ hours ->
             h' ∉ peak_hours s ->
             (occurrences h' hours <= occurrences h hours)%Z)
       /\ ((1 <= time_peak_window_hours cfg)%Z ->
           most_productive_hour s = head (peak_hours s))
       /\ (length (peak_days s) <= 3)%nat.
Proof.
  split.
  { destruct rows; cbn; split; congruence. }
  intros s Hw Hs. cbn zeta.
  destruct rows as [|r0 rows0] eqn:Hrows; [discriminate|].
  rewrite <- Hrows in *. clear Hrows r0 rows0.
  unfold analyze_time_patterns in Hs.
  destruct rows as [|r0 rows0] eqn:Hrows; [discriminate|].
  rewrite <- Hrows in *. clear Hrows r0 rows0.
  injection Hs as <-.
  cbn [session_count_by_hour peak_hours most_productive_hour peak_days].
  set (hc := count_some time_of_day_hour rows).
  set (k := Z.to_nat (time_peak_window_hours cfg)).
  destruct (count_some_entries time_of_day_hour rows) as [Hnd Hentries].
  fold hc in Hnd, Hentries.
  destruct (most_common_ranked hc) as [Hperm Hsorted].
  rewrite find_peak_window_take by exact Hw. fold k.
  rewrite <- fmap_take.
  assert (NoDup (most_common hc).*1) as Hnd' by now rewrite Hperm.
  assert (forall h, h ∈ (take k (most_common hc)).*1 ->
                    exists c, (h, c) ∈ take k (most_common hc)
                              /\ (h, c) ∈ hc) as Hpeak.
  { intros h Hh. apply list_elem_of_fmap in Hh as ([h0 c] & -> & Hin).
    exists c. split; [exact Hin|]. rewrite <- Hperm.
    eapply elem_of_sublist; [exact Hin | apply sublist_take]. }
  split; [exact Hentries|]. split.
  { apply (sublist_NoDup _ (most_common hc).*1); [exact Hnd'|].
    rewrite fmap_take. apply sublist_take. }
  split.
  { rewrite length_fmap, length_take. now rewrite Hperm. }
  split.
  { intros h Hh. apply Hpeak in Hh as (c & _ & Hc). now apply Hentries in Hc. }
  split.
  { intros h h' Hh Hh' Hout.
    apply Hpeak in Hh as (c & Htake & Hc).
    apply Hentries in Hc as [_ Hc]. subst c.
    assert ((h', occurrences h' (omap time_of_day_hour rows)) ∈ hc)
      as Hc' by now apply Hentries.
    rewrite <- Hperm, <- (take_drop k (most_common hc)) in Hc'.
    apply elem_of_app in Hc' as [Hc'|Hc'].
    - exfalso. apply Hout. apply list_elem_of_fmap.
      now exists (h', occurrences h' (omap time_of_day_hour rows)).
    - rewrite <- (take_drop k (most_common hc)) in Hsorted.
      pose proof (StronglySorted_app_1_elem_of _ _ _ _ _
                    Hsorted Htake Hc') as Hle.
      cbn in Hle. now apply Z.leb_le in Hle. }
  split.
  { intros Hone. assert (1 <= k)%nat as Hk by (unfold k; lia).
    destruct (most_common hc) as [|p l]; [now destruct k|].
    destruct k; [lia | reflexivity]. }
  rewrite length_fmap, length_take. lia.
Qed.

Lemma time_patterns_summary_witness :
  exists s,
    analyze_time_patterns default_config sample_time_rows = Some s
    /\ peak_hours s = [9%Z; 14%Z]
    /\ (forall h h', h ∈ peak_hours s ->
          h' ∈ omap time_of_day_hour sample_time_rows ->
          h' ∉ peak_hours s ->
          (occurrences h' (omap time_of_day_hour sample_time_rows)
           <= occurrences h (omap time_of_day_hour sample_time_rows))%Z)
    /\ most_productive_hour s = head (peak_hours s).
Proof.
  destruct (analyze_time_patterns default_config sample_time_rows)
    as [s|] eqn:Hs; [|discriminate Hs].
  destruct (time_patterns_summary default_config sample_time_rows)
    as [_ Hsummary].
  destruct (Hsummary s) as (_ & _ & _ & _ & Hrank & Hhead & _);
    [cbn; lia | exact Hs |].
  exists s. split; [reflexivity|].
  split; [now injection Hs as <-|].
  split; [exact Hrank|]. apply Hhead. cbn. lia.
Defined.

End time_patterns_props.

Module file_relationships_props.
Import pylist pylist_props pylist_more_props pattern_models pattern_analyzer.
Import mining_terms mining_props file_terms.
Local Open Scope Q_scope.
Local Open Scope string_scope.

Lemma dict_lookup_max (cid k : string) (v : Z) (d : list (string * Z)) :
  default 0%Z (dict_lookup cid (dict_max k v d))
  = if decide (k = cid)
    then Z.max (default 0%Z (dict_lookup cid d)) v
    else default 0%Z (dict_lookup cid d).
Proof.
  unfold dict_lookup. induction d as [|[k' w] d IH]; cbn.
  - destruct (String.eqb_spec cid k) as [->|Hne].
    + now rewrite decide_True.
    + rewrite decide_False by congruence. reflexivity.
  - destruct (String.eqb_spec k k') as [<-|Hk]; cbn.
    + destruct (String.eqb_spec cid k) as [->|Hne]; cbn.
      * now rewrite decide_True.
      * rewrite decide_False by congruence. reflexivity.
    + destruct (String.eqb_spec cid k') as [->|Hne]; cbn.
      * rewrite decide_False by congruence. reflexivity.
      * exact IH.
Qed.

Lemma dict_max_keys (k : string) (v : Z) (d : list (string * Z)) :
  (dict_max k v d).*1
  = if decide (k ∈ d.*1) then d.*1 else (d.*1 ++ [k])%list.
Proof.
  induction d as [|[k' w] d IH]; cbn.
  - rewrite decide_False by apply not_elem_of_nil. reflexivity.
  - destruct (String.eqb_spec k k') as [<-|Hne]; cbn.
    + rewrite decide_True by apply list_elem_of_here. reflexivity.
    + rewrite IH. destruct (decide (k ∈ d.*1)) as [Hin|Hout].
      * rewrite decide_True by now apply list_elem_of_further. reflexivity.
      * rewrite decide_False; [reflexivity|]. rewrite elem_of_cons. tauto.
Qed.

Lemma dict_lookup_is_Some {V} (cid : string) (d : list (string * V)) :
  cid ∈ d.*1 -> is_Some (dict_lookup cid d).
Proof.
  unfold dict_lookup. induction d as [|[k' w] d IH]; cbn.
  - intros H. now apply elem_of_nil in H.
  - rewrite elem_of_cons. intros [->|Hin].
    + rewrite String.eqb_refl. cbn. eauto.
    + destruct (String.eqb cid k'); cbn; [eauto | now apply IH].
Qed.

Lemma foldr_max_shift (a x : Z) (l : list Z) :
  foldr Z.max (Z.max a x) l = Z.max x (foldr Z.max a l).
Proof. induction l as [|y l IH]; cbn; [lia | rewrite IH; lia]. Qed.

Lemma fold_left_max (l : list Z) (a : Z) :
  fold_left Z.max l a = foldr Z.max a l.
Proof.
  revert a. induction l as [|x l IH]; intros a; cbn; [reflexivity|].
  now rewrite IH, foldr_max_shift.
Qed.

(** The two dictionaries after a run of rows. *)
Lemma cluster_fold (rows : list FileRow) (d : list (string * list string))
    (m : list (string * Z)) :
  let d' := fold_left (fun d r => dict_append String.eqb (file_cluster_id r)
                                    (file_path r) d) rows d in
  let m' := fold_left (fun d r => dict_max (file_cluster_id r)
                                    (edit_count r) d) rows m in
  (NoDup d.*1 -> NoDup d'.*1)
  /\ (forall cid, dict_values cid d'
                  = (dict_values cid d
                     ++ (file_path <$> filter (in_cluster cid) rows))%list)
  /\ (forall cid, cid ∈ d'.*1
                  <-> cid ∈ d.*1 \/ exists r, r ∈ rows /\ in_cluster cid r)
  /\ (forall cid, cid ∈ m'.*1
                  <-> cid ∈ m.*1 \/ exists r, r ∈ rows /\ in_cluster cid r)
  /\ (forall cid, default 0%Z (dict_lookup cid m')
                  = fold_left Z.max
                      (edit_count <$> filter (in_cluster cid) rows)
                      (default 0%Z (dict_lookup cid m))).
Proof.
  cbn zeta. revert d m. induction rows as [|r rows IH]; intros d m.
  - cbn. split; [tauto|]. split; [intros; now rewrite app_nil_r|].
    assert (forall (cid : string) (keys : list string),
              cid ∈ keys
              <-> cid ∈ keys
                  \/ exists r : FileRow, r ∈ [] /\ in_cluster cid r) as Hnil.
    { intros cid keys. split; [tauto|].
      intros [?|(r & Hr & _)]; [assumption | now apply elem_of_nil in Hr]. }
    split; [intros cid; apply Hnil|].
    split; [intros cid; apply Hnil | reflexivity].
  - cbn [fold_left].
    destruct (IH (dict_append String.eqb (file_cluster_id r) (file_path r) d)
                 (dict_max (file_cluster_id r) (edit_count r) m))
      as (Hnd & Hval & Hkeys & Hmkeys & Hmax).
    assert (forall (cid : string) (keys : list string),
              (cid ∈ (if decide (file_cluster_id r ∈ keys) then keys
                      else (keys ++ [file_cluster_id r])%list)
               \/ exists r', r' ∈ rows /\ in_cluster cid r')
              <-> (cid ∈ keys
                   \/ exists r', r' ∈ r :: rows /\ in_cluster cid r'))
      as Hstep.
    { intros cid keys. split.
      - intros [Hin|(r' & Hr' & Hcid)].
        + destruct (decide (file_cluster_id r ∈ keys)); [now left|].
          apply elem_of_app in Hin as [?|Hin]; [now left|].
          apply list_elem_of_singleton in Hin as ->.
          right. exists r. split; [apply list_elem_of_here | reflexivity].
        + right. exists r'. split; [now apply list_elem_of_further|exact Hcid].
      - intros [Hin|(r' & Hr' & Hcid)].
        + left. destruct (decide (file_cluster_id r ∈ keys)); [exact Hin|].
          apply elem_of_app. now left.
        + apply elem_of_cons in Hr' as [->|Hr'].
          * left. unfold in_cluster in Hcid. subst cid.
            destruct (decide (file_cluster_id r ∈ keys)); [assumption|].
            apply elem_of_app. right. apply list_elem_of_here.
          * right. exists r'. tauto. }
    split; [|split; [|split; [|split]]].
    + intros Hd. apply Hnd. rewrite dict_append_keys.
      destruct (decide (file_cluster_id r ∈ d.*1)); [exact Hd|].
      apply NoDup_app. split; [exact Hd|]. split; [|apply NoDup_singleton].
      intros x Hx Hx'. apply list_elem_of_singleton in Hx'. now subst.
    + intros cid. rewrite Hval, filter_cons.
      destruct (decide (in_cluster cid r)) as [Hin|Hout];
        unfold in_cluster in *.
      * subst cid. rewrite dict_values_append_same, fmap_cons.
        now rewrite <- app_assoc.
      * rewrite dict_values_append_other by congruence. reflexivity.
    + intros cid. rewrite Hkeys, dict_append_keys. apply Hstep.
    + intros cid. rewrite Hmkeys, dict_max_keys. apply Hstep.
    + intros cid. rewrite Hmax, dict_lookup_max, filter_cons.
      destruct (decide (in_cluster cid r)) as [Hin|Hout];
        unfold in_cluster in *.
      * rewrite decide_True by exact Hin. reflexivity.
      * rewrite decide_False by exact Hout. reflexivity.
Qed.

Lemma filter_in_cluster_nonempty (cid : string) (rows : list FileRow) :
  (exists r, r ∈ rows /\ in_cluster cid r)
  <-> filter (in_cluster cid) rows <> [].
Proof.
  split.
  - intros (r & Hr & Hcid) Hnil.
    assert (r ∈ filter (in_cluster cid) rows) as Hin
      by now apply list_elem_of_filter.
    rewrite Hnil in Hin. now apply elem_of_nil in Hin.
  - intros Hne. destruct (filter (in_cluster cid) rows) as [|r l] eqn:Hf;
      [congruence|].
    assert (r ∈ filter (in_cluster cid) rows) as Hin
      by (rewrite Hf; apply list_elem_of_here).
    apply list_elem_of_filter in Hin as [? ?]. eauto.
Qed.

Lemma analyze_file_relationships_elem_of (stem : string -> string)
    (cfg : Config) (rows : list FileRow) (fc : FileCluster) :
  fc ∈ analyze_file_relationships stem cfg rows
  <-> exists cid,
        let members := filter (in_cluster cid) rows in
        members <> []
        /\ (file_cluster_min_size cfg <= Z.of_nat (length members))%Z
        /\ file_similarity_threshold cfg
           <= Qmin 1 (inject_Z (largest_edit_count members) / 10)
        /\ fc = reported_cluster stem members.
Proof.
  unfold analyze_file_relationships.
  destruct (cluster_fold rows [] []) as (Hnd & Hval & Hkeys & Hmkeys & Hmax).
  cbn zeta in *.
  specialize (Hnd (NoDup_nil_2 (A:=string))).
  set (d' := fold_left (fun d r => dict_append String.eqb _ _ d) rows [])
    in *.
  set (m' := fold_left (fun d r => dict_max _ _ d) rows []) in *.
  assert (forall cid fs,
            (cid, fs) ∈ d'
            <-> filter (in_cluster cid) rows <> []
                /\ fs = file_path <$> filter (in_cluster cid) rows)
    as Hentries.
  { intros cid fs.
    rewrite (dict_values_elem_of cid fs _ Hnd), Hval, Hkeys.
    rewrite <- filter_in_cluster_nonempty.
    change (dict_values cid []) with ([] : list string). rewrite app_nil_l.
    change ([] : list (string * list string)).*1 with ([] : list string).
    rewrite elem_of_nil. tauto. }
  assert (forall cid,
            filter (in_cluster cid) rows <> [] ->
            dict_lookup cid m'
            = Some (largest_edit_count (filter (in_cluster cid) rows)))
    as Hcount.
  { intros cid Hne.
    destruct (dict_lookup_is_Some cid m') as [c Hc].
    { apply Hmkeys. right. now apply filter_in_cluster_nonempty. }
    specialize (Hmax cid). rewrite Hc in Hmax. cbn in Hmax.
    rewrite fold_left_max in Hmax. rewrite Hc. f_equal. exact Hmax. }
  rewrite list_elem_of_omap. split.
  - intros ([cid fs] & Hin & Hfc).
    apply Hentries in Hin as [Hne ->].
    exists cid. cbn zeta. split; [exact Hne|].
    unfold cluster_of in Hfc. rewrite length_fmap in Hfc.
    destruct (Z.ltb_spec (Z.of_nat (length (filter (in_cluster cid) rows)))
                (file_cluster_min_size cfg)); [discriminate|].
    rewrite (Hcount cid Hne) in Hfc.
    destruct (filter (in_cluster cid) rows) as [|r l] eqn:Hf; [congruence|].
    rewrite fmap_cons in Hfc.
    destruct (Qle_bool _ _) eqn:Hq in Hfc; [|discriminate].
    apply Qle_bool_iff in Hq. injection Hfc as <-.
    split; [assumption|]. split; [exact Hq | reflexivity].
  - intros (cid & Hne & Hsize & Hsim & ->).
    exists (cid, file_path <$> filter (in_cluster cid) rows).
    split; [now apply Hentries|].
    unfold cluster_of. rewrite length_fmap.
    destruct (Z.ltb_spec (Z.of_nat (length (filter (in_cluster cid) rows)))
                (file_cluster_min_size cfg)); [lia|].
    rewrite (Hcount cid Hne).
    destruct (filter (in_cluster cid) rows) as [|r l] eqn:Hf; [congruence|].
    rewrite fmap_cons.
    apply Qle_bool_iff in Hsim. rewrite Hsim. reflexivity.
Qed.

Lemma largest_edit_count_bounds (members : list FileRow) :
  (0 <= largest_edit_count members)%Z
  /\ (forall r, r ∈ members -> (edit_count r <= largest_edit_count members)%Z)
  /\ (largest_edit_count members = 0%Z
      \/ exists r, r ∈ members /\ edit_count r = largest_edit_count members).
Proof.
  unfold largest_edit_count.
  induction members as [|r l (Hpos & Hub & Hhit)]; cbn.
  - split; [lia|]. split; [|now left].
    intros r Hr. now apply elem_of_nil in Hr.
  - split; [lia|]. split.
    + intros r' Hr'. apply elem_of_cons in Hr' as [->|Hr']; [lia|].
      specialize (Hub r' Hr'). lia.
    + destruct (Z.max_spec (edit_count r)
                  (foldr Z.max 0%Z (edit_count <$> l))) as [[_ ->]|[_ ->]].
      * destruct Hhit as [?|(r' & Hr' & Heq)]; [now left|].
        right. exists r'. split; [now apply list_elem_of_further|exact Heq].
      * right. exists r. split; [apply list_elem_of_here|reflexivity].
Qed.

(** X6: File clusters are the groups of the query's rows by cluster id: a
    cluster is reported exactly for a cluster id whose rows are at least
    the minimum size and whose largest edit count, as a tenth and capped at
    one, reaches the similarity threshold; it lists the files of those rows
    in row order, also when the rows of several clusters interleave, and is
    named after the first of them. *)
Theorem file_clusters_group_rows (stem : string -> string)
    (cfg : Config) (rows : list FileRow) (fc : FileCluster) :
  fc ∈ analyze_file_relationships stem cfg rows
  <-> exists cid,
        let members := filter (in_cluster cid) rows in
        members <> []
        /\ (file_cluster_min_size cfg <= Z.of_nat (length members))%Z
        /\ file_similarity_threshold cfg
           <= Qmin 1 (inject_Z (largest_edit_count members) / 10)
        /\ fc = reported_cluster stem members.
Proof. apply analyze_file_relationships_elem_of. Qed.

(** X7: Every reported file cluster names at least one file, has a similarity
    between 0 and 1 that is at least the configured threshold, and its
    co-occurrence count is the largest edit count of one of its files (or 0
    when none is positive); with the default threshold of 0.3 that count is
    3 or more. *)
Theorem file_clusters_shape (stem : string -> string)
    (cfg : Config) (rows : list FileRow) :
  Forall
    (fun fc =>
       files fc <> []
       /\ (file_cluster_min_size cfg <= Z.of_nat (length (files fc)))%Z
       /\ 0 <= jaccard_similarity fc <= 1
       /\ file_similarity_threshold cfg <= jaccard_similarity fc
       /\ (0 <= co_occurrence_count fc)%Z
       /\ (forall r, r ∈ rows -> file_path r ∈ files fc ->
             exists r', r' ∈ rows /\ file_path r' = file_path r
                        /\ (edit_count r' <= co_occurrence_count fc)%Z)
       /\ (file_similarity_threshold cfg == 0.3 ->
           (3 <= co_occurrence_count fc)%Z))
    (analyze_file_relationships stem cfg rows).
Proof.
  apply Forall_forall. intros fc Hfc.
  apply analyze_file_relationships_elem_of in Hfc
    as (cid & Hne & Hsize & Hsim & ->).
  set (members := filter (in_cluster cid) rows) in *.
  destruct (largest_edit_count_bounds members) as (Hpos & Hub & _).
  cbn [reported_cluster files jaccard_similarity co_occurrence_count].
  split.
  { destruct members; [congruence | discriminate]. }
  split; [now rewrite length_fmap|].
  split.
  { split; [|apply Q.le_min_l].
    apply Q.min_glb; [lra|].
    apply Qle_shift_div_l; [lra|].
    rewrite Qmult_0_l. change 0 with (inject_Z 0). now rewrite <- Zle_Qle. }
  split; [exact Hsim|]. split; [exact Hpos|]. split.
  { intros r _ Hin. apply list_elem_of_fmap in Hin as (r' & Heq & Hr').
    exists r'. split.
    - now apply list_elem_of_filter in Hr' as [_ ?].
    - split; [now symmetry | now apply Hub]. }
  intros Hthr. rewrite Hthr in Hsim.
  destruct (Z.le_gt_cases 3 (largest_edit_count members)) as [?|Hlt];
    [assumption|exfalso].
  assert (inject_Z (largest_edit_count members) <= 2) as Hle.
  { change 2 with (inject_Z 2). rewrite <- Zle_Qle. lia. }
  assert (Qmin 1 (inject_Z (largest_edit_count members) / 10) <= 2 / 10)
    as Hcap.
  { eapply Qle_trans; [apply Q.le_min_r|].
    apply Qle_shift_div_r; [lra|].
    assert (2 / 10 * 10 == 2) as -> by reflexivity. exact Hle. }
  pose proof (Qle_trans _ _ _ Hsim Hcap) as Habs.
  vm_compute in Habs. now apply Habs.
Qed.

(** Of the two sample clusters only the first reaches the default
    threshold: its largest edit count is 4, the other's is 1. *)
Example sample_file_clusters :
  (fun fc => (files fc, co_occurrence_count fc, Qred (jaccard_similarity fc)))
    <$> analyze_file_relationships (fun p => p) default_config
          sample_file_rows
  = [(["src/a.py"; "src/b.py"], 4%Z, 2 # 5)].
Proof. reflexivity. Qed.

End file_relationships_props.

Module confidence_props.
Import pattern_analyzer.
Local Open Scope Q_scope.

Lemma calculate_confidence_value (occurrences min_samples : Z) :
  (0 < min_samples)%Z ->
  exists c,
    calculate_confidence occurrences min_samples = Some c
    /\ 0.1 <= c <= 1
    /\ (c == 0.1 <-> (occurrences < min_samples)%Z)
    /\ (c == 1 <-> (3 * min_samples <= occurrences)%Z)
    /\ ((min_samples <= occurrences)%Z ->
        c == Qmin 1 (inject_Z occurrences / inject_Z (3 * min_samples))
        /\ 1 / 3 <= c).
Proof.
  intros Hm. unfold calculate_confidence.
  assert (0 < inject_Z (min_samples * 3)) as Hden.
  { change 0 with (inject_Z 0). rewrite <- Zlt_Qlt. lia. }
  assert (forall k : Z,
            (k * (min_samples * 3) <= occurrences * 1)%Z
            <-> inject_Z k <= inject_Z occurrences / inject_Z (min_samples * 3))
    as Hdiv.
  { intros k. split.
    - intros Hk. apply Qle_shift_div_l; [exact Hden|].
      rewrite <- inject_Z_mult, <- Zle_Qle. lia.
    - intros Hk. apply (Qmult_le_r _ _ _ Hden) in Hk.
      unfold Qdiv in Hk. rewrite <- Qmult_assoc in Hk.
      rewrite (Qmult_comm (/ _)), Qmult_inv_r, Qmult_1_r in Hk
        by (intros Hz; rewrite Hz in Hden; now apply Qlt_irrefl in Hden).
      rewrite <- inject_Z_mult, <- Zle_Qle in Hk. lia. }
  assert (1 # 3 <= inject_Z occurrences / inject_Z (min_samples * 3)
          <-> (min_samples <= occurrences)%Z) as Hthird.
  { split.
    - intros Hk. apply (Qmult_le_r _ _ _ Hden) in Hk.
      unfold Qdiv in Hk. rewrite <- Qmult_assoc in Hk.
      rewrite (Qmult_comm (/ _)), Qmult_inv_r, Qmult_1_r in Hk
        by (intros Hz; rewrite Hz in Hden; now apply Qlt_irrefl in Hden).
      unfold Qle in Hk. cbn in Hk. lia.
    - intros Hk. apply Qle_shift_div_l; [exact Hden|].
      unfold Qle. cbn. lia. }
  destruct (Z.ltb_spec occurrences min_samples) as [Hlt|Hge].
  - exists 0.1. split; [reflexivity|]. split; [split; now vm_compute|].
    split; [split; [now intros _ | reflexivity]|].
    split; [|lia]. split; [intros H; now vm_compute in H | lia].
  - destruct (Z.eqb_spec (min_samples * 3) 0) as [?|_]; [lia|].
    set (x := inject_Z occurrences / inject_Z (min_samples * 3)) in *.
    exists (Qmin 1 x). split; [reflexivity|].
    apply Hthird in Hge as Hx.
    assert (1 # 3 <= Qmin 1 x) as Hlow
      by (apply Q.min_glb; [now vm_compute | exact Hx]).
    split.
    { split; [|apply Q.le_min_l].
      eapply Qle_trans; [|exact Hlow]. now vm_compute. }
    split.
    { split; [|lia]. intros Heq. rewrite Heq in Hlow.
      now vm_compute in Hlow. }
    split.
    { rewrite <- (Z.mul_1_r occurrences), (Z.mul_comm 3), <- (Z.mul_1_l (_ * 3)).
      rewrite (Hdiv 1%Z). fold x. change (inject_Z 1) with 1. split.
      - intros Heq. rewrite <- Heq. apply Q.le_min_r.
      - intros H1. apply Q.min_l. exact H1. }
    intros _. split; [|exact Hlow].
    unfold x. now rewrite (Z.mul_comm 3).
Qed.

Lemma calculate_confidence_monotone (occurrences occurrences' min_samples : Z)
    (c c' : Q) :
  (0 < min_samples)%Z -> (occurrences <= occurrences')%Z ->
  calculate_confidence occurrences min_samples = Some c ->
  calculate_confidence occurrences' min_samples = Some c' ->
  c <= c'.
Proof.
  intros Hm Hle Hc Hc'.
  destruct (calculate_confidence_value occurrences' min_samples Hm)
    as (c0 & Hc0 & [Hlow' _] & _ & _ & Hge').
  rewrite Hc' in Hc0. injection Hc0 as <-.
  unfold calculate_confidence in Hc.
  destruct (Z.ltb_spec occurrences min_samples) as [Hlt|Hge].
  - injection Hc as <-. exact Hlow'.
  - destruct (Z.eqb_spec (min_samples * 3) 0) as [?|_]; [lia|].
    injection Hc as <-.
    destruct Hge' as [-> _]; [lia|].
    rewrite (Z.mul_comm 3).
    apply Q.min_le_compat_l.
    unfold Qdiv. apply Qmult_le_compat_r.
    + rewrite <- Zle_Qle. exact Hle.
    + apply Qinv_le_0_compat. change 0 with (inject_Z 0).
      rewrite <- Zle_Qle. lia.
Qed.

(** X8: The confidence of a sample count, for a positive minimum: a value
    between 0.1 and 1; exactly 0.1 below the minimum, at least a third from
    the minimum on, 1 exactly from three times the minimum on; and never
    smaller for a larger count.  With a minimum of 0 and a count that is
    not negative the division by zero leaves no value. *)
Theorem calculate_confidence_scale (occurrences occurrences' min_samples : Z) :
  ((0 < min_samples)%Z ->
   exists c c',
     calculate_confidence occurrences min_samples = Some c
     /\ calculate_confidence occurrences' min_samples = Some c'
     /\ 0.1 <= c <= 1
     /\ (c == 0.1 <-> (occurrences < min_samples)%Z)
     /\ ((min_samples <= occurrences)%Z -> 1 / 3 <= c)
     /\ (c == 1 <-> (3 * min_samples <= occurrences)%Z)
     /\ ((occurrences <= occurrences')%Z -> c <= c'))
  /\ ((0 <= occurrences)%Z -> calculate_confidence occurrences 0 = None).
Proof.
  split.
  - intros Hm.
    destruct (calculate_confidence_value occurrences min_samples Hm)
      as (c & Hc & Hrange & Hlow & Hone & Hge).
    destruct (calculate_confidence_value occurrences' min_samples Hm)
      as (c' & Hc' & _).
    exists c, c'. split; [exact Hc|]. split; [exact Hc'|].
    split; [exact Hrange|]. split; [exact Hlow|].
    split; [intros H; now apply Hge|]. split; [exact Hone|].
    intros Hle.
    exact (calculate_confidence_monotone _ _ _ _ _ Hm Hle Hc Hc').
  - intros Hocc. unfold calculate_confidence.
    destruct (Z.ltb_spec occurrences 0); [lia | reflexivity].
Qed.

Lemma calculate_confidence_scale_witness :
  (exists c c',
     calculate_confidence 5 3 = Some c
     /\ calculate_confidence 9 3 = Some c'
     /\ 0.1 <= c <= 1
     /\ (c == 0.1 <-> (5 < 3)%Z)
     /\ ((3 <= 5)%Z -> 1 / 3 <= c)
     /\ (c == 1 <-> (3 * 3 <= 5)%Z)
     /\ ((5 <= 9)%Z -> c <= c'))
  /\ calculate_confidence 5 0 = None.
Proof.
  destruct (calculate_confidence_scale 5 9 3) as [H _].
  destruct (calculate_confidence_scale 5 9 0) as [_ H0].
  split; [apply H; lia | apply H0; lia].
Defined.

End confidence_props.

Module trend_more_props.
Import pyfloat pystr pylist executive_models pattern_models statistics.
Import trend_analyzer trend_analyzer_terms.
Local Open Scope Q_scope.
Local Open Scope string_scope.

Lemma Qltb_lt (x y : Q) : Qltb x y = true <-> x < y.
Proof.
  unfold Qltb. rewrite negb_true_iff. split.
  - intros H. apply Qnot_le_lt. intros Hle.
    apply Qle_bool_iff in Hle. congruence.
  - intros H. destruct (Qle_bool y x) eqn:Hle; [|reflexivity].
    apply Qle_bool_iff in Hle. lra.
Qed.

Lemma Qltb_ge (x y : Q) : Qltb x y = false <-> y <= x.
Proof.
  unfold Qltb. rewrite negb_false_iff. apply Qle_bool_iff.
Qed.







(** X10: The trend of a metric whose previous value was 0: a positive current
    value counts as a change of +100%, UP and significant; any other
    current value, a negative one too, counts as a change of 0 and STABLE,
    and is not significant when there are fewer than two historical
    values. *)
Theorem metric_trend_from_zero_baseline (sqrt : Q -> Q) (name : string)
    (cur prev : Q) (hist : list Q) :
  prev == 0 ->
  let t := _calculate_metric_trend sqrt name cur prev hist in
  (0 < cur ->
   change_percent t = 100 /\ trend_direction t = UP
   /\ significance t = SIGNIFICANT)
  /\ (cur <= 0 ->
      change_percent t = 0 /\ trend_direction t = STABLE
      /\ ((length hist < 2)%nat -> significance t = NORMAL)).
Proof.
  intros Hprev. cbn zeta.
  unfold _calculate_metric_trend.
  cbn [change_percent trend_direction data_points z_score significance].
  unfold calculate_change_percent.
  apply Qeq_bool_iff in Hprev. rewrite Hprev.
  split.
  - intros Hcur. apply Qltb_lt in Hcur. rewrite Hcur.
    split; [reflexivity|]. split; reflexivity.
  - intros Hcur. apply Qltb_ge in Hcur. rewrite Hcur.
    split; [reflexivity|]. split; [reflexivity|].
    intros Hlen.
    destruct (Nat.leb_spec 2 (length hist)) as [?|_]; [lia|]. reflexivity.
Qed.

Lemma metric_trend_from_zero_baseline_witness :
  let t := _calculate_metric_trend sqrt_6 "strategic_alignment" (-1) 0 [] in
  (0 < -1 ->
   change_percent t = 100 /\ trend_direction t = UP
   /\ significance t = SIGNIFICANT)
  /\ (-1 <= 0 ->
      change_percent t = 0 /\ trend_direction t = STABLE
      /\ ((length ([] : list Q) < 2)%nat -> significance t = NORMAL)).
Proof.
  apply (metric_trend_from_zero_baseline sqrt_6 "strategic_alignment" (-1) 0
           []).
  reflexivity.
Defined.

End trend_more_props.

Module snapshot_props.
Import pyfloat pystr pylist executive_models pattern_models statistics.
Import trend_analyzer trend_analyzer_terms.
Local Open Scope Q_scope.
Local Open Scope string_scope.

Lemma Qlen_cons {A} (x : A) (xs : list A) : Qlen (x :: xs) == Qlen xs + 1.
Proof.
  unfold Qlen. cbn [length]. rewrite Nat2Z.inj_succ, <- Z.add_1_r.
  now rewrite inject_Z_plus.
Qed.

Lemma Qlen_nonneg {A} (xs : list A) : 0 <= Qlen xs.
Proof.
  unfold Qlen. change 0 with (inject_Z 0). rewrite <- Zle_Qle. lia.
Qed.

Lemma fold_left_Qplus_bounds (lo hi : Q) (xs : list Q) (a : Q) :
  Forall (fun x => lo <= x <= hi) xs ->
  a + lo * Qlen xs <= fold_left Qplus xs a <= a + hi * Qlen xs.
Proof.
  intros Hxs. revert a. induction Hxs as [|x xs [Hlo Hhi] _ IH]; intros a.
  - cbn. change (Qlen []) with 0. lra.
  - cbn [fold_left]. specialize (IH (a + x)). rewrite Qlen_cons. lra.
Qed.

Lemma Qsum_bounds (lo hi : Q) (xs : list Q) :
  Forall (fun x => lo <= x <= hi) xs ->
  lo * Qlen xs <= Qsum xs <= hi * Qlen xs.
Proof.
  intros Hxs. unfold Qsum.
  pose proof (fold_left_Qplus_bounds lo hi xs 0 Hxs). lra.
Qed.

Lemma ratio_in_unit (a b : Q) : 0 <= a <= b -> 0 < b -> 0 <= a / b <= 1.
Proof.
  intros [Ha Hab] Hb. split.
  - apply Qle_shift_div_l; [exact Hb | lra].
  - apply Qle_shift_div_r; [exact Hb | lra].
Qed.

Lemma inject_Z_max_1 (n : nat) :
  0 < inject_Z (Z.max 1 (Z.of_nat n))
  /\ inject_Z (Z.of_nat n) <= inject_Z (Z.max 1 (Z.of_nat n)).
Proof.
  split.
  - change 0 with (inject_Z 0). rewrite <- Zlt_Qlt. lia.
  - rewrite <- Zle_Qle. lia.
Qed.

Lemma productivity_of_snapshot (success total : nat) (avg : Q) (hours : Z) :
  (success <= total)%nat -> 0 <= avg <= 1 -> (1 <= hours)%Z ->
  0 <= calculate_productivity_score (Z.of_nat success) (Z.of_nat total) avg
         hours <= 1
  /\ (hours = 1%Z ->
      calculate_productivity_score (Z.of_nat success) (Z.of_nat total) avg
        hours <= 0.7375).
Proof.
  intros Hst Havg Hh. unfold calculate_productivity_score.
  destruct (Z.eqb_spec (Z.of_nat total) 0) as [_|Hne].
  { split; [lra | intros _; now vm_compute]. }
  destruct (inject_Z_max_1 total) as [Hpos Hle].
  assert (0 <= inject_Z (Z.of_nat success)
          <= inject_Z (Z.max 1 (Z.of_nat total))) as Hs.
  { split; [change 0 with (inject_Z 0)|]; rewrite <- Zle_Qle; lia. }
  pose proof (ratio_in_unit _ _ Hs Hpos) as [Hr0 Hr1].
  set (rate := inject_Z (Z.of_nat success) / inject_Z (Z.max 1 (Z.of_nat total)))
    in *.
  assert (0 <= Qmin 1 rate <= 1) as [? ?]
    by (split; [apply Q.min_glb; lra | apply Q.le_min_l]).
  assert (0 <= inject_Z hours / 8) as Hact.
  { apply Qle_shift_div_l; [lra|]. rewrite Qmult_0_l.
    change 0 with (inject_Z 0). rewrite <- Zle_Qle. lia. }
  assert (0 <= Qmin 1 (inject_Z hours / 8) <= 1) as [? ?]
    by (split; [apply Q.min_glb; lra | apply Q.le_min_l]).
  split; [split; lra|].
  intros ->.
  assert (Qmin 1 (inject_Z 1 / 8) <= 1 # 8) as Hcap
    by (eapply Qle_trans; [apply Q.le_min_r | now vm_compute]).
  set (act := Qmin 1 (inject_Z 1 / 8)) in *. clearbody act. lra.
Qed.

(** X11: The weekly snapshot of a pattern report: it counts the listed
    patterns as events, records at least one active hour (the whole hours
    of the active minutes from 60 minutes on), keeps three sequences and two
    clusters at most as top patterns, reports no anomaly, and has a pattern
    diversity and a success rate between 0 and 1; the diversity is 0 exactly
    for a report without patterns.  When every sequence has a confidence
    between 0 and 1 the productivity score is between 0 and 1 as well. *)
Theorem weekly_snapshot_invariants (period_start period_end : date)
    (strategic_alignment : Q) (report : PatternReport)
    (time_active_minutes : Z) :
  let s := generate_weekly_snapshot period_start period_end
             strategic_alignment report time_active_minutes in
  total_events s
  = Z.of_nat (length (command_sequences report)
              + length (file_clusters report)
              + length (success_correlations report))
  /\ (1 <= active_hours s)%Z
  /\ ((60 <= time_active_minutes)%Z ->
      active_hours s = (time_active_minutes / 60)%Z)
  /\ length (top_patterns s)
     = (Nat.min 3 (length (command_sequences report))
        + Nat.min 2 (length (file_clusters report)))%nat
  /\ anomalies_detected s = 0%Z
  /\ strategic_alignment_avg s = strategic_alignment
  /\ 0 <= pattern_diversity s <= 1
  /\ (pattern_diversity s == 0 <-> pattern_count report = 0%nat)
  /\ 0 <= success_signal_rate s <= 1
  /\ (Forall (fun seq => 0 <= confidence seq <= 1)
             (command_sequences report) ->
      0 <= productivity_score s <= 1).
Proof.
  cbn zeta. unfold generate_weekly_snapshot.
  cbn [total_events active_hours top_patterns anomalies_detected
       strategic_alignment_avg pattern_diversity success_signal_rate
       productivity_score].
  destruct report as [seqs clusters tp corrs ts conf].
  cbn [command_sequences file_clusters time_patterns success_correlations].
  split; [reflexivity|]. split; [lia|].
  split.
  { intros Hm. assert (1 <= time_active_minutes / 60)%Z
      by (apply Z.div_le_lower_bound; lia). lia. }
  split.
  { rewrite length_take, length_app, !length_fmap, !length_take. lia. }
  split; [reflexivity|]. split; [reflexivity|].
  split.
  { destruct seqs, clusters, corrs, tp; now vm_compute. }
  split.
  { unfold pattern_count.
    cbn [command_sequences file_clusters time_patterns success_correlations].
    destruct seqs, clusters, corrs, tp; cbn [length];
      (split; [intros H; try (now vm_compute in H); reflexivity
              | intros H; try lia; reflexivity]). }
  split.
  { destruct (inject_Z_max_1 (length seqs + length clusters + length corrs))
      as [Hpos Hle].
    apply ratio_in_unit; [|exact Hpos]. split.
    - change 0 with (inject_Z 0). rewrite <- Zle_Qle. lia.
    - rewrite <- Zle_Qle. lia. }
  intros Hconf.
  apply productivity_of_snapshot; [lia | | lia].
  destruct (inject_Z_max_1 (length seqs)) as [Hpos Hle].
  apply ratio_in_unit; [|exact Hpos].
  assert (Forall (fun x => 0 <= x <= 1) (confidence <$> seqs)) as Hxs
    by now apply Forall_fmap.
  pose proof (Qsum_bounds 0 1 _ Hxs) as [Hlo Hhi].
  unfold Qlen in Hlo, Hhi. rewrite length_fmap in Hlo, Hhi.
  split; lra.
Qed.

End snapshot_props.

Module trend_shape_props.
Import pyfloat pystr pylist pylist_more_props executive_models pattern_models.
Import statistics trend_analyzer trend_analyzer_terms trend_history_terms.
Import trend_more_props.
Local Open Scope Q_scope.
Local Open Scope string_scope.

Lemma check_metric_Some (sqrt : Q -> Q) (previous : list WeeklySnapshot)
    (threshold : Q) (name : string) (cur : Q) (a : Anomaly) :
  0 < threshold ->
  check_metric sqrt previous threshold (name, cur) = Some a ->
  let values := historical_values name previous in
  anomaly_metric_name a = name
  /\ anomaly_current_value a = cur
  /\ (2 <= length values)%nat
  /\ anomaly_historical_mean a = mean values
  /\ ~ anomaly_historical_stddev a == 0
  /\ anomaly_z_score a * anomaly_historical_stddev a
     == cur - anomaly_historical_mean a
  /\ threshold <= Qabs (anomaly_z_score a)
  /\ (anomaly_type a = "high" /\ 0 < anomaly_z_score a
      \/ anomaly_type a = "low" /\ anomaly_z_score a < 0)
  /\ (anomaly_severity a = "critical"
      /\ threshold * 1.5 <= Qabs (anomaly_z_score a)
      \/ anomaly_severity a = "warning"
         /\ Qabs (anomaly_z_score a) < threshold * 1.5).
Proof.
  intros Hthr Ha. cbn zeta. unfold check_metric in Ha.
  set (values := historical_values name previous) in *.
  destruct (Nat.ltb_spec (length values) 2) as [?|Hlen]; [discriminate|].
  set (sd := stdev_or_default sqrt values) in *.
  set (z := calculate_z_score cur (mean values) sd) in *.
  destruct (Qle_bool threshold (Qabs z)) eqn:Hz; [|discriminate].
  apply Qle_bool_iff in Hz. injection Ha as <-.
  cbn [anomaly_metric_name anomaly_current_value anomaly_historical_mean
       anomaly_historical_stddev anomaly_z_score anomaly_type
       anomaly_severity].
  assert (~ sd == 0 /\ z * sd == cur - mean values) as [Hsd Hzsd].
  { subst z. unfold calculate_z_score in *.
    destruct (Qeq_bool sd 0) eqn:Hq.
    - change (Qabs 0) with 0 in Hz. lra.
    - assert (~ sd == 0) as Hne.
      { intros Heq. apply Qeq_bool_iff in Heq. congruence. }
      split; [exact Hne|]. field. exact Hne. }
  split; [reflexivity|]. split; [reflexivity|]. split; [exact Hlen|].
  split; [reflexivity|]. split; [exact Hsd|]. split; [exact Hzsd|].
  split; [exact Hz|]. split.
  - destruct (Qltb 0 z) eqn:Hpos.
    + left. split; [reflexivity | now apply Qltb_lt].
    + right. split; [reflexivity|]. apply Qltb_ge in Hpos.
      rewrite Qabs_neg in Hz by exact Hpos. lra.
  - destruct (Qle_bool (threshold * 1.5) (Qabs z)) eqn:Hcrit.
    + left. split; [reflexivity | now apply Qle_bool_iff].
    + right. split; [reflexivity|].
      apply Qnot_le_lt. intros Hle. apply Qle_bool_iff in Hle. congruence.
Qed.

Lemma detect_anomalies_entries (sqrt : Q -> Q) (period_start period_end : date)
    (strategic_alignment : Q) (report : PatternReport)
    (previous : list WeeklySnapshot) (threshold : Q) :
  0 < threshold ->
  let result := detect_anomalies sqrt period_start period_end
                  strategic_alignment report previous threshold in
  ((length previous < 2)%nat -> result = [])
  /\ (anomaly_metric_name <$> result) `sublist_of` tracked_metrics
  /\ Forall
       (explained_anomaly previous threshold)
       result.
Proof.
  intros Hthr. cbn zeta. unfold detect_anomalies.
  destruct (Nat.ltb_spec (length previous) 2) as [Hshort|Hlong].
  { split; [reflexivity|]. split; [apply sublist_nil_l | constructor]. }
  split; [lia|]. split.
  - apply (omap_fst_sublist
             (check_metric sqrt previous threshold) anomaly_metric_name).
    intros [name cur] a Ha.
    now destruct (check_metric_Some _ _ _ _ _ _ Hthr Ha) as [-> _].
  - apply Forall_forall. intros a Ha.
    apply list_elem_of_omap in Ha as ([name cur] & _ & Ha).
    destruct (check_metric_Some _ _ _ _ _ _ Hthr Ha)
      as (Hname & Hcur & Hrest).
    cbn zeta in Hrest. unfold explained_anomaly.
    rewrite Hname, Hcur. exact Hrest.
Qed.

(** X12: Anomaly detection with a positive threshold: nothing is reported
    from fewer than two earlier snapshots; otherwise the reported metrics
    are some of the five tracked ones, each at most once and in their fixed
    order, and for each of them the history has two positive values at
    least, the mean is that of the positive values, the standard deviation
    is not zero, the z-score is the deviation from the mean in standard
    deviations and reaches the threshold, the type is high for a positive
    and low for a negative z-score, and the severity is critical from one
    and a half times the threshold and warning below it. *)
Theorem detect_anomalies_reports (sqrt : Q -> Q)
    (period_start period_end : date) (strategic_alignment : Q)
    (report : PatternReport) (previous : list WeeklySnapshot)
    (threshold : Q) :
  0 < threshold ->
  let result := detect_anomalies sqrt period_start period_end
                  strategic_alignment report previous threshold in
  ((length previous < 2)%nat -> result = [])
  /\ (anomaly_metric_name <$> result) `sublist_of` tracked_metrics
  /\ NoDup (anomaly_metric_name <$> result)
  /\ Forall
       (explained_anomaly previous threshold)
       result.
Proof.
  intros Hthr.
  destruct (detect_anomalies_entries sqrt period_start period_end
              strategic_alignment report previous threshold Hthr)
    as (Hshort & Hsub & Hall).
  cbn zeta in *.
  split; [exact Hshort|]. split; [exact Hsub|]. split; [|exact Hall].
  eapply sublist_NoDup; [|exact Hsub].
  apply (bool_decide_unpack _). vm_compute. exact I.
Qed.

Lemma detect_anomalies_reports_witness :
  let result := detect_anomalies sqrt_6 (mk_date 2025 1 27) (mk_date 2025 2 2)
                  0.95 empty_report varied_history 2 in
  ((length varied_history < 2)%nat -> result = [])
  /\ (anomaly_metric_name <$> result) `sublist_of` tracked_metrics
  /\ NoDup (anomaly_metric_name <$> result)
  /\ Forall (explained_anomaly varied_history 2) result.
Proof.
  apply (detect_anomalies_reports sqrt_6 (mk_date 2025 1 27)
           (mk_date 2025 2 2) 0.95 empty_report varied_history 2).
  reflexivity.
Defined.

(** On that history a current alignment of 0.95 is reported, as a
    critical high anomaly eight standard deviations above the mean. *)
Example detect_anomalies_varied_history :
  (fun a => (anomaly_metric_name a, anomaly_type a, anomaly_severity a,
             Qred (anomaly_z_score a)))
    <$> detect_anomalies sqrt_6 (mk_date 2025 1 27) (mk_date 2025 2 2)
          0.95 empty_report varied_history 2
  = [("strategic_alignment", "high", "critical", 8)].
Proof. now vm_compute. Qed.

End trend_shape_props.

Module smoothing_props.
Import pyfloat pystr pylist pylist_more_props executive_models pattern_models.
Import statistics trend_analyzer trend_analyzer_terms trend_history_terms.
Import trend_more_props snapshot_props.
Local Open Scope Q_scope.
Local Open Scope string_scope.

Lemma mean_bounds (lo hi : Q) (xs : list Q) :
  xs <> [] -> Forall (fun x => lo <= x <= hi) xs -> lo <= mean xs <= hi.
Proof.
  intros Hne Hxs. unfold mean.
  destruct (Qsum_bounds lo hi xs Hxs) as [Hlo Hhi].
  assert (0 < Qlen xs) as Hlen.
  { unfold Qlen. change 0 with (inject_Z 0). rewrite <- Zlt_Qlt.
    destruct xs; [congruence | cbn; lia]. }
  split.
  - apply Qle_shift_div_l; [exact Hlen | exact Hlo].
  - apply Qle_shift_div_r; [exact Hlen | exact Hhi].
Qed.

Lemma mapM_Some_fmap {A B} (f : A -> option B) (g : A -> B) (l : list A) :
  (forall x, x ∈ l -> f x = Some (g x)) -> mapM f l = Some (g <$> l).
Proof.
  induction l as [|x l IH]; intros Hf; [reflexivity|].
  cbn. rewrite (Hf x) by apply list_elem_of_here. cbn.
  rewrite IH by (intros y Hy; apply Hf; now apply list_elem_of_further).
  reflexivity.
Qed.

Lemma moving_average_in_range (values : list Q) (window : Z) :
  (1 <= window <= Z.of_nat (length values))%Z ->
  calculate_moving_average values window
  = Some ((fun i => mean (take (Z.to_nat window) (drop i values)))
            <$> seq 0 (length values - Z.to_nat window + 1)).
Proof.
  intros [Hlo Hhi]. unfold calculate_moving_average.
  destruct (Z.ltb_spec (Z.of_nat (length values)) window) as [?|_]; [lia|].
  replace (Z.to_nat (Z.of_nat (length values) - window + 1))
    with (length values - Z.to_nat window + 1)%nat by lia.
  apply mapM_Some_fmap. intros i Hi.
  apply elem_of_seq in Hi as [_ Hi].
  unfold slice_to.
  destruct (Z.leb_spec 0 (Z.of_nat i + window)) as [_|?]; [|lia].
  replace (Z.to_nat (Z.of_nat i + window)) with (i + Z.to_nat window)%nat
    by lia.
  rewrite <- take_drop_commute.
  unfold mean_checked.
  destruct (take (Z.to_nat window) (drop i values)) as [|x l] eqn:Ht;
    [|reflexivity].
  apply (f_equal length) in Ht.
  rewrite length_take, length_drop in Ht. cbn in Ht. lia.
Qed.

(** X13: The moving average.  A list shorter than the window comes back
    unchanged.  For a window between 1 and the length of the list there is
    one smoothed value for each position a window fits at, the mean of the
    window that starts there, and it lies between any two bounds of the
    values.  A window of 0 leaves no result: the mean of an empty slice is
    an error. *)
Theorem moving_average_windows (values : list Q) (window : Z) :
  ((Z.of_nat (length values) < window)%Z ->
   calculate_moving_average values window = Some values)
  /\ ((1 <= window <= Z.of_nat (length values))%Z ->
      exists smoothed,
        calculate_moving_average values window = Some smoothed
        /\ length smoothed = (length values - Z.to_nat window + 1)%nat
        /\ (forall i, (i < length smoothed)%nat ->
              smoothed !! i
              = Some (mean (take (Z.to_nat window) (drop i values))))
        /\ (forall lo hi, Forall (fun v => lo <= v <= hi) values ->
              Forall (fun v => lo <= v <= hi) smoothed))
  /\ (window = 0%Z -> calculate_moving_average values window = None).
Proof.
  split; [|split].
  - intros Hshort. unfold calculate_moving_average.
    destruct (Z.ltb_spec (Z.of_nat (length values)) window); [reflexivity|lia].
  - intros Hw. eexists. split; [now apply moving_average_in_range|].
    split; [now rewrite length_fmap, length_seq|]. split.
    + intros i Hi. rewrite length_fmap, length_seq in Hi.
      rewrite list_lookup_fmap, lookup_seq_lt by exact Hi. reflexivity.
    + intros lo hi Hvalues. apply Forall_fmap, Forall_forall.
      intros i Hi. apply elem_of_seq in Hi as [_ Hi]. cbn.
      apply mean_bounds.
      * intros Ht. apply (f_equal length) in Ht.
        rewrite length_take, length_drop in Ht. cbn in Ht. lia.
      * apply Forall_take, Forall_drop. exact Hvalues.
  - intros ->. unfold calculate_moving_average.
    destruct (Z.ltb_spec (Z.of_nat (length values)) 0) as [?|_]; [lia|].
    apply mapM_None. apply Exists_exists. exists 0%nat. split.
    + apply elem_of_seq. lia.
    + unfold slice_to. cbn. now rewrite take_0.
Qed.

Lemma moving_average_windows_witness :
  exists smoothed,
    calculate_moving_average [1; 2; 6] 2 = Some smoothed
    /\ length smoothed = 2%nat
    /\ (forall i, (i < length smoothed)%nat ->
          smoothed !! i = Some (mean (take 2 (drop i [1; 2; 6]))))
    /\ (forall lo hi, Forall (fun v => lo <= v <= hi) [1; 2; 6] ->
          Forall (fun v => lo <= v <= hi) smoothed).
Proof.
  destruct (moving_average_windows [1; 2; 6] 2) as (_ & Hfits & _).
  apply Hfits. cbn. lia.
Defined.

Lemma py_min_spec (x : Q) (xs : list Q) :
  py_min x xs ∈ x :: xs /\ Forall (fun v => py_min x xs <= v) (x :: xs).
Proof.
  unfold py_min. revert x. induction xs as [|y xs IH]; intros x; cbn.
  - split; [apply list_elem_of_here|]. repeat constructor. lra.
  - destruct (Qltb y x) eqn:Hyx.
    + apply Qltb_lt in Hyx. destruct (IH y) as [Hin Hall].
      split; [now apply list_elem_of_further|].
      apply Forall_cons in Hall as [Hy Hall].
      constructor; [lra|]. now constructor.
    + apply Qltb_ge in Hyx. destruct (IH x) as [Hin Hall].
      apply Forall_cons in Hall as [Hx Hall].
      split.
      * apply elem_of_cons in Hin as [->|Hin];
          [apply list_elem_of_here | now do 2 apply list_elem_of_further].
      * constructor; [exact Hx|]. constructor; [lra | exact Hall].
Qed.

Lemma py_max_spec (x : Q) (xs : list Q) :
  py_max x xs ∈ x :: xs /\ Forall (fun v => v <= py_max x xs) (x :: xs).
Proof.
  unfold py_max. revert x. induction xs as [|y xs IH]; intros x; cbn.
  - split; [apply list_elem_of_here|]. repeat constructor. lra.
  - destruct (Qltb x y) eqn:Hxy.
    + apply Qltb_lt in Hxy. destruct (IH y) as [Hin Hall].
      split; [now apply list_elem_of_further|].
      apply Forall_cons in Hall as [Hy Hall].
      constructor; [lra|]. now constructor.
    + apply Qltb_ge in Hxy. destruct (IH x) as [Hin Hall].
      apply Forall_cons in Hall as [Hx Hall].
      split.
      * apply elem_of_cons in Hin as [->|Hin];
          [apply list_elem_of_here | now do 2 apply list_elem_of_further].
      * constructor; [exact Hx|]. constructor; [lra | exact Hall].
Qed.

Lemma baseline_of_spec (sqrt : Q -> Q) (values : list Q) (b : Baseline) :
  Forall (fun v => 0 < v) values ->
  baseline_of sqrt values = Some b ->
  values <> []
  /\ baseline_count b = Z.of_nat (length values)
  /\ baseline_mean b = mean values
  /\ baseline_min b ∈ values /\ baseline_max b ∈ values
  /\ Forall (fun v => baseline_min b <= v <= baseline_max b) values
  /\ 0 < baseline_min b
  /\ baseline_min b <= baseline_mean b <= baseline_max b
  /\ (baseline_count b = 1%Z -> baseline_stddev b = 0)
  /\ ((2 <= baseline_count b)%Z ->
      exists v, variance values = Some v /\ baseline_stddev b = sqrt v).
Proof.
  intros Hpos Hb. destruct values as [|x xs]; [discriminate|].
  injection Hb as <-.
  cbn [baseline_count baseline_mean baseline_min baseline_max baseline_stddev].
  destruct (py_min_spec x xs) as [Hmin_in Hmin].
  destruct (py_max_spec x xs) as [Hmax_in Hmax].
  assert (Forall (fun v => py_min x xs <= v <= py_max x xs) (x :: xs))
    as Hrange.
  { rewrite Forall_forall in Hmin, Hmax. apply Forall_forall.
    intros v Hv. split; [now apply Hmin | now apply Hmax]. }
  split; [discriminate|]. split; [reflexivity|]. split; [reflexivity|].
  split; [exact Hmin_in|]. split; [exact Hmax_in|]. split; [exact Hrange|].
  split; [rewrite Forall_forall in Hpos; now apply Hpos|].
  split; [apply mean_bounds; [discriminate | exact Hrange]|].
  unfold stdev, variance. split.
  - intros Hone.
    destruct (Nat.ltb_spec (length (x :: xs)) 2) as [_|?]; [reflexivity|].
    cbn [length] in *. lia.
  - intros Htwo.
    destruct (Nat.ltb_spec (length (x :: xs)) 2) as [?|_];
      [cbn [length] in *; lia|].
    eexists. split; reflexivity.
Qed.

Lemma historical_values_positive (name : string)
    (snapshots : list WeeklySnapshot) :
  Forall (fun v => 0 < v) (historical_values name snapshots).
Proof.
  unfold historical_values. apply Forall_forall. intros v Hv.
  apply list_elem_of_filter in Hv as [Hv _]. now apply Qltb_lt.
Qed.

Lemma get_baseline_metrics_entries (sqrt : Q -> Q)
    (snapshots : list WeeklySnapshot) (name : string) (b : Baseline) :
  (name, b) ∈ get_baseline_metrics sqrt snapshots
  <-> name ∈ tracked_metrics
      /\ baseline_of sqrt (historical_values name snapshots) = Some b.
Proof.
  unfold get_baseline_metrics. rewrite list_elem_of_omap. split.
  - intros ([n extractor] & Hin & Hb).
    destruct (baseline_of sqrt _) as [b'|] eqn:Hb' in Hb; [|discriminate].
    injection Hb as -> ->.
    unfold tracked_metrics.
    repeat (apply elem_of_cons in Hin as [[= -> ->]|Hin];
            [split; [set_solver | exact Hb']|]).
    now apply elem_of_nil in Hin.
  - intros [Hin Hb]. unfold tracked_metrics in Hin.
    repeat (apply elem_of_cons in Hin as [->|Hin];
            [eexists (_, _); split;
             [|unfold historical_values, snapshot_metric in Hb; cbn in Hb;
               cbv beta iota; rewrite Hb; reflexivity];
             set_solver|]).
    now apply elem_of_nil in Hin.
Qed.

(** X14: The baselines of the historical snapshots: a tracked metric has a
    baseline exactly when some snapshot holds a positive value for it, and
    each metric at most one.  The baseline counts the positive values, its
    mean is their mean, its minimum and maximum are two of them that bound
    all the others, so that 0 < min <= mean <= max; its standard deviation
    is 0 for a single value and the root of the sample variance
    otherwise. *)
Theorem baseline_metrics_bounds (sqrt : Q -> Q)
    (snapshots : list WeeklySnapshot) :
  NoDup (get_baseline_metrics sqrt snapshots).*1
  /\ (forall name,
        name ∈ (get_baseline_metrics sqrt snapshots).*1
        <-> name ∈ tracked_metrics
            /\ historical_values name snapshots <> [])
  /\ forall name b,
       (name, b) ∈ get_baseline_metrics sqrt snapshots ->
       let values := historical_values name snapshots in
       baseline_count b = Z.of_nat (length values)
       /\ baseline_mean b = mean values
       /\ baseline_min b ∈ values /\ baseline_max b ∈ values
       /\ Forall (fun v => baseline_min b <= v <= baseline_max b) values
       /\ 0 < baseline_min b
       /\ baseline_min b <= baseline_mean b <= baseline_max b
       /\ (baseline_count b = 1%Z -> baseline_stddev b = 0)
       /\ ((2 <= baseline_count b)%Z ->
           exists v, variance values = Some v /\ baseline_stddev b = sqrt v).
Proof.
  split; [|split].
  - eapply (sublist_NoDup _ tracked_metrics).
    + apply (bool_decide_unpack _). vm_compute. exact I.
    + unfold get_baseline_metrics.
      apply (omap_fst_sublist _ fst
               [ ("productivity_score", productivity_score);
                 ("strategic_alignment", strategic_alignment_avg);
                 ("pattern_diversity", pattern_diversity);
                 ("success_rate", success_signal_rate);
                 ("active_hours", fun s => inject_Z (active_hours s)) ]).
      intros [n extractor] [n' b]. cbn.
      destruct (baseline_of sqrt _); cbn; congruence.
  - intros name. rewrite list_elem_of_fmap. split.
    + intros ([n b] & -> & Hin). cbn.
      apply get_baseline_metrics_entries in Hin as [Hin Hb].
      split; [exact Hin|].
      now destruct (baseline_of_spec sqrt _ b
                      (historical_values_positive n snapshots) Hb).
    + intros [Hin Hne].
      destruct (baseline_of sqrt (historical_values name snapshots))
        as [b|] eqn:Hb.
      * exists (name, b). split; [reflexivity|].
        now apply get_baseline_metrics_entries.
      * unfold baseline_of in Hb.
        destruct (historical_values name snapshots); [congruence|discriminate].
  - intros name b Hin. cbn zeta.
    apply get_baseline_metrics_entries in Hin as [_ Hb].
    now destruct (baseline_of_spec sqrt _ b
                    (historical_values_positive name snapshots) Hb)
      as (_ & ?).
Qed.

End smoothing_props.

Module weekly_trends_props.
Import pyfloat pystr pylist pylist_more_props executive_models pattern_models.
Import statistics trend_analyzer trend_analyzer_terms trend_history_terms.
Import trend_more_props snapshot_props.
Local Open Scope Q_scope.
Local Open Scope string_scope.

Lemma length_positive_le (values : list Q) :
  (length (filter (fun val => Qltb 0 val = true) values) <= length values)%nat.
Proof. apply length_filter. Qed.

(** X15: The weekly trends.  Without an earlier snapshot there are none.
    Otherwise there is one trend for each tracked metric, in the fixed
    order; its previous value is the value of the first snapshot handed in,
    whatever the later ones hold; its data points are the current week and
    at most one for each earlier snapshot; the current strategic alignment
    is the one read from the daily plans; and the current value of the
    active hours is always 1, because the current snapshot is built without
    the active minutes. *)
Theorem weekly_trends_shape (sqrt : Q -> Q) (period_start period_end : date)
    (strategic_alignment : Q) (report : PatternReport) :
  analyze_weekly_trends sqrt period_start period_end strategic_alignment
    report [] = []
  /\ forall prev rest,
       let trends := analyze_weekly_trends sqrt period_start period_end
                       strategic_alignment report (prev :: rest) in
       metric_name <$> trends = tracked_metrics
       /\ previous_value <$> trends
          = [ productivity_score prev; strategic_alignment_avg prev;
              pattern_diversity prev; success_signal_rate prev;
              inject_Z (active_hours prev) ]
       /\ Forall (fun t => (1 <= data_points t
                            <= Z.of_nat (length (prev :: rest)) + 1)%Z)
                 trends
       /\ (forall t, t ∈ trends ->
             (metric_name t = "strategic_alignment" ->
              current_value t = strategic_alignment)
             /\ (metric_name t = "active_hours" -> current_value t = 1)).
Proof.
  split; [reflexivity|]. intros prev rest. cbn zeta.
  unfold analyze_weekly_trends, _calculate_metric_trend.
  split; [reflexivity|]. split; [reflexivity|]. split.
  - repeat (apply Forall_cons; split); [| | | | |apply Forall_nil_2];
      cbn [data_points].
    + rewrite length_fmap. cbn [length]. lia.
    + pose proof (length_positive_le
                    (strategic_alignment_avg <$> prev :: rest)) as H.
      rewrite length_fmap in H. cbn [length] in *. lia.
    + pose proof (length_positive_le (pattern_diversity <$> prev :: rest))
        as H.
      rewrite length_fmap in H. cbn [length] in *. lia.
    + pose proof (length_positive_le (success_signal_rate <$> prev :: rest))
        as H.
      rewrite length_fmap in H. cbn [length] in *. lia.
    + pose proof (length_positive_le
                    ((fun s => inject_Z (active_hours s)) <$> prev :: rest))
        as H.
      rewrite length_fmap in H. cbn [length] in *. lia.
  - intros t Ht.
    repeat (apply elem_of_cons in Ht as [->|Ht];
            [cbn [metric_name current_value]; split; intros Hname;
             first [discriminate Hname | reflexivity]|]).
    now apply elem_of_nil in Ht.
Qed.

End weekly_trends_props.

Module alert_rules_props.
Import pyfloat pystr pylist pylist_more_props executive_models pattern_models.
Import pattern_analyzer trend_analyzer alert_system alert_system_terms.
Import mining_terms mining_props alert_rules_terms trend_more_props.
Local Open Scope Q_scope.
Local Open Scope string_scope.

Lemma omap_cons_app {A B} (f : A -> option B) (x : A) (l : list A) :
  omap f (x :: l) = (omap f [x] ++ omap f l)%list.
Proof. cbn. destruct (f x); reflexivity. Qed.

Lemma productivity_severity (cfg : Config) (c : Q) :
  c < 0 ->
  (_calculate_alert_severity cfg c PRODUCTIVITY = CRITICAL <-> c <= - (40))
  /\ (_calculate_alert_severity cfg c PRODUCTIVITY = WARNING
      <-> - (40) < c <= - (20))
  /\ (_calculate_alert_severity cfg c PRODUCTIVITY = INFO <-> - (20) < c).
Proof.
  intros Hneg. unfold _calculate_alert_severity.
  apply Qltb_lt in Hneg as Hb. rewrite Hb. cbv zeta.
  unfold CRITICAL_DROP_THRESHOLD, WARNING_DROP_THRESHOLD.
  destruct (Qle_bool (0.40 * 100) (Qabs c)) eqn:Hcrit.
  - apply Qle_bool_iff in Hcrit. rewrite Qabs_neg in Hcrit by lra.
    split; [split; [intros _; lra | reflexivity]|].
    split; (split; [discriminate | lra]).
  - assert (- (40) < c) as Hc.
    { apply Qnot_le_lt. intros Hle.
      assert (Qle_bool (0.40 * 100) (Qabs c) = true) as Habs
        by (apply Qle_bool_iff; rewrite Qabs_neg by lra; lra).
      congruence. }
    destruct (Qle_bool (0.20 * 100) (Qabs c)) eqn:Hwarn.
    + apply Qle_bool_iff in Hwarn. rewrite Qabs_neg in Hwarn by lra.
      split; [split; [discriminate | lra]|].
      split; [split; [intros _; lra | reflexivity]|].
      split; [discriminate | lra].
    + assert (- (20) < c) as Hc'.
      { apply Qnot_le_lt. intros Hle.
        assert (Qle_bool (0.20 * 100) (Qabs c) = true) as Habs
          by (apply Qle_bool_iff; rewrite Qabs_neg by lra; lra).
        congruence. }
      split; [split; [discriminate | lra]|].
      split; [split; [discriminate | lra]|].
      split; [intros _; exact Hc' | reflexivity].
Qed.

Lemma productivity_alert_single (cfg : Config) (now : datetime)
    (m : TrendMetric) :
  (productivity_drop m ->
   exists a,
     _check_productivity_alerts cfg now [m] = [a]
     /\ category a = PRODUCTIVITY
     /\ acknowledged a = false
     /\ created_at a = now
     /\ data_evidence a = trend_evidence m
     /\ threshold_triggered a = Some (change_percent m)
     /\ (severity a = CRITICAL /\ change_percent m <= - (40)
         \/ severity a = WARNING /\ - (40) < change_percent m))
  /\ (~ productivity_drop m -> _check_productivity_alerts cfg now [m] = []).
Proof.
  unfold productivity_drop, _check_productivity_alerts. cbn [omap list_omap].
  destruct (String.eqb_spec (metric_name m) "productivity_score")
    as [Hname|Hname]; cbn [andb].
  2:{ split; [intros [? _]; congruence | reflexivity]. }
  destruct (Qltb (change_percent m) 0) eqn:Hneg.
  2:{ apply Qltb_ge in Hneg.
      split; [intros [_ ?]; lra | reflexivity]. }
  apply Qltb_lt in Hneg.
  destruct (productivity_severity cfg (change_percent m) Hneg)
    as (Hcrit & Hwarn & Hinfo).
  destruct (_calculate_alert_severity cfg (change_percent m) PRODUCTIVITY)
    eqn:Hsev.
  - split; [|intros Hno; exfalso; apply Hno; split; [exact Hname|];
             assert (change_percent m <= - (40)) by (now apply Hcrit); lra].
    intros _. eexists. split; [reflexivity|]. cbn.
    repeat (split; [reflexivity|]). left. split; [reflexivity|].
    now apply Hcrit.
  - split; [|intros Hno; exfalso; apply Hno; split; [exact Hname|];
             assert (- (40) < change_percent m <= - (20))
               by (now apply Hwarn); lra].
    intros _. eexists. split; [reflexivity|]. cbn.
    repeat (split; [reflexivity|]). right. split; [reflexivity|].
    now apply Hwarn.
  - assert (- (20) < change_percent m) by now apply Hinfo.
    split; [intros [_ ?]; lra | reflexivity].
Qed.

Lemma productivity_alerts_filter (cfg : Config) (now : datetime)
    (metrics : list TrendMetric) :
  let alerts := _check_productivity_alerts cfg now metrics in
  threshold_triggered <$> alerts
  = (fun m => Some (change_percent m)) <$> filter productivity_drop metrics
  /\ Forall
       (fun a =>
          category a = PRODUCTIVITY /\ acknowledged a = false
          /\ created_at a = now
          /\ exists change,
               threshold_triggered a = Some change
               /\ (severity a = CRITICAL /\ change <= - (40)
                   \/ severity a = WARNING
                      /\ - (40) < change <= - (20)))
       alerts.
Proof.
  cbn zeta. induction metrics as [|m ms [IHt IHa]].
  - split; [reflexivity | constructor].
  - unfold _check_productivity_alerts in *.
    rewrite omap_cons_app, filter_cons, fmap_app.
    destruct (productivity_alert_single cfg now m) as [Hdrop Hnone].
    unfold _check_productivity_alerts in Hdrop, Hnone.
    destruct (decide (productivity_drop m)) as [Hm|Hm].
    + destruct (Hdrop Hm)
        as (a & -> & Hcat & Hack & Hat & _ & Hthr & Hsev).
      split.
      * cbn [fmap list_fmap app]. rewrite Hthr. f_equal. exact IHt.
      * apply Forall_app. split; [|exact IHa].
        apply Forall_singleton.
        split; [exact Hcat|]. split; [exact Hack|]. split; [exact Hat|].
        exists (change_percent m). split; [exact Hthr|].
        destruct Hm as [_ Hm].
        destruct Hsev as [[? ?]|[? ?]]; [left | right]; split;
          try assumption. split; assumption.
    + rewrite (Hnone Hm). split; [exact IHt | exact IHa].
Qed.

(** X16: Productivity alerts: there is one for each productivity-score metric
    that fell by 20% or more, in the order of the metrics, and none for a
    smaller drop; it is critical from a drop of 40% on and a warning below.
    The configured productivity threshold plays no part: every
    configuration gives the same alerts. *)
Theorem productivity_alerts_thresholds (cfg : Config) (now : datetime)
    (metrics : list TrendMetric) :
  let alerts := _check_productivity_alerts cfg now metrics in
  threshold_triggered <$> alerts
  = (fun m => Some (change_percent m)) <$> filter productivity_drop metrics
  /\ Forall
       (fun a =>
          category a = PRODUCTIVITY /\ acknowledged a = false
          /\ created_at a = now
          /\ exists change,
               threshold_triggered a = Some change
               /\ (severity a = CRITICAL /\ change <= - (40)
                   \/ severity a = WARNING
                      /\ - (40) < change <= - (20)))
       alerts
  /\ forall cfg', _check_productivity_alerts cfg' now metrics = alerts.
Proof.
  cbn zeta.
  destruct (productivity_alerts_filter cfg now metrics) as [Ht Ha].
  split; [exact Ht|]. split; [exact Ha|].
  intros cfg'. reflexivity.
Qed.

Lemma alignment_alert_single (cfg : Config) (now : datetime)
    (m : TrendMetric) :
  (length (_check_alignment_alerts cfg now [m]) <= 1)%nat
  /\ (_check_alignment_alerts cfg now [m] <> [] ->
      metric_name m = "strategic_alignment"
      /\ change_percent m < - alignment_threshold cfg * 100).
Proof.
  unfold _check_alignment_alerts. cbn [omap list_omap].
  destruct (String.eqb_spec (metric_name m) "strategic_alignment")
    as [Hname|Hname]; cbn [andb].
  2:{ split; [cbn; lia | congruence]. }
  destruct (Qltb (change_percent m) (- alignment_threshold cfg * 100))
    eqn:Hlt.
  - apply Qltb_lt in Hlt. split; [cbn; lia | intros _; now split].
  - split; [cbn; lia | congruence].
Qed.

Lemma opportunity_alert_single (now : datetime) (m : TrendMetric) :
  (improvement m ->
   exists a, _check_opportunity_alerts now [m] = [a]
             /\ severity a = INFO /\ category a = OPPORTUNITY)
  /\ (~ improvement m -> _check_opportunity_alerts now [m] = []).
Proof.
  unfold improvement, _check_opportunity_alerts. cbn [omap list_omap].
  destruct (Qltb 20 (change_percent m)) eqn:Hlt.
  - apply Qltb_lt in Hlt. split; [|tauto].
    intros _. eexists. split; [reflexivity|]. now split.
  - apply Qltb_ge in Hlt. split; [intros ?; lra | reflexivity].
Qed.

Lemma opportunity_count (now : datetime) (metrics : list TrendMetric) :
  length (filter (fun a => category a = OPPORTUNITY)
            (_check_opportunity_alerts now metrics))
  = length (filter improvement metrics).
Proof.
  induction metrics as [|m ms IH]; [reflexivity|].
  unfold _check_opportunity_alerts in *.
  rewrite omap_cons_app, filter_app, length_app, IH, filter_cons.
  destruct (opportunity_alert_single now m) as [Ho Ho'].
  unfold _check_opportunity_alerts in Ho, Ho'.
  destruct (decide (improvement m)) as [Hup|Hup].
  - destruct (Ho Hup) as (a & -> & _ & Hcat).
    rewrite filter_cons, decide_True by exact Hcat. reflexivity.
  - rewrite (Ho' Hup). reflexivity.
Qed.

Lemma alerts_of_one_metric (cfg : Config) (now : datetime) (m : TrendMetric) :
  - (0.2) <= alignment_threshold cfg ->
  (length (_check_productivity_alerts cfg now [m])
   + length (_check_alignment_alerts cfg now [m])
   + length (_check_opportunity_alerts now [m]) <= 1)%nat.
Proof.
  intros Hthr.
  destruct (productivity_alert_single cfg now m) as [Hp Hp'].
  destruct (alignment_alert_single cfg now m) as [Ha Ha'].
  destruct (opportunity_alert_single now m) as [Ho Ho'].
  destruct (decide (improvement m)) as [Hup|Hup].
  - rewrite Hp'.
    2:{ intros [_ Hdrop]. unfold improvement in Hup. lra. }
    destruct (_check_alignment_alerts cfg now [m]) as [|a l] eqn:Halign.
    + destruct (Ho Hup) as (a & -> & _). cbn. lia.
    + exfalso. destruct Ha' as [_ Hlt]; [discriminate|].
      unfold improvement in Hup. lra.
  - rewrite (Ho' Hup).
    destruct (decide (productivity_drop m)) as [Hdrop|Hdrop].
    + destruct (Hp Hdrop) as (a & -> & _).
      destruct (_check_alignment_alerts cfg now [m]) as [|a' l] eqn:Halign;
        [cbn; lia|].
      exfalso. destruct Ha' as [Hname _]; [discriminate|].
      destruct Hdrop as [Hname' _]. congruence.
    + rewrite (Hp' Hdrop). cbn in *. lia.
Qed.

Lemma collect_alerts_of_metrics (cfg : Config) (now : datetime)
    (metrics : list TrendMetric) :
  - (0.2) <= alignment_threshold cfg ->
  (length (_check_productivity_alerts cfg now metrics)
   + length (_check_alignment_alerts cfg now metrics)
   + length (_check_opportunity_alerts now metrics) <= length metrics)%nat.
Proof.
  intros Hthr. induction metrics as [|m ms IH]; [cbn; lia|].
  pose proof (alerts_of_one_metric cfg now m Hthr) as Hone.
  unfold _check_productivity_alerts, _check_alignment_alerts,
    _check_opportunity_alerts in *.
  rewrite !(omap_cons_app _ m ms), !length_app. cbn [length]. lia.
Qed.

(** X17: Without anomalies and without a pattern report a metric raises at
    most one alert, provided the alignment threshold is not below -0.2: the
    productivity, alignment and opportunity rules exclude one another, so
    there are never more alerts than metrics. *)
Theorem at_most_one_alert_per_metric (cfg : Config) (now : datetime)
    (metrics : list TrendMetric) :
  - (0.2) <= alignment_threshold cfg ->
  exists alerts,
    collect_alerts cfg now metrics [] None = Some alerts
    /\ (length alerts <= length metrics)%nat
    /\ length (filter (fun a => category a = OPPORTUNITY) alerts)
       = length (filter improvement metrics).
Proof.
  intros Hthr. unfold collect_alerts. cbn [_create_anomaly_alerts mapM].
  eexists. split; [reflexivity|].
  pose proof (collect_alerts_of_metrics cfg now metrics Hthr) as Hlen.
  split.
  { rewrite !length_app. cbn [length]. lia. }
  rewrite !filter_app, !length_app. cbn [filter list_filter length].
  clear Hlen.
  assert (filter (fun a => category a = OPPORTUNITY)
            (_check_productivity_alerts cfg now metrics) = []) as ->.
  { destruct (productivity_alerts_filter cfg now metrics) as [_ Hall].
    cbn zeta in Hall. induction Hall as [|a l (Hcat & _) _ IH];
      [reflexivity|].
    rewrite filter_cons, decide_False by congruence. exact IH. }
  assert (filter (fun a => category a = OPPORTUNITY)
            (_check_alignment_alerts cfg now metrics) = []) as ->.
  { unfold _check_alignment_alerts.
    induction metrics as [|m ms IH]; [reflexivity|].
    rewrite omap_cons_app, filter_app, IH, app_nil_r. cbn [omap list_omap].
    destruct (_ && _); [|reflexivity].
    cbn. rewrite decide_False by (cbn; congruence). reflexivity. }
  rewrite opportunity_count. cbn [length]. lia.
Qed.

Lemma at_most_one_alert_per_metric_witness :
  exists alerts,
    collect_alerts default_config sample_now fifteen_alert_metrics [] None
    = Some alerts
    /\ (length alerts <= length fifteen_alert_metrics)%nat
    /\ length (filter (fun a => category a = OPPORTUNITY) alerts)
       = length (filter improvement fifteen_alert_metrics).
Proof.
  apply (at_most_one_alert_per_metric default_config sample_now
           fifteen_alert_metrics).
  now vm_compute.
Defined.

(** With a more negative alignment threshold one metric can raise two
    alerts: an alignment alert and an opportunity alert for the same
    rise. *)
Example two_alerts_for_one_metric :
  (fun a => (severity a, category a))
    <$> default [] (collect_alerts (mk_Config 0.15 (-0.5) 10) sample_now
                      [metric_with_change "strategic_alignment" 30] [] None)
  = [(INFO, ALIGNMENT); (INFO, OPPORTUNITY)].
Proof. reflexivity. Qed.

End alert_rules_props.

Module pattern_alert_props.
Import pyfloat pystr pylist pylist_more_props executive_models pattern_models.
Import pattern_analyzer trend_analyzer alert_system alert_system_terms.
Import mining_terms mining_props alert_rules_terms trend_more_props.
Import alert_rules_props.
Local Open Scope Q_scope.
Local Open Scope string_scope.

Lemma mined_confidence_threshold (count : Z) :
  Qle_bool NEW_PATTERN_CONFIDENCE_THRESHOLD (Qmin 1 (inject_Z count / 10))
  = true <-> (7 <= count)%Z.
Proof.
  rewrite Qle_bool_iff. unfold NEW_PATTERN_CONFIDENCE_THRESHOLD.
  assert (7 # 10 <= inject_Z count / 10 <-> (7 <= count)%Z) as Hdiv.
  { split.
    - intros H. apply (Qmult_le_r _ _ 10) in H; [|reflexivity].
      assert (inject_Z count / 10 * 10 == inject_Z count) as Heq by field.
      rewrite Heq in H. change ((7 # 10) * 10) with (70 # 10) in H.
      unfold Qle in H. cbn in H. lia.
    - intros H. apply Qle_shift_div_l; [reflexivity|].
      unfold Qle. cbn. lia. }
  rewrite <- Hdiv. split.
  - intros H. eapply Qle_trans; [exact H | apply Q.le_min_r].
  - intros H. apply Q.min_glb; [now vm_compute | exact H].
Qed.

Lemma pattern_alerts_of_mined (now : datetime) (report : PatternReport) :
  Forall (fun cs => confidence cs
                    = Qmin 1 (inject_Z (occurrence_count cs) / 10))
         (command_sequences report) ->
  let alerts := _check_pattern_alerts now report in
  length alerts = length (filter emerging (command_sequences report))
  /\ Forall (fun a => severity a = INFO /\ category a = PATTERN_CHANGE
                      /\ threshold_triggered a = None
                      /\ acknowledged a = false)
            alerts.
Proof.
  cbn zeta. unfold _check_pattern_alerts.
  induction 1 as [|cs l Hcs _ [IHlen IHall]].
  - split; [reflexivity | constructor].
  - rewrite omap_cons_app, length_app, filter_cons, IHlen.
    cbn [omap list_omap]. rewrite Hcs.
    destruct (Qle_bool _ _) eqn:Hconf.
    + apply mined_confidence_threshold in Hconf.
      destruct (Z.leb_spec 3 (occurrence_count cs)); [|lia].
      destruct (Z.leb_spec (occurrence_count cs) 10); cbn [andb].
      * rewrite decide_True by (unfold emerging; lia).
        split; [reflexivity|].
        apply Forall_app. split; [|exact IHall].
        apply Forall_singleton. repeat split.
      * rewrite decide_False by (unfold emerging; lia).
        split; [reflexivity | exact IHall].
    + cbn [andb].
      rewrite decide_False.
      * split; [reflexivity | exact IHall].
      * unfold emerging. intros [Hlo _].
        apply mined_confidence_threshold in Hlo. congruence.
Qed.

(** X18: Pattern alerts for mined sequences: of the sequences the miner
    reports, exactly those seen seven to ten times raise an alert, an
    informational one of the pattern-change category; the confidence of a
    mined sequence is a tenth of its count, so the confidence threshold 0.7
    asks for seven occurrences, and more than ten are no longer new. *)
Theorem pattern_alerts_for_mined_sequences (now : datetime)
    (cfg : pattern_analyzer.Config) (rows : list CommandRow)
    (report : PatternReport) :
  command_sequences report = analyze_command_sequences cfg rows ->
  let alerts := _check_pattern_alerts now report in
  length alerts = length (filter emerging (command_sequences report))
  /\ Forall (fun a => severity a = INFO /\ category a = PATTERN_CHANGE
                      /\ threshold_triggered a = None
                      /\ acknowledged a = false)
            alerts.
Proof.
  intros Hmined. apply pattern_alerts_of_mined.
  rewrite Hmined. apply Forall_forall. intros cs Hcs.
  apply analyze_command_sequences_elem_of in Hcs as (w & _ & _ & ->).
  reflexivity.
Qed.

Lemma pattern_alerts_for_mined_sequences_witness :
  let report :=
    mk_PatternReport
      (analyze_command_sequences
         (pattern_analyzer.mk_Config 3 1 0.3 2 2 5 30 0.5) ten_commits)
      [] None [] "2025-01-30T09:00:00" 0.5 in
  let alerts := _check_pattern_alerts sample_now report in
  length alerts = length (filter emerging (command_sequences report))
  /\ Forall (fun a => severity a = INFO /\ category a = PATTERN_CHANGE
                      /\ threshold_triggered a = None
                      /\ acknowledged a = false)
            alerts.
Proof.
  apply (pattern_alerts_for_mined_sequences sample_now
           (pattern_analyzer.mk_Config 3 1 0.3 2 2 5 30 0.5) ten_commits).
  reflexivity.
Defined.

(** Ten uses of one command give one sequence and one alert. *)
Example ten_commits_alert :
  length (_check_pattern_alerts sample_now
            (mk_PatternReport
               (analyze_command_sequences
                  (pattern_analyzer.mk_Config 3 1 0.3 2 2 5 30 0.5)
                  ten_commits)
               [] None [] "2025-01-30T09:00:00" 0.5)) = 1%nat.
Proof. reflexivity. Qed.

End pattern_alert_props.

Module goal_ranking_props.
Import pyfloat pystr pylist pylist_props pylist_more_props.
Import executive_models pattern_models goal_recommender.
Import goal_recommender_terms goal_recommender_props goal_ranking_terms.
Import trend_analyzer_terms trend_more_props.
Local Open Scope Q_scope.
Local Open Scope string_scope.

Lemma okr_alignment_lengths (okr : Okr)
    (file_paths command_list : list string) :
  length (okr_alignment okr file_paths command_list).1
  = length (okr_alignment okr file_paths command_list).2.
Proof.
  unfold okr_alignment, check_keywords, check_commands, check_file_paths.
  set (P := fun st : Alignment => length st.1 = length st.2).
  assert (forall st p f, P st -> P (record_match st p f)) as Hrec.
  { intros st p f Hst. unfold P, record_match in *. cbn.
    rewrite !length_app, Hst. reflexivity. }
  apply (fold_left_invariant P).
  { intros st keyword Hst.
    repeat match goal with |- context [if ?b then _ else _] => destruct b end;
      try exact Hst.
    now apply Hrec. }
  apply (fold_left_invariant P).
  { intros st command Hst. cbn zeta.
    destruct (existsb _ _); [now apply Hrec | exact Hst]. }
  apply (fold_left_invariant P).
  { intros st file_path Hst.
    destruct (existsb _ _); [now apply Hrec | exact Hst]. }
  reflexivity.
Qed.

Lemma progress_indicator_cases (score : Q) (n : Z) (report : PatternReport) :
  _determine_progress_indicator score n report = ON_TRACK /\ 0.7 <= score
  \/ _determine_progress_indicator score n report = AT_RISK
     /\ 0.4 <= score < 0.7
  \/ _determine_progress_indicator score n report = BEHIND /\ score < 0.4.
Proof.
  unfold _determine_progress_indicator.
  destruct (Qle_bool 0.7 score) eqn:Hhigh.
  - left. split; [reflexivity | now apply Qle_bool_iff].
  - assert (score < 0.7) as Hlt.
    { apply Qnot_le_lt. intros Hle. apply Qle_bool_iff in Hle. congruence. }
    destruct (Qle_bool 0.4 score) eqn:Hmid.
    + right. left. split; [reflexivity|].
      split; [now apply Qle_bool_iff | exact Hlt].
    + right. right. split; [reflexivity|].
      apply Qnot_le_lt. intros Hle. apply Qle_bool_iff in Hle. congruence.
Qed.

Lemma correlate_okr_Some (cfg : Config) (now : datetime)
    (report : PatternReport) (file_paths command_list : list string)
    (entry : string * Okr) (c : GoalCorrelation) :
  0 < min_alignment_score cfg ->
  (0 <= max_correlations_per_okr cfg)%Z ->
  correlate_okr cfg now report file_paths command_list entry = Some c ->
  okr_id c = entry.1
  /\ okr_title c = okr_name entry.2
  /\ min_alignment_score cfg <= alignment_score c
  /\ (1 <= evidence_count c)%Z
  /\ length (aligned_patterns c)
     = Nat.min (Z.to_nat (max_correlations_per_okr cfg))
               (Z.to_nat (evidence_count c))
  /\ aligned_patterns c
     `prefix_of` (okr_alignment entry.2 file_paths command_list).1
  /\ (length (recommendations c) <= 3)%nat
  /\ last_activity c = Some now
  /\ progress_matches c.
Proof.
  intros Hmin Hmax. destruct entry as [id okr]. unfold correlate_okr.
  cbn [fst snd].
  pose proof (okr_alignment_lengths okr file_paths command_list) as Hlen.
  destruct (okr_alignment okr file_paths command_list) as [aligned factors].
  cbn [fst snd] in Hlen.
  destruct (Qle_bool _ _) eqn:Hscore; [|discriminate].
  apply Qle_bool_iff in Hscore. intros [= <-].
  cbn [okr_id okr_title alignment_score evidence_count aligned_patterns
       recommendations last_activity].
  split; [reflexivity|]. split; [reflexivity|]. split; [exact Hscore|].
  split.
  { destruct factors as [|f factors].
    - cbn in Hscore. lra.
    - rewrite Hlen. cbn [length]. lia. }
  unfold slice_to.
  destruct (Z.leb_spec 0 (max_correlations_per_okr cfg)) as [_|?]; [|lia].
  split; [rewrite length_take, Nat2Z.id; reflexivity|].
  split; [apply prefix_take|].
  split.
  { unfold _generate_goal_recommendations. rewrite length_take. lia. }
  split; [reflexivity|].
  unfold progress_matches.
  cbn [progress_indicator alignment_score].
  apply progress_indicator_cases.
Qed.

Lemma StronglySorted_weaken {A} (R S : relation A) (l : list A) :
  (forall a b, R a b -> S a b) -> StronglySorted R l -> StronglySorted S l.
Proof.
  intros HRS. induction 1 as [|x l _ IH Hx]; constructor; [exact IH|].
  eapply Forall_impl; [exact Hx | intros y; apply HRS].
Qed.

Lemma correlations_sorted (cs : list GoalCorrelation) :
  StronglySorted score_ge
    (stable_sort
       (fun a b => Qle_bool (alignment_score b) (alignment_score a)) cs).
Proof.
  eapply StronglySorted_weaken;
    [|apply (stable_sort_StronglySorted
               (fun a b => Qle_bool (alignment_score b) (alignment_score a)))].
  - intros a b Hab. now apply Qle_bool_iff in Hab.
  - intros x y Hxy. apply Qle_bool_iff.
    destruct (Qlt_le_dec (alignment_score x) (alignment_score y)) as [Hlt|Hle].
    + lra.
    + apply Qle_bool_iff in Hle. congruence.
  - intros x y z Hxy Hyz. apply Qle_bool_iff in Hxy, Hyz.
    apply Qle_bool_iff. lra.
Qed.

(** X19: Goal correlations, for a positive minimum score and a limit of
    patterns that is not negative: they are ranked by alignment score,
    highest first; there is at most one for an objective; each reaches the
    minimum score, rests on one aligned pattern at least, lists the first
    aligned patterns up to the limit, gives three recommendations at most,
    is dated now, and is on track from a score of 0.7, at risk from 0.4 and
    behind below that. *)
Theorem goal_correlations_ranked (cfg : Config) (now : datetime)
    (okrs : list (string * Okr)) (report : PatternReport) :
  0 < min_alignment_score cfg ->
  (0 <= max_correlations_per_okr cfg)%Z ->
  let result := correlate_patterns_to_goals cfg now okrs report in
  StronglySorted score_ge result
  /\ (okr_id <$> result) ⊆+ okrs.*1
  /\ Forall
       (fun c =>
          min_alignment_score cfg <= alignment_score c
          /\ (1 <= evidence_count c)%Z
          /\ length (aligned_patterns c)
             = Nat.min (Z.to_nat (max_correlations_per_okr cfg))
                       (Z.to_nat (evidence_count c))
          /\ (length (recommendations c) <= 3)%nat
          /\ last_activity c = Some now
          /\ progress_matches c)
       result.
Proof.
  intros Hmin Hmax. cbn zeta. unfold correlate_patterns_to_goals.
  set (file_paths := concat (files <$> file_clusters report)).
  set (command_list := concat (sequence <$> command_sequences report)).
  split; [apply correlations_sorted|]. split.
  - rewrite stable_sort_Permutation.
    apply sublist_submseteq.
    apply (omap_fst_sublist
             (correlate_okr cfg now report file_paths command_list) okr_id).
    intros entry c Hc.
    now destruct (correlate_okr_Some _ _ _ _ _ _ _ Hmin Hmax Hc) as [-> _].
  - rewrite stable_sort_Permutation.
    apply Forall_forall. intros c Hc.
    apply list_elem_of_omap in Hc as (entry & _ & Hc).
    destruct (correlate_okr_Some _ _ _ _ _ _ _ Hmin Hmax Hc)
      as (_ & _ & Hscore & Hev & Hlen & _ & Hrec & Hnow & Hprog).
    repeat split; assumption.
Qed.

Lemma goal_correlations_ranked_witness :
  let result := correlate_patterns_to_goals default_config
                  (mk_datetime (mk_date 2025 1 30) 9 0 0 0) DEFAULT_OKRS
                  automation_report in
  StronglySorted score_ge result
  /\ (okr_id <$> result) ⊆+ DEFAULT_OKRS.*1
  /\ Forall
       (fun c =>
          min_alignment_score default_config <= alignment_score c
          /\ (1 <= evidence_count c)%Z
          /\ length (aligned_patterns c)
             = Nat.min (Z.to_nat (max_correlations_per_okr default_config))
                       (Z.to_nat (evidence_count c))
          /\ (length (recommendations c) <= 3)%nat
          /\ last_activity c = Some (mk_datetime (mk_date 2025 1 30) 9 0 0 0)
          /\ progress_matches c)
       result.
Proof.
  apply (goal_correlations_ranked default_config
           (mk_datetime (mk_date 2025 1 30) 9 0 0 0) DEFAULT_OKRS
           automation_report).
  - reflexivity.
  - cbn. lia.
Defined.

(** On that report only the fourth objective qualifies, by two file
    paths and two keywords. *)
Example automation_report_goals :
  (fun c => (okr_id c, Qred (alignment_score c), progress_indicator c,
             evidence_count c))
    <$> correlate_patterns_to_goals default_config
          (mk_datetime (mk_date 2025 1 30) 9 0 0 0) DEFAULT_OKRS
          automation_report
  = [("obj4", 4 # 5, ON_TRACK, 4%Z)].
Proof. vm_compute. reflexivity. Qed.

Lemma check_keywords_no_files (okr : Okr) (st : Alignment) :
  check_keywords okr [] st = st.
Proof.
  unfold check_keywords. induction (keywords okr) as [|k ks IH]; cbn;
    [reflexivity | exact IH].
Qed.

(** X20: A report without file clusters and command sequences aligns with no
    objective: for a positive minimum score no goal correlation is
    returned, whatever the objectives are. *)
Theorem no_activity_no_goal_correlations (cfg : Config) (now : datetime)
    (okrs : list (string * Okr)) (report : PatternReport) :
  0 < min_alignment_score cfg ->
  file_clusters report = [] -> command_sequences report = [] ->
  correlate_patterns_to_goals cfg now okrs report = [].
Proof.
  intros Hmin Hfiles Hcmds. unfold correlate_patterns_to_goals.
  rewrite Hfiles, Hcmds. cbn [fmap list_fmap concat].
  assert (omap (correlate_okr cfg now report [] []) okrs = []) as ->;
    [|reflexivity].
  induction okrs as [|[id okr] okrs IH]; [reflexivity|].
  cbn [omap list_omap]. rewrite IH.
  unfold correlate_okr, okr_alignment.
  cbn [check_file_paths check_commands fold_left].
  rewrite check_keywords_no_files. cbn [score_of_factors].
  destruct (Qle_bool (min_alignment_score cfg) 0) eqn:Hle; [|reflexivity].
  apply Qle_bool_iff in Hle. lra.
Qed.

Lemma no_activity_no_goal_correlations_witness :
  correlate_patterns_to_goals default_config
    (mk_datetime (mk_date 2025 1 30) 9 0 0 0) DEFAULT_OKRS empty_report = [].
Proof.
  apply (no_activity_no_goal_correlations default_config
           (mk_datetime (mk_date 2025 1 30) 9 0 0 0) DEFAULT_OKRS
           empty_report); reflexivity.
Defined.

Lemma contains_first_char (a : ascii) (needle hay : string) :
  contains (String a needle) hay = true ->
  contains (String a EmptyString) hay = true.
Proof.
  induction hay as [|b hay IH]; cbn; [discriminate|].
  destruct (ascii_dec a b) as [->|Hne].
  - intros _. now destruct hay.
  - cbn. intros H. apply IH, H.
Qed.

Lemma check_commands_step (okr : Okr) (command : string)
    (commands_rest : list string) (st : Alignment) :
  Forall (fun pattern => String.prefix "/" pattern = true) (commands okr) ->
  contains "/" (lstrip_char "/" command) = false ->
  check_commands okr (command :: commands_rest) st
  = check_commands okr commands_rest st.
Proof.
  intros Hpatterns Hclean. unfold check_commands. cbn [fold_left].
  assert (existsb (fun pattern => contains pattern (lstrip_char "/" command))
            (commands okr) = false) as ->; [|reflexivity].
  induction Hpatterns as [|pattern ps Hp _ IH]; [reflexivity|].
  cbn [existsb]. rewrite IH, orb_false_r.
  destruct pattern as [|a pattern]; [cbn in Hp; discriminate|].
  change (String.prefix "/" (String a pattern))
    with (if ascii_dec "/" a then String.prefix "" pattern else false) in Hp.
  destruct (ascii_dec "/" a) as [<-|Hne]; [|discriminate].
  destruct (contains (String "/" pattern) (lstrip_char "/" command)) eqn:Hc;
    [|reflexivity].
  apply contains_first_char in Hc. congruence.
Qed.

(** X21: A command pattern that begins with a slash matches no slash command:
    the command is stripped of its leading slashes before the pattern is
    looked for in it.  For an objective whose command patterns all begin
    with a slash, commands without an inner slash record nothing. *)
Theorem slash_command_patterns_never_match (okr : Okr)
    (command_list : list string) (st : Alignment) :
  Forall (fun pattern => String.prefix "/" pattern = true) (commands okr) ->
  Forall (fun command => contains "/" (lstrip_char "/" command) = false)
         command_list ->
  check_commands okr command_list st = st.
Proof.
  intros Hpatterns Hcommands.
  induction Hcommands as [|command cs Hc _ IH]; [reflexivity|].
  rewrite check_commands_step by assumption. exact IH.
Qed.

Lemma slash_command_patterns_never_match_witness :
  check_commands
    (mk_Okr "Decisions Improve as Work Happens"
       ["dependency"; "risk"; "capacity"; "dynamic planning"; "real-time"]
       ["Products/DPD/"; "Products/AgilePlace/"] ["/today"; "/commit"])
    ["/today"; "/commit"; "/today"] ([], [])
  = ([], []).
Proof.
  apply slash_command_patterns_never_match.
  - repeat constructor.
  - repeat constructor.
Defined.

End goal_ranking_props.

Module store_patterns_props.
Import pystr pylist pylist_more_props executive_models pattern_models.
Import pattern_store pattern_store_terms pattern_store_props.
Import mining_terms store_terms.
Local Open Scope Q_scope.
Local Open Scope string_scope.

Lemma find_pattern_Some_key (key : string) (t : Table) (r : PatternRow) :
  find_pattern key t = Some r -> pattern_store.pattern_key r = key.
Proof.
  unfold find_pattern. intros Hfind. apply find_some in Hfind as [_ Heq].
  now apply String.eqb_eq in Heq.
Qed.

(** What one upsert does to the row of any key. *)
Lemma upsert_find_pattern (json_dumps : list (string * Any) -> string)
    (type_ key : string) (data : list (string * Any)) (confidence : Q)
    (now : string) (t : Table) :
  unique_keys t ->
  exists t',
    _upsert_pattern json_dumps type_ key data confidence now t = Some t'
    /\ (last_id t <= last_id t')%Z
    /\ forall key',
         find_pattern key' t'
         = match find_pattern key' t with
           | Some r =>
               Some (if decide (key' = key)
                     then touch (json_dumps data) confidence now r else r)
           | None =>
               if decide (key' = key)
               then Some (mk_PatternRow (last_id t + 1) type_ key
                            (json_dumps data) confidence now now 1)
               else None
           end.
Proof.
  intros Huniq. destruct (decide (key ∈ keys t)) as [Hin|Habs].
  - rewrite (upsert_present json_dumps type_ key data confidence now t
               Huniq Hin).
    eexists. split; [reflexivity|]. cbn [last_id]. split; [lia|].
    intros key'. unfold find_pattern. cbn [rows].
    destruct (decide (key' = key)) as [->|Hne].
    + rewrite update_find.
      destruct (find _ (rows t)) as [r|] eqn:Hfind; [reflexivity|].
      exfalso. now apply (find_pattern_None key t) in Hfind.
    + rewrite update_find_other by exact Hne.
      now destruct (find _ (rows t)).
  - rewrite (upsert_absent json_dumps type_ key data confidence now t Habs).
    eexists. split; [reflexivity|]. cbn [last_id]. split; [lia|].
    intros key'. unfold find_pattern. cbn [rows].
    rewrite find_app_first.
    destruct (find _ (rows t)) as [r|] eqn:Hfind.
    + destruct (decide (key' = key)) as [->|Hne]; [|reflexivity].
      exfalso. apply Habs.
      apply (find_pattern_Some_key key t) in Hfind as Hkey.
      apply find_some in Hfind as [Hr _].
      unfold keys. apply list_elem_of_fmap. exists r.
      split; [now symmetry | now apply list_elem_of_In].
    + cbn [find pattern_store.pattern_key].
      destruct (String.eqb_spec key key') as [->|Hne].
      * now rewrite decide_True.
      * rewrite decide_False by congruence. reflexivity.
Qed.

Lemma upsert_all_accumulates (json_dumps : list (string * Any) -> string)
    (clock : nat -> string) (upserts : list Upsert) (i : nat) (t : Table) :
  reachable json_dumps t ->
  exists t',
    upsert_all json_dumps clock i upserts t = Some t'
    /\ reachable json_dumps t'
    /\ (last_id t <= last_id t')%Z
    /\ forall key,
         accumulated (occurrences key (upsert_key <$> upserts)) t t' key.
Proof.
  revert i t. induction upserts as [|[[[type_ k] data] confidence] ups IH];
    intros i t Hreach.
  - exists t. split; [reflexivity|]. split; [exact Hreach|]. split; [lia|].
    intros key. unfold accumulated. cbn.
    destruct (find_pattern key t) as [r|].
    + exists r. repeat split. unfold occurrences. cbn. lia.
    + split; [reflexivity | unfold occurrences; cbn; lia].
  - cbn [upsert_all].
    destruct (upsert_find_pattern json_dumps type_ k data confidence
                (clock i) t (reachable_unique_keys _ _ Hreach))
      as (t1 & Hup & Hid & Hfind).
    rewrite Hup.
    assert (reachable json_dumps t1) as Hreach1
      by exact (reachable_upsert json_dumps t t1 _ _ _ _ _ Hreach Hup).
    destruct (IH (S i) t1 Hreach1) as (t' & Hall & Hreach' & Hid' & Hacc).
    exists t'. split; [exact Hall|]. split; [exact Hreach'|].
    split; [lia|].
    intros key. specialize (Hacc key). specialize (Hfind key).
    unfold accumulated in *. rewrite fmap_cons, occurrences_cons.
    change (upsert_key (type_, k, data, confidence)) with k.
    set (n := occurrences key (upsert_key <$> ups)) in *.
    assert (0 <= n)%Z as Hn by apply occurrences_nonneg.
    rewrite Hfind in Hacc. clear Hfind.
    destruct (find_pattern key t) as [r|].
    + destruct Hacc as (r' & Hr' & Hrid & Hty & Hfirst & Hocc).
      exists r'. split; [exact Hr'|].
      repeat case_decide; try congruence; cbn in Hrid, Hty, Hfirst, Hocc;
        repeat split; try assumption; lia.
    + repeat case_decide; try congruence.
      * destruct Hacc as (r' & Hr' & Hrid & _ & _ & Hocc).
        cbn in Hrid, Hocc.
        split; [lia|]. intros _. exists r'.
        split; [exact Hr'|]. split; lia.
      * destruct Hacc as [Hzero Hpos].
        split.
        -- intros Hz. apply Hzero. lia.
        -- intros Hp. destruct Hpos as (r' & Hr' & Hrid & Hocc); [lia|].
           exists r'. split; [exact Hr'|]. split; lia.
Qed.

(** X22: Storing a report in a table built by upserts succeeds and only adds:
    for every key, a row that was there keeps its id, its pattern type and
    its first-seen date and counts one more occurrence for each pattern of
    the report with that key; a key that was not there gets a row with a
    fresh id that counts the patterns of the report with that key; and no
    row appears for a key the report does not name. *)
Theorem store_patterns_accumulates
    (json_dumps : list (string * Any) -> string) (clock : nat -> string)
    (report : PatternReport) (t : Table) :
  reachable json_dumps t ->
  exists t',
    store_patterns json_dumps clock report t = (t', true)
    /\ reachable json_dumps t'
    /\ forall key,
         accumulated
           (occurrences key (upsert_key <$> report_upserts report)) t t' key.
Proof.
  intros Hreach. unfold store_patterns.
  destruct (upsert_all_accumulates json_dumps clock (report_upserts report)
              0 t Hreach) as (t' & -> & Hreach' & _ & Hacc).
  exists t'. split; [reflexivity|]. split; [exact Hreach' | exact Hacc].
Qed.

Lemma store_patterns_accumulates_witness :
  exists t',
    store_patterns plain_dumps (fun _ => "2025-01-31 09:00:00")
      colliding_report stored_once = (t', true)
    /\ reachable plain_dumps t'
    /\ forall key,
         accumulated
           (occurrences key (upsert_key <$> report_upserts colliding_report))
           stored_once t' key.
Proof.
  apply (store_patterns_accumulates plain_dumps
           (fun _ => "2025-01-31 09:00:00") colliding_report stored_once).
  exact stored_once_reachable.
Defined.

(** A file cluster whose id equals the key of a stored command sequence
    is counted on the sequence's row, which keeps the type of a command
    sequence. *)
Example colliding_keys_share_a_row :
  (fun r => (row_id r, pattern_type r, pattern_store.occurrence_count r))
    <$> rows (store_patterns plain_dumps (fun _ => "2025-01-31 09:00:00")
                colliding_report stored_once).1
  = [(1%Z, "command_sequence", 3%Z)].
Proof. reflexivity. Qed.

End store_patterns_props.

Module executive_store_props.
Import pyfloat pystr pylist pylist_more_props executive_models.
Import pattern_store pattern_store_terms executive_store_terms.
Import serialization_props.
Local Open Scope Q_scope.
Local Open Scope string_scope.



(** A stored critical alert that nobody acknowledged is not returned. *)
Example stored_alert_is_not_returned :
  get_active_alerts (fun _ => Some []) empty_list_loads newest_first None 10
    (mk_AlertTable [stored_alert_row] 1) = [].
Proof. reflexivity. Qed.

Lemma snapshot_row_decodes (json_dumps : list (string * Any) -> string)
    (json_dumps_list : list string -> string)
    (json_loads_list : string -> option (list string))
    (now : string) (s : WeeklySnapshot) (id : Z) :
  valid_date (period_start s) = true ->
  valid_date (period_end s) = true ->
  json_dumps_list (top_patterns s) <> "" ->
  json_loads_list (json_dumps_list (top_patterns s)) = Some (top_patterns s) ->
  exists s',
    snapshot_of_row json_loads_list
      (select_snapshot_columns
         (mk_SnapshotRow id (date_isoformat (period_start s))
            (date_isoformat (period_end s)) (productivity_score s)
            (total_events s) (strategic_alignment_avg s)
            (json_dumps_list (top_patterns s)) (anomalies_detected s)
            (pattern_diversity s) (success_signal_rate s) (active_hours s)
            (json_dumps (WeeklySnapshot_to_dict s)) now)) = Some s'
    /\ same_snapshot s' s.
Proof.
  intros Hstart Hend Hne Hjson.
  unfold snapshot_of_row, select_snapshot_columns, column.
  cbn [lookup list_lookup col_period_start col_period_end
       col_productivity_score col_total_events col_strategic_alignment_avg
       col_top_patterns col_anomalies_count col_pattern_diversity
       col_success_signal_rate col_active_hours].
  cbn [sql_date_fromisoformat sql_real sql_int].
  rewrite !date_roundtrip by assumption. cbn [mbind option_bind].
  unfold sql_or_default, sql_parsed. cbn [sql_truthy sql_text sql_real sql_int].
  destruct (String.eqb_spec (json_dumps_list (top_patterns s)) "") as [?|_];
    [congruence|].
  cbn [negb]. rewrite Hjson. cbn [mbind option_bind].
  destruct (Qeq_bool (pattern_diversity s) 0) eqn:Hdiv;
    destruct (Qeq_bool (success_signal_rate s) 0) eqn:Hrate;
    destruct (Z.eqb_spec (active_hours s) 0) as [Hhours|Hhours];
    cbn [negb mbind option_bind];
    (eexists; split; [reflexivity|]);
    unfold same_snapshot;
    cbn [period_start period_end total_events productivity_score
         strategic_alignment_avg top_patterns anomalies_detected
         pattern_diversity success_signal_rate active_hours];
    try apply Qeq_bool_iff in Hdiv; try apply Qeq_bool_iff in Hrate;
    repeat split; try reflexivity; try (now symmetry).
Qed.

Lemma filter_complement_nil {A} (P : A -> Prop) `{!forall x, Decision (P x)}
    (l : list A) :
  filter P (filter (fun x => ~ P x) l) = [].
Proof.
  induction l as [|x l IH]; [reflexivity|].
  rewrite filter_cons. destruct (decide (~ P x)) as [Hout|_]; [|exact IH].
  rewrite filter_cons, decide_False by exact Hout. exact IH.
Qed.

Lemma filter_twice {A} (P : A -> Prop) `{!forall x, Decision (P x)}
    (l : list A) :
  filter P (filter P l) = filter P l.
Proof.
  induction l as [|x l IH]; [reflexivity|].
  rewrite filter_cons. destruct (decide (P x)) as [Hin|_]; [|exact IH].
  rewrite filter_cons, decide_True by exact Hin. now rewrite IH.
Qed.

Lemma mapM_total_elem_of {A B} (f : A -> option B) (l : list A) (x : A)
    (y : B) :
  Forall (fun a => is_Some (f a)) l -> x ∈ l -> f x = Some y ->
  exists k, mapM f l = Some k /\ length k = length l /\ y ∈ k.
Proof.
  intros Hall Hx Hy.
  destruct (mapM_is_Some_2 f l) as [k Hk].
  { eapply Forall_impl; [exact Hall|]. intros a Ha. exact Ha. }
  exists k. split; [exact Hk|].
  apply mapM_Some_1 in Hk.
  split; [symmetry; now apply (Forall2_length _ _ _ Hk)|].
  apply list_elem_of_lookup in Hx as [i Hi].
  destruct (Forall2_lookup_l _ _ _ _ _ Hk Hi) as (y' & Hy' & Hfx).
  assert (y' = y) as -> by congruence.
  apply list_elem_of_lookup. now exists i.
Qed.

(** X24: Storing a weekly snapshot and reading the snapshots back.  When the
    dates are valid, the JSON of the top patterns reads back as the same
    list, every row already stored can be read, and the limit covers all
    rows, the table then holds exactly one row for the week of the
    snapshot, the rows of other weeks are untouched, and the snapshots read
    back are as many as the rows and include one with the values that were
    stored. *)
Theorem weekly_snapshot_store_then_get
    (json_dumps : list (string * Any) -> string)
    (json_dumps_list : list string -> string)
    (json_loads_list : string -> option (list string))
    (order_by_period_start : list SnapshotRow -> list SnapshotRow)
    (now : string) (s : WeeklySnapshot) (weeks : Z) (t : SnapshotTable) :
  valid_date (period_start s) = true ->
  valid_date (period_end s) = true ->
  json_dumps_list (top_patterns s) <> "" ->
  json_loads_list (json_dumps_list (top_patterns s)) = Some (top_patterns s) ->
  (forall l, order_by_period_start l ≡ₚ l) ->
  Forall (decodable json_loads_list) (snapshot_rows t) ->
  let stored := store_weekly_snapshot json_dumps json_dumps_list now s t in
  (Z.of_nat (length (snapshot_rows stored.1)) <= weeks)%Z ->
  stored.2 = true
  /\ length (filter (in_period s) (snapshot_rows stored.1)) = 1%nat
  /\ filter (fun r => ~ in_period s r) (snapshot_rows stored.1)
     = filter (fun r => ~ in_period s r) (snapshot_rows t)
  /\ let result := get_recent_snapshots json_loads_list
                     order_by_period_start weeks stored.1 in
     length result = length (snapshot_rows stored.1)
     /\ exists s', s' ∈ result /\ same_snapshot s' s.
Proof.
  intros Hstart Hend Hne Hjson Horder Hrows. cbn zeta.
  unfold store_weekly_snapshot. cbn [fst snd snapshot_rows].
  change (filter _ (snapshot_rows t))
    with (filter (fun r => ~ in_period s r) (snapshot_rows t)).
  set (others := filter (fun r => ~ in_period s r) (snapshot_rows t)).
  set (row := mk_SnapshotRow _ _ _ _ _ _ _ _ _ _ _ _ _).
  intros Hweeks.
  assert (in_period s row) as Hrow by (split; reflexivity).
  assert (filter (in_period s) others = []) as Hnone
    by apply filter_complement_nil.
  assert (filter (fun r => ~ in_period s r) others = others) as Hothers
    by apply filter_twice.
  split; [reflexivity|]. split.
  { rewrite filter_app, Hnone, filter_cons, decide_True by exact Hrow.
    reflexivity. }
  split.
  { rewrite filter_app, Hothers, filter_cons, decide_False by tauto.
    cbn [filter list_filter]. now rewrite app_nil_r. }
  destruct (snapshot_row_decodes json_dumps json_dumps_list json_loads_list
              now s (snapshot_last_id t + 1) Hstart Hend Hne Hjson)
    as (s' & Hs' & Hsame).
  fold row in Hs'.
  unfold get_recent_snapshots. cbn [snapshot_rows].
  set (rows := (others ++ [row])%list) in *.
  assert (sql_limit weeks (order_by_period_start rows)
          = order_by_period_start rows) as ->.
  { unfold sql_limit. destruct (Z.ltb_spec weeks 0); [reflexivity|].
    apply take_ge. rewrite (Permutation_length (Horder rows)). lia. }
  destruct (mapM_total_elem_of
              (fun r => snapshot_of_row json_loads_list
                          (select_snapshot_columns r))
              (order_by_period_start rows) row s')
    as (k & -> & Hlen & Hin).
  - rewrite (Horder rows). subst rows. apply Forall_app. split.
    + subst others. apply Forall_forall. intros r Hr.
      apply list_elem_of_filter in Hr as [_ Hr].
      rewrite Forall_forall in Hrows. now apply Hrows.
    + apply Forall_singleton. rewrite Hs'. eauto.
  - rewrite (Horder rows). subst rows. apply elem_of_app. right.
    apply list_elem_of_here.
  - exact Hs'.
  - cbn zeta. split.
    + rewrite Hlen. apply Permutation_length, Horder.
    + exists s'. split; assumption.
Qed.

Lemma weekly_snapshot_store_then_get_witness :
  let stored := store_weekly_snapshot plain_dumps empty_list_dumps
                  "2025-02-03 08:00:00" quiet_week
                  (mk_SnapshotTable [] 0) in
  stored.2 = true
  /\ length (filter (in_period quiet_week) (snapshot_rows stored.1)) = 1%nat
  /\ filter (fun r => ~ in_period quiet_week r) (snapshot_rows stored.1)
     = filter (fun r => ~ in_period quiet_week r) []
  /\ let result := get_recent_snapshots empty_list_loads newest_first 4
                     stored.1 in
     length result = length (snapshot_rows stored.1)
     /\ exists s', s' ∈ result /\ same_snapshot s' quiet_week.
Proof.
  apply (weekly_snapshot_store_then_get plain_dumps empty_list_dumps
           empty_list_loads newest_first "2025-02-03 08:00:00" quiet_week 4
           (mk_SnapshotTable [] 0)).
  - reflexivity.
  - reflexivity.
  - discriminate.
  - reflexivity.
  - intros l. unfold newest_first. apply reverse_Permutation.
  - constructor.
  - cbn. lia.
Defined.

End executive_store_props.

Module report_views_props.
Import pyfloat pystr pylist pylist_props pylist_more_props.
Import executive_models pattern_models goal_recommender.
Import goal_recommender_terms goal_recommender_props goal_ranking_terms.
Import goal_ranking_props alert_rules_terms serialization_terms.
Import serialization_props.
Local Open Scope Q_scope.
Local Open Scope string_scope.

Lemma filter_ext_in {A} (P Q : A -> Prop) `{!forall x, Decision (P x)}
    `{!forall x, Decision (Q x)} (l : list A) :
  (forall x, x ∈ l -> P x <-> Q x) -> filter P l = filter Q l.
Proof.
  induction l as [|x l IH]; intros Hext; [reflexivity|].
  rewrite !filter_cons.
  rewrite IH by (intros y Hy; apply Hext; now apply list_elem_of_further).
  pose proof (Hext x (list_elem_of_here x l)) as Hx.
  destruct (decide (P x)), (decide (Q x)); tauto.
Qed.

Lemma correlated_progress (cfg : Config) (now : datetime)
    (okrs : list (string * Okr)) (pattern_report : PatternReport)
    (g : GoalCorrelation) :
  g ∈ correlate_patterns_to_goals cfg now okrs pattern_report ->
  progress_matches g.
Proof.
  unfold correlate_patterns_to_goals. rewrite stable_sort_Permutation.
  intros Hg. apply list_elem_of_omap in Hg as ([id okr] & _ & Hg).
  unfold correlate_okr in Hg.
  destruct (okr_alignment okr _ _) as [aligned factors].
  destruct (Qle_bool _ _); [|discriminate].
  injection Hg as <-. unfold progress_matches.
  cbn [progress_indicator alignment_score].
  apply progress_indicator_cases.
Qed.

(** X25: The goals at risk of a report whose goal correlations come from the
    recommender are exactly the correlations with an alignment score
    below 0.7, in their order. *)
Theorem at_risk_goals_below_on_track (cfg : Config) (now : datetime)
    (okrs : list (string * Okr)) (pattern_report : PatternReport)
    (r : ExecutiveInsightReport) :
  goal_correlations r
  = correlate_patterns_to_goals cfg now okrs pattern_report ->
  at_risk_goals r
  = filter (fun g => alignment_score g < 0.7) (goal_correlations r).
Proof.
  intros Hgoals. unfold at_risk_goals. apply filter_ext_in.
  intros g Hg. rewrite Hgoals in Hg.
  apply correlated_progress in Hg. unfold is_at_risk.
  destruct Hg as [[-> Hs]|[[-> [_ Hs]]|[-> Hs]]].
  - split; [discriminate | lra].
  - split; [intros _; exact Hs | reflexivity].
  - split; [intros _; lra | reflexivity].
Qed.

Lemma at_risk_goals_below_on_track_witness :
  let goals := correlate_patterns_to_goals default_config
                 (mk_datetime (mk_date 2025 1 30) 9 0 0 0) DEFAULT_OKRS
                 mixed_report in
  let r := mk_ExecutiveInsightReport
             (mk_datetime (mk_date 2025 1 30) 9 0 0 0) sample_snapshot
             [] [] goals "summary" [] in
  at_risk_goals r = filter (fun g => alignment_score g < 0.7) goals.
Proof.
  cbn zeta.
  apply (at_risk_goals_below_on_track default_config
           (mk_datetime (mk_date 2025 1 30) 9 0 0 0) DEFAULT_OKRS
           mixed_report).
  reflexivity.
Defined.

(** On that report the third objective is at risk, the fourth is not. *)
Example mixed_report_goals_at_risk :
  let goals := correlate_patterns_to_goals default_config
                 (mk_datetime (mk_date 2025 1 30) 9 0 0 0) DEFAULT_OKRS
                 mixed_report in
  okr_id <$> goals = ["obj4"; "obj3"]
  /\ okr_id <$> at_risk_goals
                  (mk_ExecutiveInsightReport
                     (mk_datetime (mk_date 2025 1 30) 9 0 0 0)
                     sample_snapshot [] [] goals "summary" [])
     = ["obj3"].
Proof. split; reflexivity. Qed.

Lemma mapM_as_str (l : list string) : mapM as_str (AStr <$> l) = Some l.
Proof. exact (as_str_list_roundtrip l). Qed.

(** X26: An alert dictionary without the two optional keys reads back as an
    unacknowledged alert without a triggered threshold; without any other
    key it cannot be read: the lookup of the missing key is an error. *)
Theorem alert_from_dict_missing_keys (a : ExecutiveAlert) :
  wf_ExecutiveAlert a = true ->
  ExecutiveAlert_from_dict
    (filter (fun entry => entry.1 <> "acknowledged"
                          /\ entry.1 <> "threshold_triggered")
            (ExecutiveAlert_to_dict a))
  = Some (mk_ExecutiveAlert (alert_id a) (severity a) (category a) (title a)
            (description a) (data_evidence a) (suggested_actions a)
            (created_at a) false None)
  /\ forall key,
       key ∈ [ "alert_id"; "severity"; "category"; "title"; "description";
               "data_evidence"; "suggested_actions"; "created_at" ] ->
       ExecutiveAlert_from_dict
         (filter (fun entry => entry.1 <> key) (ExecutiveAlert_to_dict a))
       = None.
Proof.
  unfold wf_ExecutiveAlert. intros Hwf. split.
  - assert (filter (fun entry : string * Any =>
                      entry.1 <> "acknowledged"
                      /\ entry.1 <> "threshold_triggered")
                   (ExecutiveAlert_to_dict a)
            = take 8 (ExecutiveAlert_to_dict a)) as -> by reflexivity.
    unfold ExecutiveAlert_from_dict, ExecutiveAlert_to_dict. cbn.
    rewrite AlertSeverity_roundtrip. cbn.
    rewrite AlertCategory_roundtrip. cbn.
    rewrite mapM_as_str. cbn.
    rewrite datetime_roundtrip by assumption. reflexivity.
  - intros key Hkey.
    assert (forall i : nat,
              (i < 8)%nat ->
              ExecutiveAlert_from_dict
                (take i (ExecutiveAlert_to_dict a)
                 ++ drop (S i) (ExecutiveAlert_to_dict a))%list = None)
      as Hmissing.
    { intros i Hi.
      do 8 (destruct i as [|i];
            [unfold ExecutiveAlert_from_dict, ExecutiveAlert_to_dict; cbn;
             try reflexivity;
             try (rewrite AlertSeverity_roundtrip; cbn; try reflexivity);
             try (rewrite AlertCategory_roundtrip; cbn; try reflexivity);
             try (rewrite mapM_as_str; cbn; try reflexivity)|]).
      lia. }
    repeat (apply elem_of_cons in Hkey as [->|Hkey]);
      try (now apply elem_of_nil in Hkey).
    + exact (Hmissing 0%nat ltac:(lia)).
    + exact (Hmissing 1%nat ltac:(lia)).
    + exact (Hmissing 2%nat ltac:(lia)).
    + exact (Hmissing 3%nat ltac:(lia)).
    + exact (Hmissing 4%nat ltac:(lia)).
    + exact (Hmissing 5%nat ltac:(lia)).
    + exact (Hmissing 6%nat ltac:(lia)).
    + exact (Hmissing 7%nat ltac:(lia)).
Qed.

Lemma alert_from_dict_missing_keys_witness :
  ExecutiveAlert_from_dict
    (filter (fun entry => entry.1 <> "acknowledged"
                          /\ entry.1 <> "threshold_triggered")
            (ExecutiveAlert_to_dict sample_alert))
  = Some (mk_ExecutiveAlert (alert_id sample_alert) (severity sample_alert)
            (category sample_alert) (title sample_alert)
            (description sample_alert) (data_evidence sample_alert)
            (suggested_actions sample_alert) (created_at sample_alert)
            false None)
  /\ ExecutiveAlert_from_dict
       (filter (fun entry => entry.1 <> "created_at")
               (ExecutiveAlert_to_dict sample_alert))
     = None.
Proof.
  destruct (alert_from_dict_missing_keys sample_alert) as [Hopt Hreq];
    [reflexivity|].
  split; [exact Hopt|]. apply Hreq. set_solver.
Defined.

End report_views_props.
